(** * Risk-assessment engine of defi-research-agent

    A shallow embedding of the two TypeScript classes that hold the decision
    logic of the repository:

    - [ContractScanner] (contract-scanner.ts): [analyzeContract] and
      [generateRedFlags];
    - [ScamDetector], which imports it: [detectScam] and its private helpers.

    Conventions of the embedding.

    - A TypeScript [number] that the code only ever uses as an integer
      (tax percentages produced by [parseInt], holder and follower counts,
      unix timestamps, the readings of [Date.now()], and the running score of
      the five calculators, which starts at an integer and moves by integer
      steps) is a [Z].  A [number] that is measured or fractional (holder
      percentages, market cap, engagement, sentiment, bot activity) is a
      binary64 [float], with the IEEE operations of the kernel, which are the
      operations of a JavaScript engine.
    - The weighted sum of [detectScam] is computed on binary64 floats with the
      constants of the source, and rounded with [Math_round].
    - [async] functions are modelled by what they resolve to; a rejected
      promise is [Thrown].
    - [Date.now()] is read from an explicit [Clock].
    - An array that is mutated in place and read again afterwards is threaded
      through as an explicit value (see [generateWarnings]). *)

From Stdlib Require Import ZArith List String Bool Lia Permutation Sorted.
From Stdlib Require Import PrimFloat SpecFloat FloatOps FloatAxioms Uint63.
From Stdlib Require Import DecimalString.
Import ListNotations.

(* The decimal literals 0.3, 0.2, 0.15, 0.1 and 0.05 of the source denote, here
   as in JavaScript, the nearest binary64 value. *)
Set Warnings "-inexact-float".

Local Open Scope string_scope.
Local Open Scope list_scope.
Local Open Scope Z_scope.

(** ** Results of asynchronous calls *)

Inductive Failure : Type :=
| RegistryUnavailable   (* the D1 query [SELECT * FROM scam_patterns] rejects *)
| MalformedIndicators.  (* [JSON.parse] throws, or its value is not iterable *)

Inductive Outcome (A : Type) : Type :=
| Returned (a : A)
| Thrown (e : Failure).

Arguments Returned {A} a.
Arguments Thrown {A} e.

Definition bind {A B : Type} (c : Outcome A) (k : A -> Outcome B) : Outcome B :=
  match c with
  | Returned a => k a
  | Thrown e => Thrown e
  end.

Notation "x <- c ;; k" := (bind c (fun x => k))
  (at level 61, c at next level, right associativity).

Definition mapOutcome {A B : Type} (f : A -> B) (c : Outcome A) : Outcome B :=
  x <- c ;; Returned (f x).

(** ** JavaScript built-ins used by the two classes *)

(** Truthiness of a string: every string but the empty one. *)
Definition truthy (s : string) : bool :=
  match s with
  | EmptyString => false
  | String _ _ => true
  end.

(** [Array.prototype.join]. *)
Definition join (sep : string) (parts : list string) : string :=
  String.concat sep parts.

(** [`${n}`] for an integer-valued number: its decimal numeral. *)
Definition Z_toString (n : Z) : string :=
  NilZero.string_of_int (Z.to_int n).

(** The exact conversion of an integer of magnitude below 2^53 to a number. *)
Definition number_of_Z (n : Z) : float :=
  if 0 <=? n then of_uint63 (Uint63.of_Z n)
  else PrimFloat.opp (of_uint63 (Uint63.of_Z (- n))).

(** [Math.round] on a finite number: the nearest integer, a tie going to the
    integer closer to +infinity.  A finite binary64 value is [n * 2^e] for
    integers [n] and [e]; the result is [floor (n * 2^e + 1/2)], computed
    exactly.  JavaScript returns NaN and the infinities unchanged; they are
    not integers and map to 0 here (the weighted sum of [detectScam] is always
    finite: [weightedSum_finite]). *)
Definition Math_round (x : float) : Z :=
  match Prim2SF x with
  | S754_finite s m e =>
      let n := if s then Z.neg m else Z.pos m in
      if 0 <=? e then n * 2 ^ e
      else (2 * n + 2 ^ (- e)) / 2 ^ (1 - e)
  | _ => 0
  end.

(** [Math.max(0, Math.min(100, score))] on an integer score. *)
Definition clampScore (score : Z) : Z :=
  Z.max 0 (Z.min 100 score).

(** The number built-ins whose value is a string or comes from one.  They are
    part of the JavaScript engine, not of the repository; the engine under
    verification is parametrised by them. *)
Class NumberBuiltins : Type := {
  parseFloat : string -> float;
  (* [x.toFixed(2)] *)
  toFixed2 : float -> string;
  (* [`${x}`] for a number [x] *)
  Number_toString : float -> string
}.

(** ** Data model (src/agent/types.ts) *)

Inductive Severity : Type := CRITICAL | HIGH | MEDIUM | LOW.

Definition Severity_eqb (a b : Severity) : bool :=
  match a, b with
  | CRITICAL, CRITICAL | HIGH, HIGH | MEDIUM, MEDIUM | LOW, LOW => true
  | _, _ => false
  end.

(** The text of a severity, as a template literal prints it. *)
Definition Severity_text (s : Severity) : string :=
  match s with
  | CRITICAL => "CRITICAL"
  | HIGH => "HIGH"
  | MEDIUM => "MEDIUM"
  | LOW => "LOW"
  end.

(** [category] is declared as a union of five literals, but [matchScamPatterns]
    stores the [pattern_type] column of the registry in it unchecked (the
    schema lists 'CONTRACT', 'BEHAVIOR', 'SOCIAL', etc.), so it is a string. *)
Record RedFlag : Type := {
  severity : Severity;
  category : string;
  description : string;
  evidence : option string
}.

Inductive Recommendation : Type :=
| AVOID | HIGH_RISK | MODERATE_RISK | LOW_RISK | SAFE.

Record RiskScore : Type := {
  overall : Z;
  contractSafety : Z;
  tokenomics : Z;
  teamCredibility : Z;
  communityHealth : Z;
  liquidityRisk : Z;
  redFlags : list RedFlag;
  warnings : list string;
  recommendation : Recommendation;
  analysisTimestamp : Z
}.

Record ProjectData : Type := {
  id : string;
  contractAddress : string;
  name : string;
  symbol : option string;
  chain : string;
  discoveredAt : Z;
  projectDescription : option string;
  projectCategory : option string;
  website : option string;
  twitter : option string;
  telegram : option string;
  discord : option string;
  whitepaper : option string;
  github : option string
}.

Record ContractAnalysis : Type := {
  verified : bool;
  isProxy : bool;
  hasHoneypot : bool;
  hasMintFunction : bool;
  hasPauseFunction : bool;
  hasBlacklist : bool;
  hasWhitelist : bool;
  buyTax : Z;
  sellTax : Z;
  ownershipRenounced : bool;
  maxWalletLimit : option Z;
  maxTxLimit : option Z;
  lpLocked : bool;
  lpLockDuration : option Z;
  creatorAddress : string;
  creationTimestamp : Z
}.

Record Holder : Type := {
  address : string;
  balance : string;
  percentage : float
}.

Record TokenomicsAnalysis : Type := {
  totalSupply : string;
  circulatingSupply : string;
  topHolders : list Holder;
  holderCount : Z;
  lpPairAddress : option string;
  lpTokens : option string;
  marketCap : float;
  fullyDilutedValue : float
}.

Record TeamMember : Type := {
  memberName : string;
  role : string;
  linkedin : option string;
  memberTwitter : option string;
  background : option string
}.

Record TeamAnalysis : Type := {
  isDoxxed : bool;
  members : option (list TeamMember);
  previousProjects : option (list string);
  scamHistory : bool
}.

Record CommunityAnalysis : Type := {
  twitterFollowers : Z;
  twitterEngagement : float;
  telegramMembers : Z;
  discordMembers : Z;
  holderGrowthRate : float;
  sentimentScore : float;
  botActivity : float
}.

(** ** The environment *)

(** The [indicators] column after [JSON.parse]: an array, whose elements are
    compared with [===] against four string literals (an element that is not
    a string equals none of them, like a string the engine does not know); a
    string, which the [for ... of] loop iterates character by character; or
    anything else ([JSON.parse] throws, or its value is a number, a boolean,
    [null] or an object, over which the loop throws). *)
Inductive IndicatorsColumn : Type :=
| IndicatorArray (names : list string)
| IndicatorText (text : string)
| NotIterable.

(** A row of the table [scam_patterns] (schema.sql), with the columns that
    [matchScamPatterns] reads.  The [severity] column holds one of the four
    values the schema lists. *)
Record ScamPatternRow : Type := {
  pattern_type : string;
  pattern_description : string;
  indicators : IndicatorsColumn;
  pattern_severity : Severity
}.

(** [env.DB]: what [SELECT * FROM scam_patterns] resolves to, [None] when the
    query rejects. *)
Record Env : Type := {
  DB_scam_patterns : option (list ScamPatternRow)
}.

(** The two readings of [Date.now()] during one call of [detectScam], in
    milliseconds: inside [generateRedFlags], and when the result is built. *)
Record Clock : Type := {
  nowAtAgeRule : Z;
  nowAtReturn : Z
}.

(** ** ContractScanner (contract-scanner.ts) *)

(** What [BlockchainClient.getContractSource] and [getContractCreation]
    resolve to; both catch their own errors and resolve to [null] ([None]). *)
Record SourceInfo : Type := {
  sourceCode : string;
  abi : string;
  contractName : string;
  compilerVersion : string;
  optimizationUsed : string;
  isVerified : bool
}.

Record CreationInfo : Type := {
  creator : string;
  txHash : string;
  timestamp : Z
}.

(** The private detectors of [ContractScanner] are tests of regular
    expressions and substrings on the lower-cased source text.
    [analyzeContract] is embedded over an arbitrary family of them, so that
    what is proved of it holds whatever the detectors compute, and a result
    that does not mention them is a result obtained without calling them. *)
Record SourceDetectors : Type := {
  toLowerCase : string -> string;
  detectProxyPattern : string -> bool;
  detectMintFunction : string -> bool;
  detectPauseFunction : string -> bool;
  detectBlacklist : string -> bool;
  detectWhitelist : string -> bool;
  detectHoneypot : string -> bool;
  (* the [buy] and [sell] fields of the result of [detectTaxes] *)
  detectTaxes : string -> Z * Z;
  detectOwnershipRenounced : string -> bool
}.

(** The object literal that [analyzeContract] starts from. *)
Definition initialAnalysis (sourceInfo : option SourceInfo)
    (creation : option CreationInfo) : ContractAnalysis :=
  {| verified := match sourceInfo with
                 | Some s => isVerified s
                 | None => false
                 end;
     isProxy := false;
     hasHoneypot := false;
     hasMintFunction := false;
     hasPauseFunction := false;
     hasBlacklist := false;
     hasWhitelist := false;
     buyTax := 0;
     sellTax := 0;
     ownershipRenounced := false;
     maxWalletLimit := None;
     maxTxLimit := None;
     lpLocked := false;
     lpLockDuration := None;
     creatorAddress := match creation with
                       | Some c => if truthy (creator c) then creator c
                                   else "Unknown"
                       | None => "Unknown"
                       end;
     (* [creation?.timestamp || 0]: on an integer, the timestamp itself *)
     creationTimestamp := match creation with
                          | Some c => timestamp c
                          | None => 0
                          end |}.

Definition analyzeContract (D : SourceDetectors)
    (sourceInfo : option SourceInfo) (creation : option CreationInfo)
    : ContractAnalysis :=
  let analysis := initialAnalysis sourceInfo creation in
  match sourceInfo with
  | None => analysis
  | Some info =>
      if negb (isVerified info) then analysis
      else
        let source := toLowerCase D (sourceCode info) in
        let taxes := detectTaxes D source in
        {| verified := verified analysis;
           isProxy := detectProxyPattern D source;
           hasHoneypot := detectHoneypot D source;
           hasMintFunction := detectMintFunction D source;
           hasPauseFunction := detectPauseFunction D source;
           hasBlacklist := detectBlacklist D source;
           hasWhitelist := detectWhitelist D source;
           buyTax := fst taxes;
           sellTax := snd taxes;
           ownershipRenounced := detectOwnershipRenounced D source;
           maxWalletLimit := maxWalletLimit analysis;
           maxTxLimit := maxTxLimit analysis;
           lpLocked := false;
           lpLockDuration := lpLockDuration analysis;
           creatorAddress := creatorAddress analysis;
           creationTimestamp := creationTimestamp analysis |}
  end.

(** [redFlags.push(flag)] under a condition. *)
Definition pushIf (cond : bool) (flag : RedFlag) (redFlags : list RedFlag)
    : list RedFlag :=
  if cond then redFlags ++ [flag] else redFlags.

Definition sevenDaysMs : Z := 7 * 24 * 60 * 60 * 1000.

(** [generateRedFlags]; [now] is the value of [Date.now()]. *)
Definition generateRedFlags (now : Z) (analysis : ContractAnalysis)
    : list RedFlag :=
  let redFlags := [] in
  let redFlags :=
    pushIf (negb (verified analysis))
      {| severity := CRITICAL; category := "CONTRACT";
         description := "Contract source code is not verified";
         evidence := Some "Cannot analyze unverified contract code" |}
      redFlags in
  let redFlags :=
    pushIf (hasHoneypot analysis)
      {| severity := CRITICAL; category := "CONTRACT";
         description := "Honeypot detected - may not be able to sell";
         evidence := Some "Contract contains transfer restrictions that could prevent selling" |}
      redFlags in
  let redFlags :=
    pushIf (isProxy analysis && hasMintFunction analysis
            && negb (ownershipRenounced analysis))
      {| severity := CRITICAL; category := "CONTRACT";
         description := "Upgradeable contract with mint function and active owner";
         evidence := Some "Owner can upgrade contract to mint unlimited tokens" |}
      redFlags in
  let redFlags :=
    pushIf (hasMintFunction analysis && negb (ownershipRenounced analysis))
      {| severity := HIGH; category := "CONTRACT";
         description := "Contract has mint function and ownership not renounced";
         evidence := Some "Owner can mint new tokens at any time" |}
      redFlags in
  let redFlags :=
    pushIf ((10 <? buyTax analysis) || (10 <? sellTax analysis))
      {| severity := HIGH; category := "CONTRACT";
         description := "Excessive trading taxes detected";
         evidence := Some ("Buy tax: " ++ Z_toString (buyTax analysis)
                           ++ "%, Sell tax: " ++ Z_toString (sellTax analysis)
                           ++ "%")%string |}
      redFlags in
  let redFlags :=
    pushIf (hasBlacklist analysis && negb (ownershipRenounced analysis))
      {| severity := MEDIUM; category := "CONTRACT";
         description := "Contract can blacklist addresses";
         evidence := Some "Owner can prevent specific addresses from trading" |}
      redFlags in
  let redFlags :=
    pushIf (hasPauseFunction analysis && negb (ownershipRenounced analysis))
      {| severity := MEDIUM; category := "CONTRACT";
         description := "Contract can be paused by owner";
         evidence := Some "Owner can halt all trading at any time" |}
      redFlags in
  let redFlags :=
    if negb (lpLocked analysis) && (0 <? creationTimestamp analysis) then
      let age := now - creationTimestamp analysis * 1000 in
      pushIf (age <? sevenDaysMs)
        {| severity := HIGH; category := "LIQUIDITY";
           description := "Liquidity not locked for new token";
           evidence := Some "LP tokens are not locked, rug pull risk" |}
        redFlags
    else redFlags in
  redFlags.

(** ** ScamDetector (scam-detector.ts) *)

Section ScamDetector.

Context {builtins : NumberBuiltins}.

(** [topHolders.slice(0, 10).reduce((sum, holder) => sum + holder.percentage, 0)] *)
Definition top10Percentage (tokenomics : TokenomicsAnalysis) : float :=
  fold_left (fun sum holder => PrimFloat.add sum (percentage holder))
            (firstn 10 (topHolders tokenomics)) 0%float.

Definition checkTokenomicsRedFlags (tokenomics : TokenomicsAnalysis)
    : list RedFlag :=
  let redFlags := [] in
  let redFlags :=
    pushIf (PrimFloat.ltb 50 (top10Percentage tokenomics))
      {| severity := HIGH; category := "TOKENOMICS";
         description := "High concentration in top 10 holders";
         evidence := Some ("Top 10 holders own "
                           ++ toFixed2 (top10Percentage tokenomics)
                           ++ "% of supply")%string |}
      redFlags in
  let redFlags :=
    match topHolders tokenomics with
    | largestHolder :: _ =>
        pushIf (PrimFloat.ltb 20 (percentage largestHolder))
          {| severity := HIGH; category := "TOKENOMICS";
             description := "Single address holds too much supply";
             evidence := Some ("Largest holder owns "
                               ++ toFixed2 (percentage largestHolder)
                               ++ "% of supply")%string |}
          redFlags
    | [] => redFlags
    end in
  let redFlags :=
    pushIf (holderCount tokenomics <? 100)
      {| severity := MEDIUM; category := "TOKENOMICS";
         description := "Very few token holders";
         evidence := Some ("Only " ++ Z_toString (holderCount tokenomics)
                           ++ " holders")%string |}
      redFlags in
  let redFlags :=
    match lpTokens tokenomics with
    | Some lp =>
        if truthy lp && PrimFloat.ltb 0 (marketCap tokenomics) then
          let liquidityRatio :=
            PrimFloat.div (parseFloat lp) (marketCap tokenomics) in
          pushIf (PrimFloat.ltb liquidityRatio 0.05)
            {| severity := HIGH; category := "LIQUIDITY";
               description := "Very low liquidity relative to market cap";
               evidence := Some ("Liquidity is only "
                                 ++ toFixed2 (PrimFloat.mul liquidityRatio 100)
                                 ++ "% of market cap")%string |}
            redFlags
        else redFlags
    | None => redFlags
    end in
  redFlags.

Definition checkTeamRedFlags (team : TeamAnalysis) : list RedFlag :=
  let redFlags := [] in
  let redFlags :=
    pushIf (negb (isDoxxed team))
      {| severity := MEDIUM; category := "TEAM";
         description := "Anonymous team";
         evidence := Some "No verified team member identities" |}
      redFlags in
  let redFlags :=
    pushIf (scamHistory team)
      {| severity := CRITICAL; category := "TEAM";
         description := "Team has history of scam projects";
         evidence := Some "Team members involved in previous rug pulls or scams" |}
      redFlags in
  let redFlags :=
    pushIf (match members team with
            | Some l => (Z.of_nat (List.length l) =? 0)
            | None => false
            end)
      {| severity := HIGH; category := "TEAM";
         description := "No team information available";
         evidence := Some "Cannot verify team members" |}
      redFlags in
  redFlags.

Definition checkCommunityRedFlags (community : CommunityAnalysis)
    : list RedFlag :=
  let redFlags := [] in
  let redFlags :=
    pushIf (PrimFloat.ltb 50 (botActivity community))
      {| severity := HIGH; category := "COMMUNITY";
         description := "High bot activity detected";
         evidence := Some (Number_toString (botActivity community)
                           ++ "% estimated bot activity")%string |}
      redFlags in
  let redFlags :=
    pushIf ((1000 <? twitterFollowers community)
            && PrimFloat.ltb (twitterEngagement community) 0.5)
      {| severity := MEDIUM; category := "COMMUNITY";
         description := "Low engagement relative to follower count";
         evidence := Some "Possible fake/bought followers" |}
      redFlags in
  let redFlags :=
    pushIf (PrimFloat.ltb (sentimentScore community) (-0.5))
      {| severity := MEDIUM; category := "COMMUNITY";
         description := "Negative community sentiment";
         evidence := Some ("Sentiment score: "
                           ++ toFixed2 (sentimentScore community))%string |}
      redFlags in
  redFlags.

(** One turn of the loop of [checkPatternMatch]: four independent tests. *)
Definition checkIndicator (contractAnalysis : ContractAnalysis)
    (matches : list string) (indicator : string) : list string :=
  let matches :=
    if (indicator =? "is_proxy")%string && isProxy contractAnalysis
    then matches ++ ["Is proxy contract"] else matches in
  let matches :=
    if (indicator =? "has_mint")%string && hasMintFunction contractAnalysis
    then matches ++ ["Has mint function"] else matches in
  let matches :=
    if (indicator =? "ownership_not_renounced")%string
       && negb (ownershipRenounced contractAnalysis)
    then matches ++ ["Ownership not renounced"] else matches in
  let matches :=
    if (indicator =? "lp_not_locked")%string
       && negb (lpLocked contractAnalysis)
    then matches ++ ["LP not locked"] else matches in
  matches.

Definition checkPatternMatch (indicatorNames : list string)
    (contractAnalysis : ContractAnalysis) : list string :=
  fold_left (checkIndicator contractAnalysis) indicatorNames [].

(** The values that [for (const indicator of text)] takes on a string: its
    characters, each a string of its own. *)
Definition charactersOf (text : string) : list string :=
  map (fun c => String c EmptyString) (list_ascii_of_string text).

(** [JSON.parse(pattern.indicators)] followed by the start of the loop over
    its value. *)
Definition JSON_parse (column : IndicatorsColumn) : Outcome (list string) :=
  match column with
  | IndicatorArray names => Returned names
  | IndicatorText text => Returned (charactersOf text)
  | NotIterable => Thrown MalformedIndicators
  end.

(** The loop of [matchScamPatterns] over [patterns.results]. *)
Fixpoint matchRows (rows : list ScamPatternRow)
    (contractAnalysis : ContractAnalysis) (redFlags : list RedFlag)
    : Outcome (list RedFlag) :=
  match rows with
  | [] => Returned redFlags
  | pattern :: rest =>
      names <- JSON_parse (indicators pattern) ;;
      let matches := checkPatternMatch names contractAnalysis in
      matchRows rest contractAnalysis
        (pushIf (0 <? Z.of_nat (List.length matches))
           {| severity := pattern_severity pattern;
              category := pattern_type pattern;
              description := pattern_description pattern;
              evidence := Some (join ", " matches) |}
           redFlags)
  end.

Definition matchScamPatterns (env : Env) (projectData : ProjectData)
    (contractAnalysis : ContractAnalysis) : Outcome (list RedFlag) :=
  match DB_scam_patterns env with
  | None => Thrown RegistryUnavailable
  | Some results => matchRows results contractAnalysis []
  end.

Definition hasCategory (c : string) (f : RedFlag) : bool :=
  (category f =? c)%string.

Definition calculateContractSafety (contractAnalysis : ContractAnalysis)
    (redFlags : list RedFlag) : Z :=
  let score := 100 in
  let contractRedFlags := filter (hasCategory "CONTRACT") redFlags in
  let score :=
    fold_left (fun score flag =>
                 match severity flag with
                 | CRITICAL => score - 30
                 | HIGH => score - 20
                 | MEDIUM => score - 10
                 | LOW => score - 5
                 end) contractRedFlags score in
  let score := if verified contractAnalysis then score + 10 else score in
  let score := if ownershipRenounced contractAnalysis then score + 10 else score in
  let score := if lpLocked contractAnalysis then score + 10 else score in
  clampScore score.

Definition calculateTokenomicsScore (tokenomics : TokenomicsAnalysis)
    (redFlags : list RedFlag) : Z :=
  let score := 100 in
  let tokenomicsRedFlags := filter (hasCategory "TOKENOMICS") redFlags in
  let score :=
    fold_left (fun score flag =>
                 match severity flag with
                 | CRITICAL => score - 30
                 | HIGH => score - 20
                 | MEDIUM => score - 10
                 | LOW => score - 5
                 end) tokenomicsRedFlags score in
  clampScore score.

Definition calculateTeamScore (team : TeamAnalysis) (redFlags : list RedFlag)
    : Z :=
  let score := 50 in
  let score := if isDoxxed team then score + 30 else score in
  let score := match members team with
               | Some l => if 0 <? Z.of_nat (List.length l) then score + 10 else score
               | None => score
               end in
  let score := match previousProjects team with
               | Some l => if 0 <? Z.of_nat (List.length l) then score + 10 else score
               | None => score
               end in
  let teamRedFlags := filter (hasCategory "TEAM") redFlags in
  let score :=
    fold_left (fun score flag =>
                 match severity flag with
                 | CRITICAL => score - 40
                 | HIGH => score - 20
                 | MEDIUM => score - 10
                 | LOW => score
                 end) teamRedFlags score in
  clampScore score.

Definition calculateCommunityScore (community : CommunityAnalysis)
    (redFlags : list RedFlag) : Z :=
  let score := 50 in
  let score := if PrimFloat.ltb 0 (holderGrowthRate community)
               then score + 10 else score in
  let score := if PrimFloat.ltb 0.5 (sentimentScore community)
               then score + 10 else score in
  let score := if PrimFloat.ltb 2 (twitterEngagement community)
               then score + 10 else score in
  let communityRedFlags := filter (hasCategory "COMMUNITY") redFlags in
  let score :=
    fold_left (fun score flag =>
                 match severity flag with
                 | HIGH => score - 20
                 | MEDIUM => score - 10
                 | CRITICAL | LOW => score
                 end) communityRedFlags score in
  clampScore score.

Definition calculateLiquidityRisk (contractAnalysis : ContractAnalysis)
    (redFlags : list RedFlag) : Z :=
  let score := 50 in
  let score := if lpLocked contractAnalysis then score + 30 else score in
  let liquidityRedFlags := filter (hasCategory "LIQUIDITY") redFlags in
  let score :=
    fold_left (fun score flag =>
                 match severity flag with
                 | CRITICAL => score - 30
                 | HIGH => score - 20
                 | MEDIUM => score - 10
                 | LOW => score
                 end) liquidityRedFlags score in
  clampScore score.

(** The argument of [Math.round] in [detectScam]: the products and sums are
    binary64 operations, associated to the left as JavaScript evaluates them. *)
Definition weightedSum (contractSafety tokenomicsScore teamCredibility
    communityHealth liquidityRisk : Z) : float :=
  (number_of_Z contractSafety * 0.3
   + number_of_Z tokenomicsScore * 0.25
   + number_of_Z teamCredibility * 0.2
   + number_of_Z communityHealth * 0.15
   + number_of_Z liquidityRisk * 0.1)%float.

Definition determineRecommendation (overallScore : Z)
    (redFlags : list RedFlag) : Recommendation :=
  let hasCritical :=
    existsb (fun f => Severity_eqb (severity f) CRITICAL) redFlags in
  if hasCritical || (overallScore <? 30) then AVOID
  else if overallScore <? 50 then HIGH_RISK
  else if overallScore <? 70 then MODERATE_RISK
  else if overallScore <? 85 then LOW_RISK
  else SAFE.

(** The table [severityOrder] and the comparator given to [sort]. *)
Definition severityOrder (s : Severity) : Z :=
  match s with
  | CRITICAL => 0
  | HIGH => 1
  | MEDIUM => 2
  | LOW => 3
  end.

Definition compareSeverity (a b : RedFlag) : Z :=
  severityOrder (severity a) - severityOrder (severity b).

(** [Array.prototype.sort] with a comparator.  The sort is stable (ECMAScript
    2019), and the comparator above is a consistent one, so the sorted array is
    determined by its input: it is the one a stable insertion sort builds. *)
Fixpoint insertSorted {A : Type} (compare : A -> A -> Z) (x : A)
    (sorted : list A) : list A :=
  match sorted with
  | [] => [x]
  | y :: rest =>
      if compare x y <? 0 then x :: y :: rest
      else y :: insertSorted compare x rest
  end.

Definition Array_sort {A : Type} (compare : A -> A -> Z) (array : list A)
    : list A :=
  fold_left (fun sorted x => insertSorted compare x sorted) array [].

Definition renderWarning (flag : RedFlag) : string :=
  ("[" ++ Severity_text (severity flag) ++ "] " ++ description flag)%string.

(** [generateWarnings].  [redFlags.sort(...)] sorts the array it is called on
    and returns that same array; the caller's [redFlags] is this array.  The
    result is the pair of the warnings and of the array as the call leaves
    it. *)
Definition generateWarnings (redFlags : list RedFlag)
    : list string * list RedFlag :=
  let redFlags := Array_sort compareSeverity redFlags in
  (map renderWarning redFlags, redFlags).

(** The flags collected by [detectScam] before pattern matching. *)
Definition collectRedFlags (clock : Clock) (contractAnalysis : ContractAnalysis)
    (tokenomics : option TokenomicsAnalysis)
    (teamAnalysis : option TeamAnalysis)
    (communityAnalysis : option CommunityAnalysis) : list RedFlag :=
  let redFlags := [] in
  let redFlags :=
    redFlags ++ generateRedFlags (nowAtAgeRule clock) contractAnalysis in
  let redFlags := match tokenomics with
                  | Some t => redFlags ++ checkTokenomicsRedFlags t
                  | None => redFlags
                  end in
  let redFlags := match teamAnalysis with
                  | Some t => redFlags ++ checkTeamRedFlags t
                  | None => redFlags
                  end in
  let redFlags := match communityAnalysis with
                  | Some c => redFlags ++ checkCommunityRedFlags c
                  | None => redFlags
                  end in
  redFlags.

Definition detectScam (env : Env) (clock : Clock) (projectData : ProjectData)
    (contractAnalysis : ContractAnalysis)
    (tokenomics : option TokenomicsAnalysis)
    (teamAnalysis : option TeamAnalysis)
    (communityAnalysis : option CommunityAnalysis) : Outcome RiskScore :=
  let redFlags :=
    collectRedFlags clock contractAnalysis tokenomics teamAnalysis
      communityAnalysis in
  patternRedFlags <- matchScamPatterns env projectData contractAnalysis ;;
  let redFlags := redFlags ++ patternRedFlags in
  let contractSafety := calculateContractSafety contractAnalysis redFlags in
  let tokenomicsScore := match tokenomics with
                         | Some t => calculateTokenomicsScore t redFlags
                         | None => 50
                         end in
  let teamCredibility := match teamAnalysis with
                         | Some t => calculateTeamScore t redFlags
                         | None => 50
                         end in
  let communityHealth := match communityAnalysis with
                         | Some c => calculateCommunityScore c redFlags
                         | None => 50
                         end in
  let liquidityRisk := calculateLiquidityRisk contractAnalysis redFlags in
  let overall :=
    Math_round (weightedSum contractSafety tokenomicsScore teamCredibility
                  communityHealth liquidityRisk) in
  let recommendation := determineRecommendation overall redFlags in
  let '(warnings, redFlags) := generateWarnings redFlags in
  Returned
    {| overall := overall;
       contractSafety := contractSafety;
       tokenomics := tokenomicsScore;
       teamCredibility := teamCredibility;
       communityHealth := communityHealth;
       liquidityRisk := liquidityRisk;
       redFlags := redFlags;
       warnings := warnings;
       recommendation := recommendation;
       analysisTimestamp := nowAtReturn clock |}.

End ScamDetector.

(** ** Definitions used to state and prove the properties *)

(** *** Penalties *)

Definition severityPenalty (critical high medium low : Z) (flag : RedFlag) : Z :=
  match severity flag with
  | CRITICAL => critical
  | HIGH => high
  | MEDIUM => medium
  | LOW => low
  end.

Definition sumZ (l : list Z) : Z := fold_right Z.add 0 l.

(** The sum of the penalties of the flags of one category. *)
Definition totalPenalty (penalty : RedFlag -> Z) (c : string)
    (redFlags : list RedFlag) : Z :=
  sumZ (map penalty (filter (hasCategory c) redFlags)).

Definition bonus (b : bool) (points : Z) : Z := if b then points else 0.

Definition nonEmpty {A : Type} (l : option (list A)) : bool :=
  match l with
  | Some (_ :: _) => true
  | _ => false
  end.

Definition hasCriticalFlag (redFlags : list RedFlag) : Prop :=
  exists f, In f redFlags /\ severity f = CRITICAL.

Definition inRange (score : Z) : Prop := 0 <= score <= 100.

Definition scoresInRange (r : RiskScore) : Prop :=
  0 <= contractSafety r <= 100
  /\ 0 <= tokenomics r <= 100
  /\ 0 <= teamCredibility r <= 100
  /\ 0 <= communityHealth r <= 100
  /\ 0 <= liquidityRisk r <= 100
  /\ 0 <= overall r <= 100.

(** *** The values a sub-score can take, and the sums they give *)

(** The multiples of [step] from 0 to 100. *)
Definition grid (step : Z) : list Z :=
  map (fun k => step * Z.of_nat k) (seq 0 (S (Z.to_nat (100 / step)))).

Fixpoint dedup (l : list float) : list float :=
  match l with
  | [] => []
  | x :: rest =>
      let d := dedup rest in
      if existsb (PrimFloat.Leibniz.eqb x) d then d else x :: d
  end.

(** The partial sums [a + v * w] for [a] a partial sum so far and [v] on a
    grid. *)
Definition addTerm (w : float) (values : list Z) (partial : list float)
    : list float :=
  dedup (flat_map (fun a => map (fun v => (a + number_of_Z v * w)%float) values)
                  partial).

Definition sums1 : list float :=
  dedup (map (fun v => (number_of_Z v * 0.3)%float) (grid 5)).
Definition sums2 : list float := addTerm 0.25 (grid 5) sums1.
Definition sums3 : list float := addTerm 0.2 (grid 10) sums2.
Definition sums4 : list float := addTerm 0.15 (grid 10) sums3.
Definition sums5 : list float := addTerm 0.1 (grid 10) sums4.

Definition isFinite (x : float) : bool :=
  match Prim2SF x with
  | S754_zero _ | S754_finite _ _ _ => true
  | S754_infinity _ | S754_nan => false
  end.

Definition roundsInRange (x : float) : bool :=
  isFinite x && (0 <=? Math_round x) && (Math_round x <=? 100).

(** *** Registry patterns, as the specification describes them *)

(** A scam signature with its indicator names already decoded. *)
Record ScamPattern : Type := {
  patternType : string;
  patternDescription : string;
  indicatorNames : list string;
  patternSeverity : Severity
}.

(** The row that stores a signature. *)
Definition rowOf (p : ScamPattern) : ScamPatternRow :=
  {| pattern_type := patternType p;
     pattern_description := patternDescription p;
     indicators := IndicatorArray (indicatorNames p);
     pattern_severity := patternSeverity p |}.

Definition registryOf (patterns : list ScamPattern) : Env :=
  {| DB_scam_patterns := Some (map rowOf patterns) |}.

(** The names the engine knows. *)
Definition recognized (indicator : string) : bool :=
  ((indicator =? "is_proxy") || (indicator =? "has_mint")
   || (indicator =? "ownership_not_renounced")
   || (indicator =? "lp_not_locked"))%string.

(** The mapping of indicator names to the fields of a [ContractAnalysis]:
    [is_proxy -> isProxy], [has_mint -> hasMintFunction],
    [ownership_not_renounced -> !ownershipRenounced],
    [lp_not_locked -> !lpLocked]. *)
Definition indicatorMatches (contractAnalysis : ContractAnalysis)
    (indicator : string) : bool :=
  (((indicator =? "is_proxy") && isProxy contractAnalysis)
   || ((indicator =? "has_mint") && hasMintFunction contractAnalysis)
   || ((indicator =? "ownership_not_renounced")
       && negb (ownershipRenounced contractAnalysis))
   || ((indicator =? "lp_not_locked") && negb (lpLocked contractAnalysis)))%string.

(** The text under which a matched indicator is reported. *)
Definition indicatorLabel (indicator : string) : string :=
  if (indicator =? "is_proxy")%string then "Is proxy contract"
  else if (indicator =? "has_mint")%string then "Has mint function"
  else if (indicator =? "ownership_not_renounced")%string
       then "Ownership not renounced"
  else if (indicator =? "lp_not_locked")%string then "LP not locked"
  else indicator.

Definition matchedIndicators (contractAnalysis : ContractAnalysis)
    (p : ScamPattern) : list string :=
  filter (indicatorMatches contractAnalysis) (indicatorNames p).

(** The flags one signature contributes: none when no indicator matches,
    otherwise one, whose evidence is built from the matched indicators by
    [render]. *)
Definition patternFlags (render : string -> string)
    (contractAnalysis : ContractAnalysis) (p : ScamPattern) : list RedFlag :=
  match matchedIndicators contractAnalysis p with
  | [] => []
  | matched =>
      [ {| severity := patternSeverity p;
           category := patternType p;
           description := patternDescription p;
           evidence := Some (join ", " (map render matched)) |} ]
  end.

(** *** The record built from the collected flags *)

(** What [detectScam] returns once [redFlags] holds every collected flag. *)
Definition assessment (clock : Clock) (contractAnalysis : ContractAnalysis)
    (tokenomics : option TokenomicsAnalysis)
    (teamAnalysis : option TeamAnalysis)
    (communityAnalysis : option CommunityAnalysis) (redFlags : list RedFlag)
    : RiskScore :=
  let contractSafety := calculateContractSafety contractAnalysis redFlags in
  let tokenomicsScore := match tokenomics with
                         | Some t => calculateTokenomicsScore t redFlags
                         | None => 50
                         end in
  let teamCredibility := match teamAnalysis with
                         | Some t => calculateTeamScore t redFlags
                         | None => 50
                         end in
  let communityHealth := match communityAnalysis with
                         | Some c => calculateCommunityScore c redFlags
                         | None => 50
                         end in
  let liquidityRisk := calculateLiquidityRisk contractAnalysis redFlags in
  let overall :=
    Math_round (weightedSum contractSafety tokenomicsScore teamCredibility
                  communityHealth liquidityRisk) in
  {| overall := overall;
     contractSafety := contractSafety;
     tokenomics := tokenomicsScore;
     teamCredibility := teamCredibility;
     communityHealth := communityHealth;
     liquidityRisk := liquidityRisk;
     redFlags := Array_sort compareSeverity redFlags;
     warnings := map renderWarning (Array_sort compareSeverity redFlags);
     recommendation := determineRecommendation overall redFlags;
     analysisTimestamp := nowAtReturn clock |}.

(** *** Order of severities *)

Definition bySeverity (a b : RedFlag) : Prop :=
  severityOrder (severity a) <= severityOrder (severity b).

Definition hasSeverity (s : Severity) (f : RedFlag) : bool :=
  Severity_eqb (severity f) s.

(** *** Unverified sources *)

(** Whether the source is absent or marked unverified. *)
Definition cannotAnalyze (sourceInfo : option SourceInfo) : bool :=
  match sourceInfo with
  | None => true
  | Some info => negb (isVerified info)
  end.

(** The flag that [generateRedFlags] pushes first for an unverified source. *)
Definition unverifiedFlag : RedFlag :=
  {| severity := CRITICAL; category := "CONTRACT";
     description := "Contract source code is not verified";
     evidence := Some "Cannot analyze unverified contract code" |}.

(** *** Comparing results up to the time stamp *)

Definition withTimestamp (t : Z) (r : RiskScore) : RiskScore :=
  {| overall := overall r;
     contractSafety := contractSafety r;
     tokenomics := tokenomics r;
     teamCredibility := teamCredibility r;
     communityHealth := communityHealth r;
     liquidityRisk := liquidityRisk r;
     redFlags := redFlags r;
     warnings := warnings r;
     recommendation := recommendation r;
     analysisTimestamp := t |}.

(** Whether the rule on young contracts with unlocked liquidity fires at the
    reading [now] of the clock. *)
Definition ageRuleFires (now : Z) (contractAnalysis : ContractAnalysis) : bool :=
  negb (lpLocked contractAnalysis)
  && (0 <? creationTimestamp contractAnalysis)
  && (now - creationTimestamp contractAnalysis * 1000 <? sevenDaysMs).

(** *** Inputs of the examples *)

(** A stand-in for the number built-ins of the engine, to close the examples
    below; none of them raises a flag whose evidence prints a fractional
    number, so none of them calls it. *)
Definition standInBuiltins : NumberBuiltins :=
  {| parseFloat := fun _ => 0%float;
     toFixed2 := fun _ => "0.00";
     Number_toString := fun _ => "0" |}.

Definition exampleProject : ProjectData :=
  {| id := "project-1"; contractAddress := "0xabc"; name := "Example";
     symbol := Some "EXM"; chain := "ethereum"; discoveredAt := 1700000000000;
     projectDescription := None; projectCategory := None; website := None;
     twitter := None; telegram := None; discord := None; whitepaper := None;
     github := None |}.

Definition otherProject : ProjectData :=
  {| id := "project-2"; contractAddress := "0xdef"; name := "Other";
     symbol := None; chain := "bsc"; discoveredAt := 1;
     projectDescription := Some "another token"; projectCategory := None;
     website := None; twitter := None; telegram := None; discord := None;
     whitepaper := None; github := None |}.

(** Scenario A of the specification: the fully honest token. *)
Definition honestToken : ContractAnalysis :=
  {| verified := true; isProxy := false; hasHoneypot := false;
     hasMintFunction := false; hasPauseFunction := false;
     hasBlacklist := false; hasWhitelist := false; buyTax := 0; sellTax := 0;
     ownershipRenounced := true; maxWalletLimit := None; maxTxLimit := None;
     lpLocked := true; lpLockDuration := None; creatorAddress := "0xc0ffee";
     creationTimestamp := 1700000000 |}.

(** An unverified contract whose owner is gone and whose liquidity is
    locked. *)
Definition unverifiedLocked : ContractAnalysis :=
  {| verified := false; isProxy := false; hasHoneypot := false;
     hasMintFunction := false; hasPauseFunction := false;
     hasBlacklist := false; hasWhitelist := false; buyTax := 0; sellTax := 0;
     ownershipRenounced := true; maxWalletLimit := None; maxTxLimit := None;
     lpLocked := true; lpLockDuration := None; creatorAddress := "Unknown";
     creationTimestamp := 0 |}.

(** A verified proxy with a mint function, an active owner, unlocked
    liquidity, created at second 1700000000. *)
Definition mintableProxy : ContractAnalysis :=
  {| verified := true; isProxy := true; hasHoneypot := false;
     hasMintFunction := true; hasPauseFunction := false;
     hasBlacklist := false; hasWhitelist := false; buyTax := 0; sellTax := 0;
     ownershipRenounced := false; maxWalletLimit := None; maxTxLimit := None;
     lpLocked := false; lpLockDuration := None; creatorAddress := "0xbad";
     creationTimestamp := 1700000000 |}.

(** A verified contract with a mint function and an active owner, liquidity
    locked. *)
Definition mintableToken : ContractAnalysis :=
  {| verified := true; isProxy := false; hasHoneypot := false;
     hasMintFunction := true; hasPauseFunction := false;
     hasBlacklist := false; hasWhitelist := false; buyTax := 0; sellTax := 0;
     ownershipRenounced := false; maxWalletLimit := None; maxTxLimit := None;
     lpLocked := true; lpLockDuration := None; creatorAddress := "0xbad";
     creationTimestamp := 1700000000 |}.

(** A doxxed team with a history of scams. *)
Definition scamTeam : TeamAnalysis :=
  {| isDoxxed := true;
     members := Some [ {| memberName := "A"; role := "dev"; linkedin := None;
                          memberTwitter := None; background := None |} ];
     previousProjects := Some ["rug-1"];
     scamHistory := true |}.

Definition emptyRegistry : Env := {| DB_scam_patterns := Some [] |}.

Definition unavailableRegistry : Env := {| DB_scam_patterns := None |}.

(** One day, and eight days, after second 1700000000. *)
Definition dayOne : Clock :=
  {| nowAtAgeRule := 1700086400000; nowAtReturn := 1700086400005 |}.

Definition dayEight : Clock :=
  {| nowAtAgeRule := 1700691200000; nowAtReturn := 1700691200005 |}.

Definition proxyPattern : ScamPattern :=
  {| patternType := "CONTRACT";
     patternDescription := "Hidden mint function in proxy contract";
     indicatorNames := ["is_proxy"; "no_such_indicator"; "has_mint";
                        "ownership_not_renounced"];
     patternSeverity := CRITICAL |}.

(** Signatures of every category and of the worst severity, each matching any
    contract whose liquidity is not locked. *)
Definition hostilePatterns : list ScamPattern :=
  flat_map (fun c => repeat {| patternType := c;
                               patternDescription := "hostile";
                               indicatorNames := ["lp_not_locked"];
                               patternSeverity := CRITICAL |} 5)
           ["CONTRACT"; "TOKENOMICS"; "TEAM"; "COMMUNITY"; "LIQUIDITY"].

(** A token with few holders, none of them large, and no liquidity figure. *)
Definition smallTokenomics : TokenomicsAnalysis :=
  {| totalSupply := "1000000"; circulatingSupply := "1000000";
     topHolders := [ {| address := "0x1"; balance := "50000";
                        percentage := 5%float |};
                     {| address := "0x2"; balance := "40000";
                        percentage := 4%float |} ];
     holderCount := 12; lpPairAddress := None; lpTokens := None;
     marketCap := 1000000%float; fullyDilutedValue := 1000000%float |}.

(** Many followers, little engagement. *)
Definition idleCommunity : CommunityAnalysis :=
  {| twitterFollowers := 50000; twitterEngagement := 0.25%float;
     telegramMembers := 10; discordMembers := 0;
     holderGrowthRate := (-1)%float; sentimentScore := (-0.25)%float;
     botActivity := 20%float |}.

(** ** Properties *)

(** *** Clamping and penalties *)

Lemma clampScore_inRange (score : Z) : inRange (clampScore score).
Proof. unfold inRange, clampScore. lia. Qed.

Lemma clampScore_monotone (s t : Z) : s <= t -> clampScore s <= clampScore t.
Proof. unfold clampScore. lia. Qed.

Lemma clampScore_divide (g score : Z) :
  (g | 100) -> (g | score) -> (g | clampScore score).
Proof.
  intros H100 Hs. unfold clampScore.
  destruct (Z.max_spec 0 (Z.min 100 score)) as [[_ ->] | [_ ->]].
  - destruct (Z.min_spec 100 score) as [[_ ->] | [_ ->]]; assumption.
  - apply Z.divide_0_r.
Qed.

Lemma fold_penalty (penalty : RedFlag -> Z) (step : Z -> RedFlag -> Z) :
  (forall s f, step s f = s - penalty f) ->
  forall l s, fold_left step l s = s - sumZ (map penalty l).
Proof.
  intros Hstep l. induction l as [| f l IH]; intros s; simpl.
  - lia.
  - rewrite IH, Hstep. lia.
Qed.

Lemma sumZ_nonneg (l : list Z) : Forall (fun z => 0 <= z) l -> 0 <= sumZ l.
Proof. induction 1; simpl; lia. Qed.

Lemma sumZ_divide (g : Z) (l : list Z) :
  Forall (fun z => (g | z)) l -> (g | sumZ l).
Proof.
  induction 1; simpl.
  - apply Z.divide_0_r.
  - now apply Z.divide_add_r.
Qed.

Lemma sumZ_member (l : list Z) (z : Z) :
  Forall (fun z => 0 <= z) l -> In z l -> z <= sumZ l.
Proof.
  induction 1 as [| y l Hy Hl IH]; simpl; intros Hin.
  - contradiction.
  - pose proof (sumZ_nonneg l Hl). destruct Hin as [-> | Hin].
    + lia.
    + specialize (IH Hin). lia.
Qed.

Lemma severityPenalty_nonneg (c h m l : Z) (f : RedFlag) :
  0 <= c -> 0 <= h -> 0 <= m -> 0 <= l -> 0 <= severityPenalty c h m l f.
Proof. unfold severityPenalty. destruct (severity f); lia. Qed.

Lemma severityPenalty_divide (g c h m l : Z) (f : RedFlag) :
  (g | c) -> (g | h) -> (g | m) -> (g | l) -> (g | severityPenalty c h m l f).
Proof. unfold severityPenalty. destruct (severity f); auto. Qed.

Lemma totalPenalty_nonneg (c h m l : Z) (cat : string) (flags : list RedFlag) :
  0 <= c -> 0 <= h -> 0 <= m -> 0 <= l ->
  0 <= totalPenalty (severityPenalty c h m l) cat flags.
Proof.
  intros. unfold totalPenalty. apply sumZ_nonneg, Forall_map, Forall_forall.
  intros f _. now apply severityPenalty_nonneg.
Qed.

Lemma totalPenalty_divide (g c h m l : Z) (cat : string) (flags : list RedFlag) :
  (g | c) -> (g | h) -> (g | m) -> (g | l) ->
  (g | totalPenalty (severityPenalty c h m l) cat flags).
Proof.
  intros. unfold totalPenalty. apply sumZ_divide, Forall_map, Forall_forall.
  intros f _. now apply severityPenalty_divide.
Qed.

Lemma totalPenalty_app (penalty : RedFlag -> Z) (cat : string)
    (l1 l2 : list RedFlag) :
  totalPenalty penalty cat (l1 ++ l2)
  = totalPenalty penalty cat l1 + totalPenalty penalty cat l2.
Proof.
  unfold totalPenalty. rewrite filter_app, map_app.
  induction (map penalty (filter (hasCategory cat) l1)) as [| z l IH]; simpl; lia.
Qed.

Lemma totalPenalty_member (c h m l : Z) (cat : string) (flags : list RedFlag)
    (f : RedFlag) :
  0 <= c -> 0 <= h -> 0 <= m -> 0 <= l ->
  In f flags -> category f = cat ->
  severityPenalty c h m l f <= totalPenalty (severityPenalty c h m l) cat flags.
Proof.
  intros Hc Hh Hm Hl Hin Hcat. unfold totalPenalty. apply sumZ_member.
  - apply Forall_map, Forall_forall. intros g _. now apply severityPenalty_nonneg.
  - apply in_map, filter_In. split; [assumption |].
    unfold hasCategory. now apply String.eqb_eq.
Qed.

(** *** The five calculators in closed form *)

Ltac fold_to_penalty c h m l :=
  rewrite (fold_penalty (severityPenalty c h m l))
    by (intros ? f; unfold severityPenalty; destruct (severity f); lia).

Lemma calculateContractSafety_eq (ca : ContractAnalysis) (flags : list RedFlag) :
  calculateContractSafety ca flags
  = clampScore (100 - totalPenalty (severityPenalty 30 20 10 5) "CONTRACT" flags
                + bonus (verified ca) 10 + bonus (ownershipRenounced ca) 10
                + bonus (lpLocked ca) 10).
Proof.
  unfold calculateContractSafety, totalPenalty, bonus.
  fold_to_penalty 30 20 10 5.
  destruct (verified ca), (ownershipRenounced ca), (lpLocked ca); f_equal; lia.
Qed.

Lemma calculateTokenomicsScore_eq (t : TokenomicsAnalysis) (flags : list RedFlag) :
  calculateTokenomicsScore t flags
  = clampScore (100 - totalPenalty (severityPenalty 30 20 10 5) "TOKENOMICS" flags).
Proof.
  unfold calculateTokenomicsScore, totalPenalty.
  fold_to_penalty 30 20 10 5. reflexivity.
Qed.

Lemma calculateTeamScore_eq (team : TeamAnalysis) (flags : list RedFlag) :
  calculateTeamScore team flags
  = clampScore (50 + bonus (isDoxxed team) 30 + bonus (nonEmpty (members team)) 10
                + bonus (nonEmpty (previousProjects team)) 10
                - totalPenalty (severityPenalty 40 20 10 0) "TEAM" flags).
Proof.
  unfold calculateTeamScore, totalPenalty, bonus, nonEmpty.
  fold_to_penalty 40 20 10 0.
  destruct (isDoxxed team), (members team) as [[| ? ?] |],
    (previousProjects team) as [[| ? ?] |]; f_equal; simpl; lia.
Qed.

Lemma calculateCommunityScore_eq (c : CommunityAnalysis) (flags : list RedFlag) :
  calculateCommunityScore c flags
  = clampScore (50 + bonus (PrimFloat.ltb 0 (holderGrowthRate c)) 10
                + bonus (PrimFloat.ltb 0.5 (sentimentScore c)) 10
                + bonus (PrimFloat.ltb 2 (twitterEngagement c)) 10
                - totalPenalty (severityPenalty 0 20 10 0) "COMMUNITY" flags).
Proof.
  unfold calculateCommunityScore, totalPenalty, bonus.
  fold_to_penalty 0 20 10 0.
  destruct (PrimFloat.ltb 0 (holderGrowthRate c)),
    (PrimFloat.ltb 0.5 (sentimentScore c)),
    (PrimFloat.ltb 2 (twitterEngagement c)); f_equal; lia.
Qed.

Lemma calculateLiquidityRisk_eq (ca : ContractAnalysis) (flags : list RedFlag) :
  calculateLiquidityRisk ca flags
  = clampScore (50 + bonus (lpLocked ca) 30
                - totalPenalty (severityPenalty 30 20 10 0) "LIQUIDITY" flags).
Proof.
  unfold calculateLiquidityRisk, totalPenalty, bonus.
  fold_to_penalty 30 20 10 0.
  destruct (lpLocked ca); f_equal; lia.
Qed.

Lemma bonus_divide (g : Z) (b : bool) (points : Z) :
  (g | points) -> (g | bonus b points).
Proof. destruct b; simpl; auto using Z.divide_0_r. Qed.

Lemma grid_member (g z : Z) :
  0 < g -> inRange z -> (g | z) -> In z (grid g).
Proof.
  intros Hg [Hlo Hhi] [k Hk]. unfold grid. apply in_map_iff.
  assert (0 <= k) by nia.
  exists (Z.to_nat k). split.
  - rewrite Z2Nat.id by assumption. lia.
  - apply in_seq. split; [lia |].
    assert (k <= 100 / g) by (apply Z.div_le_lower_bound; lia).
    lia.
Qed.

Ltac divide_tac :=
  repeat first
    [ apply clampScore_divide | apply bonus_divide | apply totalPenalty_divide
    | apply Z.divide_sub_r | apply Z.divide_add_r
    | (apply Z.mod_divide; [lia | reflexivity]) ].

Ltac on_grid := apply grid_member; [lia | apply clampScore_inRange | divide_tac].

Lemma calculateContractSafety_grid (ca : ContractAnalysis) (flags : list RedFlag) :
  In (calculateContractSafety ca flags) (grid 5).
Proof. rewrite calculateContractSafety_eq. on_grid. Qed.

Lemma calculateTokenomicsScore_grid (t : TokenomicsAnalysis) (flags : list RedFlag) :
  In (calculateTokenomicsScore t flags) (grid 5).
Proof. rewrite calculateTokenomicsScore_eq. on_grid. Qed.

Lemma calculateTeamScore_grid (team : TeamAnalysis) (flags : list RedFlag) :
  In (calculateTeamScore team flags) (grid 10).
Proof. rewrite calculateTeamScore_eq. on_grid. Qed.

Lemma calculateCommunityScore_grid (c : CommunityAnalysis) (flags : list RedFlag) :
  In (calculateCommunityScore c flags) (grid 10).
Proof. rewrite calculateCommunityScore_eq. on_grid. Qed.

Lemma calculateLiquidityRisk_grid (ca : ContractAnalysis) (flags : list RedFlag) :
  In (calculateLiquidityRisk ca flags) (grid 10).
Proof. rewrite calculateLiquidityRisk_eq. on_grid. Qed.

Lemma neutral_on_grid5 : In 50 (grid 5).
Proof. apply grid_member; [lia | unfold inRange; lia | divide_tac]. Qed.

Lemma neutral_on_grid10 : In 50 (grid 10).
Proof. apply grid_member; [lia | unfold inRange; lia | divide_tac]. Qed.

Lemma grid_inRange (g z : Z) : 0 < g -> In z (grid g) -> inRange z.
Proof.
  intros Hg Hin. unfold grid in Hin. apply in_map_iff in Hin as [k [<- Hk]].
  apply in_seq in Hk. unfold inRange.
  pose proof (Z.mul_div_le 100 g Hg) as Hq.
  assert (0 <= 100 / g) as Hq0 by (apply Z.div_pos; lia).
  remember (100 / g) as q eqn:Eq. clear Eq.
  assert (Z.of_nat k <= q) by lia. nia.
Qed.

(** *** The rounded weighted sum *)

Lemma dedup_In (x : float) (l : list float) : In x l -> In x (dedup l).
Proof.
  induction l as [| y l IH]; simpl; [tauto |].
  intros [-> | Hin].
  - destruct (existsb (PrimFloat.Leibniz.eqb x) (dedup l)) eqn:E.
    + apply existsb_exists in E as [z [Hz Heq]].
      apply FloatAxioms.Leibniz.eqb_spec in Heq. now subst.
    + now left.
  - destruct (existsb (PrimFloat.Leibniz.eqb y) (dedup l)).
    + now apply IH.
    + right. now apply IH.
Qed.

Lemma addTerm_In (w : float) (values : list Z) (partial : list float)
    (a : float) (v : Z) :
  In a partial -> In v values ->
  In (a + number_of_Z v * w)%float (addTerm w values partial).
Proof.
  intros Ha Hv. unfold addTerm. apply dedup_In, in_flat_map.
  exists a. split; [assumption |].
  now apply (in_map (fun v => (a + number_of_Z v * w)%float)).
Qed.

Lemma weightedSum_in_sums5 (cs tk tm cm lq : Z) :
  In cs (grid 5) -> In tk (grid 5) -> In tm (grid 10) -> In cm (grid 10) ->
  In lq (grid 10) ->
  In (weightedSum cs tk tm cm lq) sums5.
Proof.
  intros Hcs Htk Htm Hcm Hlq. unfold weightedSum, sums5, sums4, sums3, sums2.
  do 4 (apply addTerm_In; [| assumption]).
  unfold sums1. apply dedup_In.
  now apply (in_map (fun v => (number_of_Z v * 0.3)%float)).
Qed.

Lemma sums5_round : forallb roundsInRange sums5 = true.
Proof. vm_compute. reflexivity. Qed.

Lemma weightedSum_rounds (cs tk tm cm lq : Z) :
  In cs (grid 5) -> In tk (grid 5) -> In tm (grid 10) -> In cm (grid 10) ->
  In lq (grid 10) ->
  roundsInRange (weightedSum cs tk tm cm lq) = true.
Proof.
  intros. pose proof sums5_round as Hall.
  rewrite forallb_forall in Hall. now apply Hall, weightedSum_in_sums5.
Qed.

(** The argument of [Math.round] in [detectScam] is a finite number. *)
Lemma weightedSum_finite (cs tk tm cm lq : Z) :
  In cs (grid 5) -> In tk (grid 5) -> In tm (grid 10) -> In cm (grid 10) ->
  In lq (grid 10) ->
  isFinite (weightedSum cs tk tm cm lq) = true.
Proof.
  intros Hcs Htk Htm Hcm Hlq.
  pose proof (weightedSum_rounds cs tk tm cm lq Hcs Htk Htm Hcm Hlq) as Hr.
  unfold roundsInRange in Hr.
  apply andb_true_iff in Hr as [Hr _]. now apply andb_true_iff in Hr as [Hr _].
Qed.

Lemma weightedSum_inRange (cs tk tm cm lq : Z) :
  In cs (grid 5) -> In tk (grid 5) -> In tm (grid 10) -> In cm (grid 10) ->
  In lq (grid 10) ->
  inRange (Math_round (weightedSum cs tk tm cm lq)).
Proof.
  intros Hcs Htk Htm Hcm Hlq.
  pose proof (weightedSum_rounds cs tk tm cm lq Hcs Htk Htm Hcm Hlq) as Hr.
  unfold roundsInRange in Hr.
  apply andb_true_iff in Hr as [Hr Hhi]. apply andb_true_iff in Hr as [_ Hlo].
  unfold inRange. lia.
Qed.

(** *** The loops of pattern matching *)

Lemma checkIndicator_eq (ca : ContractAnalysis) (matches : list string)
    (indicator : string) :
  checkIndicator ca matches indicator
  = matches ++ (if indicatorMatches ca indicator
                then [indicatorLabel indicator] else []).
Proof.
  unfold checkIndicator, indicatorMatches, indicatorLabel.
  destruct (String.eqb_spec indicator "is_proxy") as [-> | H1].
  { simpl. destruct (isProxy ca); simpl; now rewrite ?app_nil_r. }
  destruct (String.eqb_spec indicator "has_mint") as [-> | H2].
  { simpl. destruct (hasMintFunction ca); simpl; now rewrite ?app_nil_r. }
  destruct (String.eqb_spec indicator "ownership_not_renounced") as [-> | H3].
  { simpl. destruct (ownershipRenounced ca); simpl; now rewrite ?app_nil_r. }
  destruct (String.eqb_spec indicator "lp_not_locked") as [-> | H4].
  { simpl. destruct (lpLocked ca); simpl; now rewrite ?app_nil_r. }
  simpl. now rewrite app_nil_r.
Qed.

Lemma fold_checkIndicator (ca : ContractAnalysis) (names acc : list string) :
  fold_left (checkIndicator ca) names acc
  = acc ++ map indicatorLabel (filter (indicatorMatches ca) names).
Proof.
  revert acc. induction names as [| i names IH]; intros acc; simpl.
  - now rewrite app_nil_r.
  - rewrite IH, checkIndicator_eq.
    destruct (indicatorMatches ca i); simpl.
    + now rewrite <- app_assoc.
    + now rewrite app_nil_r.
Qed.

Lemma checkPatternMatch_eq (ca : ContractAnalysis) (names : list string) :
  checkPatternMatch names ca
  = map indicatorLabel (filter (indicatorMatches ca) names).
Proof. unfold checkPatternMatch. now rewrite fold_checkIndicator. Qed.

Lemma matchRows_eq (ca : ContractAnalysis) (patterns : list ScamPattern)
    (acc : list RedFlag) :
  matchRows (map rowOf patterns) ca acc
  = Returned (acc ++ flat_map (patternFlags indicatorLabel ca) patterns).
Proof.
  revert acc. induction patterns as [| p patterns IH]; intros acc.
  - simpl. now rewrite app_nil_r.
  - cbn [map matchRows rowOf indicators JSON_parse bind flat_map].
    rewrite IH, checkPatternMatch_eq.
    unfold patternFlags, matchedIndicators.
    destruct (filter (indicatorMatches ca) (indicatorNames p)) as [| i rest].
    + reflexivity.
    + cbn [map List.length].
      change (0 <? Z.of_nat (S (List.length (map indicatorLabel rest))))
        with true.
      cbn [pushIf]. rewrite <- app_assoc. reflexivity.
Qed.

Lemma matchScamPatterns_registryOf (pd : ProjectData) (ca : ContractAnalysis)
    (patterns : list ScamPattern) :
  matchScamPatterns (registryOf patterns) pd ca
  = Returned (flat_map (patternFlags indicatorLabel ca) patterns).
Proof. unfold matchScamPatterns, registryOf. simpl. now rewrite matchRows_eq. Qed.

(** *** The shape of [detectScam] *)

Lemma detectScam_eq (B : NumberBuiltins) (env : Env) (clock : Clock)
    (pd : ProjectData) (ca : ContractAnalysis)
    (tok : option TokenomicsAnalysis) (team : option TeamAnalysis)
    (comm : option CommunityAnalysis) :
  detectScam env clock pd ca tok team comm
  = (patternRedFlags <- matchScamPatterns env pd ca ;;
     Returned (assessment clock ca tok team comm
                 (collectRedFlags clock ca tok team comm ++ patternRedFlags))).
Proof. reflexivity. Qed.

Lemma detectScam_returned (B : NumberBuiltins) (env : Env) (clock : Clock)
    (pd : ProjectData) (ca : ContractAnalysis)
    (tok : option TokenomicsAnalysis) (team : option TeamAnalysis)
    (comm : option CommunityAnalysis) (r : RiskScore) :
  detectScam env clock pd ca tok team comm = Returned r ->
  exists patternRedFlags,
    matchScamPatterns env pd ca = Returned patternRedFlags
    /\ r = assessment clock ca tok team comm
             (collectRedFlags clock ca tok team comm ++ patternRedFlags).
Proof.
  rewrite detectScam_eq. destruct (matchScamPatterns env pd ca) as [flags | e];
    simpl; intros H; [| discriminate].
  exists flags. split; [reflexivity | congruence].
Qed.

(** With a registry whose rows decode, [detectScam] returns. *)
Lemma detectScam_returns (B : NumberBuiltins) (patterns : list ScamPattern)
    (clock : Clock) (pd : ProjectData) (ca : ContractAnalysis)
    (tok : option TokenomicsAnalysis) (team : option TeamAnalysis)
    (comm : option CommunityAnalysis) :
  exists r,
    detectScam (registryOf patterns) clock pd ca tok team comm = Returned r.
Proof.
  rewrite detectScam_eq, matchScamPatterns_registryOf. simpl. eexists.
  reflexivity.
Qed.

Lemma assessment_on_grid (clock : Clock) (ca : ContractAnalysis)
    (tok : option TokenomicsAnalysis) (team : option TeamAnalysis)
    (comm : option CommunityAnalysis) (flags : list RedFlag) :
  let r := assessment clock ca tok team comm flags in
  In (contractSafety r) (grid 5) /\ In (tokenomics r) (grid 5)
  /\ In (teamCredibility r) (grid 10) /\ In (communityHealth r) (grid 10)
  /\ In (liquidityRisk r) (grid 10).
Proof.
  simpl. repeat split.
  - apply calculateContractSafety_grid.
  - destruct tok; [apply calculateTokenomicsScore_grid | apply neutral_on_grid5].
  - destruct team; [apply calculateTeamScore_grid | apply neutral_on_grid10].
  - destruct comm; [apply calculateCommunityScore_grid | apply neutral_on_grid10].
  - apply calculateLiquidityRisk_grid.
Qed.

(** *** Recommendation *)

Lemma hasCritical_existsb (redFlags : list RedFlag) :
  existsb (fun f => Severity_eqb (severity f) CRITICAL) redFlags = true
  <-> hasCriticalFlag redFlags.
Proof.
  unfold hasCriticalFlag. rewrite existsb_exists.
  split; intros [f [Hin Hs]]; exists f; split; try assumption.
  - destruct (severity f); simpl in Hs; congruence.
  - now rewrite Hs.
Qed.

(** C1.  [determineRecommendation] returns AVOID whenever some flag is
    CRITICAL or the overall score is below 30; otherwise HIGH_RISK below 50,
    MODERATE_RISK below 70, LOW_RISK below 85 and SAFE from 85 on.  In
    particular one CRITICAL flag forces AVOID even at an overall score of 85
    or more. *)
Theorem determineRecommendation_precedence (overallScore : Z)
    (redFlags : list RedFlag) :
  (hasCriticalFlag redFlags \/ overallScore < 30 ->
   determineRecommendation overallScore redFlags = AVOID)
  /\ (~ hasCriticalFlag redFlags -> 30 <= overallScore < 50 ->
      determineRecommendation overallScore redFlags = HIGH_RISK)
  /\ (~ hasCriticalFlag redFlags -> 50 <= overallScore < 70 ->
      determineRecommendation overallScore redFlags = MODERATE_RISK)
  /\ (~ hasCriticalFlag redFlags -> 70 <= overallScore < 85 ->
      determineRecommendation overallScore redFlags = LOW_RISK)
  /\ (~ hasCriticalFlag redFlags -> 85 <= overallScore ->
      determineRecommendation overallScore redFlags = SAFE)
  /\ (forall f, In f redFlags -> severity f = CRITICAL -> 85 <= overallScore ->
      determineRecommendation overallScore redFlags = AVOID).
Proof.
  unfold determineRecommendation.
  pose proof (hasCritical_existsb redFlags) as Hc.
  destruct (existsb (fun f => Severity_eqb (severity f) CRITICAL) redFlags).
  - assert (hasCriticalFlag redFlags) as Hyes by now apply Hc.
    repeat split; intros; simpl; try reflexivity; contradiction.
  - assert (~ hasCriticalFlag redFlags) as Hno
        by (intros H; apply Hc in H; discriminate).
    simpl. repeat split.
    + intros [H | H]; [contradiction |].
      apply Z.ltb_lt in H. now rewrite H.
    + intros _ [H1 H2].
      destruct (Z.ltb_spec overallScore 30); [lia |].
      destruct (Z.ltb_spec overallScore 50); [reflexivity | lia].
    + intros _ [H1 H2].
      destruct (Z.ltb_spec overallScore 30); [lia |].
      destruct (Z.ltb_spec overallScore 50); [lia |].
      destruct (Z.ltb_spec overallScore 70); [reflexivity | lia].
    + intros _ [H1 H2].
      destruct (Z.ltb_spec overallScore 30); [lia |].
      destruct (Z.ltb_spec overallScore 50); [lia |].
      destruct (Z.ltb_spec overallScore 70); [lia |].
      destruct (Z.ltb_spec overallScore 85); [reflexivity | lia].
    + intros _ H1.
      destruct (Z.ltb_spec overallScore 30); [lia |].
      destruct (Z.ltb_spec overallScore 50); [lia |].
      destruct (Z.ltb_spec overallScore 70); [lia |].
      destruct (Z.ltb_spec overallScore 85); [lia | reflexivity].
    + intros f Hin Hs _. exfalso. apply Hno. now exists f.
Qed.

Lemma determineRecommendation_precedence_witness :
  In unverifiedFlag [unverifiedFlag] /\ severity unverifiedFlag = CRITICAL
  /\ 85 <= 90
  /\ determineRecommendation 90 [unverifiedFlag] = AVOID.
Proof.
  split; [now left |]. split; [reflexivity |]. split; [lia |].
  apply (proj2 (proj2 (proj2 (proj2 (proj2
           (determineRecommendation_precedence 90 [unverifiedFlag])))))
           unverifiedFlag); [now left | reflexivity | lia].
Defined.

(** *** Clamping *)

(** C2.  Whatever the inputs and the registry, the five sub-scores and the
    overall score of the record returned by [detectScam] lie between 0 and
    100 ([scoresInRange]); and [detectScam] does return a record for every registry whose rows
    decode, whatever flags they inject. *)
Theorem detectScam_scores_in_range (B : NumberBuiltins) (clock : Clock)
    (pd : ProjectData) (ca : ContractAnalysis)
    (tok : option TokenomicsAnalysis) (team : option TeamAnalysis)
    (comm : option CommunityAnalysis) :
  (forall env r,
      detectScam env clock pd ca tok team comm = Returned r ->
      scoresInRange r)
  /\ (forall patterns,
        exists r,
          detectScam (registryOf patterns) clock pd ca tok team comm
          = Returned r
          /\ scoresInRange r).
Proof.
  assert (forall env r,
             detectScam env clock pd ca tok team comm = Returned r ->
             scoresInRange r) as Hrange.
  { intros env r H. apply detectScam_returned in H as [flags [_ ->]].
    destruct (assessment_on_grid clock ca tok team comm
                (collectRedFlags clock ca tok team comm ++ flags))
      as [Hcs [Htk [Htm [Hcm Hlq]]]].
    unfold scoresInRange.
    repeat split;
      try (eapply (grid_inRange 5); [lia | eassumption]);
      try (eapply (grid_inRange 10); [lia | eassumption]);
      now apply weightedSum_inRange. }
  split; [exact Hrange |].
  intros patterns.
  destruct (detectScam_returns B patterns clock pd ca tok team comm) as [r Hr].
  exists r. split; [exact Hr | now apply (Hrange (registryOf patterns))].
Qed.

(** The registry injects CRITICAL flags of every category, and every other
    input raises flags of its own. *)
Lemma detectScam_scores_in_range_witness :
  exists r,
    @detectScam standInBuiltins (registryOf hostilePatterns) dayOne
      exampleProject mintableProxy (Some smallTokenomics) (Some scamTeam)
      (Some idleCommunity) = Returned r
    /\ (0 <= contractSafety r <= 100
        /\ 0 <= tokenomics r <= 100
        /\ 0 <= teamCredibility r <= 100
        /\ 0 <= communityHealth r <= 100
        /\ 0 <= liquidityRisk r <= 100
        /\ 0 <= overall r <= 100).
Proof.
  eexists. split.
  - vm_compute. reflexivity.
  - apply (proj1 (detectScam_scores_in_range standInBuiltins dayOne
                    exampleProject mintableProxy (Some smallTokenomics)
                    (Some scamTeam) (Some idleCommunity))
             (registryOf hostilePatterns)).
    vm_compute. reflexivity.
Defined.

(** *** Monotonicity *)

Lemma penalised_score_monotone (c h m l : Z) (cat : string)
    (flags : list RedFlag) (flag : RedFlag) :
  0 <= c -> 0 <= h -> 0 <= m -> 0 <= l ->
  totalPenalty (severityPenalty c h m l) cat flags
  <= totalPenalty (severityPenalty c h m l) cat (flags ++ [flag]).
Proof.
  intros. rewrite totalPenalty_app.
  pose proof (totalPenalty_nonneg c h m l cat [flag]). lia.
Qed.

(** C9.  Appending one more red flag, of any severity and category, to the
    collected flags never increases a sub-score: not the one of the flag's own
    category, and none of the others. *)
Theorem extra_flag_never_raises_score (flag : RedFlag) (flags : list RedFlag)
    (ca : ContractAnalysis) (tok : TokenomicsAnalysis) (team : TeamAnalysis)
    (comm : CommunityAnalysis) :
  calculateContractSafety ca (flags ++ [flag]) <= calculateContractSafety ca flags
  /\ calculateTokenomicsScore tok (flags ++ [flag])
     <= calculateTokenomicsScore tok flags
  /\ calculateTeamScore team (flags ++ [flag]) <= calculateTeamScore team flags
  /\ calculateCommunityScore comm (flags ++ [flag])
     <= calculateCommunityScore comm flags
  /\ calculateLiquidityRisk ca (flags ++ [flag]) <= calculateLiquidityRisk ca flags.
Proof.
  rewrite !calculateContractSafety_eq, !calculateTokenomicsScore_eq,
    !calculateTeamScore_eq, !calculateCommunityScore_eq,
    !calculateLiquidityRisk_eq.
  pose proof (penalised_score_monotone 30 20 10 5 "CONTRACT" flags flag).
  pose proof (penalised_score_monotone 30 20 10 5 "TOKENOMICS" flags flag).
  pose proof (penalised_score_monotone 40 20 10 0 "TEAM" flags flag).
  pose proof (penalised_score_monotone 0 20 10 0 "COMMUNITY" flags flag).
  pose proof (penalised_score_monotone 30 20 10 0 "LIQUIDITY" flags flag).
  repeat split; apply clampScore_monotone; lia.
Qed.

(** *** [Array_sort] with [compareSeverity] is the stable sort by severity *)

Lemma insertSorted_perm {A : Type} (compare : A -> A -> Z) (x : A) (l : list A) :
  Permutation (insertSorted compare x l) (x :: l).
Proof.
  induction l as [| y l IH]; simpl.
  - apply Permutation_refl.
  - destruct (compare x y <? 0).
    + apply Permutation_refl.
    + eapply perm_trans; [apply perm_skip, IH | apply perm_swap].
Qed.

Lemma fold_insert_perm {A : Type} (compare : A -> A -> Z) (l acc : list A) :
  Permutation
    (fold_left (fun sorted x => insertSorted compare x sorted) l acc)
    (acc ++ l).
Proof.
  revert acc. induction l as [| x l IH]; intros acc; simpl.
  - rewrite app_nil_r. apply Permutation_refl.
  - eapply perm_trans; [apply IH |].
    eapply perm_trans;
      [apply Permutation_app_tail, insertSorted_perm |].
    simpl. apply Permutation_middle.
Qed.

Lemma Array_sort_perm {A : Type} (compare : A -> A -> Z) (l : list A) :
  Permutation (Array_sort compare l) l.
Proof. unfold Array_sort. apply (fold_insert_perm compare l []). Qed.

Lemma Array_sort_In {A : Type} (compare : A -> A -> Z) (l : list A) (x : A) :
  In x (Array_sort compare l) <-> In x l.
Proof.
  split; apply Permutation_in;
    [| apply Permutation_sym]; apply Array_sort_perm.
Qed.

Lemma insertSorted_sorted (x : RedFlag) (l : list RedFlag) :
  StronglySorted bySeverity l ->
  StronglySorted bySeverity (insertSorted compareSeverity x l).
Proof.
  induction 1 as [| y l Hl IH Hy]; simpl.
  - constructor; [constructor | constructor].
  - destruct (Z.ltb_spec (compareSeverity x y) 0) as [Hlt | Hge].
    + constructor; [now constructor |].
      constructor.
      * unfold bySeverity, compareSeverity in *. lia.
      * eapply Forall_impl; [| exact Hy].
        intros z Hz. unfold bySeverity, compareSeverity in *. lia.
    + constructor; [assumption |].
      eapply Permutation_Forall;
        [apply Permutation_sym, insertSorted_perm |].
      constructor; [| assumption].
      unfold bySeverity, compareSeverity in *. lia.
Qed.

Lemma fold_insert_sorted (l acc : list RedFlag) :
  StronglySorted bySeverity acc ->
  StronglySorted bySeverity
    (fold_left (fun sorted x => insertSorted compareSeverity x sorted) l acc).
Proof.
  revert acc. induction l as [| x l IH]; intros acc Hacc; simpl.
  - assumption.
  - now apply IH, insertSorted_sorted.
Qed.

Lemma severityOrder_inj (s t : Severity) :
  severityOrder s = severityOrder t -> s = t.
Proof. destruct s, t; simpl; intros H; try reflexivity; discriminate. Qed.

Lemma hasSeverity_order (s : Severity) (f : RedFlag) :
  hasSeverity s f = true <-> severityOrder (severity f) = severityOrder s.
Proof.
  unfold hasSeverity. split.
  - destruct (severity f), s; simpl; intros H; try reflexivity; discriminate.
  - intros H. apply severityOrder_inj in H. rewrite H. now destruct s.
Qed.

Lemma filter_none {A : Type} (p : A -> bool) (l : list A) :
  Forall (fun x => p x = false) l -> filter p l = [].
Proof. induction 1 as [| x l Hx _ IH]; simpl; [| rewrite Hx]; auto. Qed.

(** A flag is inserted behind every flag of its own severity. *)
Lemma insertSorted_stable (s : Severity) (x : RedFlag) (l : list RedFlag) :
  StronglySorted bySeverity l ->
  filter (hasSeverity s) (insertSorted compareSeverity x l)
  = filter (hasSeverity s) l ++ filter (hasSeverity s) [x].
Proof.
  induction 1 as [| y l Hl IH Hy]; [reflexivity |].
  cbn [insertSorted].
  destruct (Z.ltb_spec (compareSeverity x y) 0) as [Hlt | Hge].
  - destruct (hasSeverity s x) eqn:Hx.
    + assert (filter (hasSeverity s) (y :: l) = []) as Hnone.
      { apply filter_none. apply hasSeverity_order in Hx.
        constructor.
        - destruct (hasSeverity s y) eqn:Hsy; [| reflexivity].
          apply hasSeverity_order in Hsy.
          unfold compareSeverity in Hlt. lia.
        - eapply Forall_impl; [| exact Hy].
          intros z Hz. destruct (hasSeverity s z) eqn:Hsz; [| reflexivity].
          apply hasSeverity_order in Hsz.
          unfold bySeverity, compareSeverity in *. lia. }
      cbn [filter] in *. rewrite Hx, Hnone. reflexivity.
    + cbn [filter]. rewrite Hx. now rewrite app_nil_r.
  - cbn [filter]. rewrite IH.
    destruct (hasSeverity s y); reflexivity.
Qed.

Lemma fold_insert_stable (s : Severity) (l acc : list RedFlag) :
  StronglySorted bySeverity acc ->
  filter (hasSeverity s)
    (fold_left (fun sorted x => insertSorted compareSeverity x sorted) l acc)
  = filter (hasSeverity s) acc ++ filter (hasSeverity s) l.
Proof.
  revert acc. induction l as [| x l IH]; intros acc Hacc; simpl fold_left.
  - now rewrite app_nil_r.
  - rewrite IH by now apply insertSorted_sorted.
    rewrite insertSorted_stable by assumption.
    rewrite <- app_assoc. f_equal.
    cbn [filter]. destruct (hasSeverity s x); reflexivity.
Qed.

(** The array that [sort] leaves behind holds the same flags, in ascending
    order of [severityOrder], the flags of one severity in their former
    order. *)
Lemma Array_sort_stable_sort (flags : list RedFlag) :
  Permutation (Array_sort compareSeverity flags) flags
  /\ StronglySorted bySeverity (Array_sort compareSeverity flags)
  /\ forall s, filter (hasSeverity s) (Array_sort compareSeverity flags)
               = filter (hasSeverity s) flags.
Proof.
  split; [apply Array_sort_perm |]. split.
  - apply fold_insert_sorted. constructor.
  - intros s. unfold Array_sort. now rewrite fold_insert_stable by constructor.
Qed.

(** *** Unverified sources *)

Lemma pushIf_incl (cond : bool) (flag f : RedFlag) (flags : list RedFlag) :
  In f flags -> In f (pushIf cond flag flags).
Proof.
  unfold pushIf. destruct cond; [| trivial].
  intros H. apply in_or_app. now left.
Qed.

Lemma generateRedFlags_unverified (now : Z) (ca : ContractAnalysis) :
  verified ca = false -> In unverifiedFlag (generateRedFlags now ca).
Proof.
  intros Hv. unfold generateRedFlags. rewrite Hv. cbv zeta.
  destruct (negb (lpLocked ca) && (0 <? creationTimestamp ca));
    [apply pushIf_incl |];
    do 6 apply pushIf_incl; left; reflexivity.
Qed.

Lemma assessment_contractSafety (clock : Clock) (ca : ContractAnalysis)
    (tok : option TokenomicsAnalysis) (team : option TeamAnalysis)
    (comm : option CommunityAnalysis) (flags : list RedFlag) :
  contractSafety (assessment clock ca tok team comm flags)
  = calculateContractSafety ca flags.
Proof. reflexivity. Qed.

Lemma assessment_redFlags (clock : Clock) (ca : ContractAnalysis)
    (tok : option TokenomicsAnalysis) (team : option TeamAnalysis)
    (comm : option CommunityAnalysis) (flags : list RedFlag) :
  redFlags (assessment clock ca tok team comm flags)
  = Array_sort compareSeverity flags
  /\ warnings (assessment clock ca tok team comm flags)
     = map renderWarning (Array_sort compareSeverity flags).
Proof. split; reflexivity. Qed.

(** C3, as the code has it.  When the source is absent or marked unverified,
    [analyzeContract] returns the analysis it starts from, whatever the
    detectors are: [verified] and every capability are false and both taxes
    are 0.  Assessing any analysis with [verified = false] and no optional
    input yields a CRITICAL flag, and a contract safety of at most 70 plus 10
    for a renounced ownership and 10 for locked liquidity: at most 70 when
    both are false, as in the result of [analyzeContract].  The assessment
    returns for every registry whose rows decode. *)
Theorem unverified_source_floor :
  (forall (D : SourceDetectors) (sourceInfo : option SourceInfo)
          (creation : option CreationInfo),
      cannotAnalyze sourceInfo = true ->
      let analysis := analyzeContract D sourceInfo creation in
      analysis = initialAnalysis None creation
      /\ verified analysis = false /\ isProxy analysis = false
      /\ hasHoneypot analysis = false /\ hasMintFunction analysis = false
      /\ hasPauseFunction analysis = false /\ hasBlacklist analysis = false
      /\ hasWhitelist analysis = false /\ ownershipRenounced analysis = false
      /\ lpLocked analysis = false
      /\ buyTax analysis = 0 /\ sellTax analysis = 0)
  /\ (forall (B : NumberBuiltins) (env : Env) (clock : Clock)
             (pd : ProjectData) (ca : ContractAnalysis) (r : RiskScore),
         verified ca = false ->
         detectScam env clock pd ca None None None = Returned r ->
         hasCriticalFlag (redFlags r)
         /\ contractSafety r
            <= 70 + bonus (ownershipRenounced ca) 10 + bonus (lpLocked ca) 10
         /\ (ownershipRenounced ca = false -> lpLocked ca = false ->
             contractSafety r <= 70))
  /\ (forall (B : NumberBuiltins) (patterns : list ScamPattern)
             (clock : Clock) (pd : ProjectData) (ca : ContractAnalysis),
         exists r,
           detectScam (registryOf patterns) clock pd ca None None None
           = Returned r).
Proof.
  split; [| split]; [| | intros; apply detectScam_returns].
  - intros D sourceInfo creation Hno analysis.
    assert (analysis = initialAnalysis None creation) as ->.
    { subst analysis. unfold analyzeContract.
      destruct sourceInfo as [info |]; [| reflexivity].
      simpl in Hno. rewrite Hno. unfold initialAnalysis.
      destruct (isVerified info); [discriminate | reflexivity]. }
    repeat split.
  - intros B env clock pd ca r Hv Hr.
    apply detectScam_returned in Hr as [flags [_ ->]].
    set (all := collectRedFlags clock ca None None None ++ flags).
    assert (In unverifiedFlag all) as Hin.
    { apply in_or_app. left. now apply generateRedFlags_unverified. }
    assert (contractSafety (assessment clock ca None None None all)
            <= 70 + bonus (ownershipRenounced ca) 10 + bonus (lpLocked ca) 10)
      as Hbound.
    { rewrite assessment_contractSafety, calculateContractSafety_eq, Hv.
      pose proof (totalPenalty_member 30 20 10 5 "CONTRACT" all unverifiedFlag
                    ltac:(lia) ltac:(lia) ltac:(lia) ltac:(lia) Hin eq_refl)
        as Hp.
      change (severityPenalty 30 20 10 5 unverifiedFlag) with 30 in Hp.
      unfold clampScore, bonus.
      destruct (ownershipRenounced ca), (lpLocked ca); lia. }
    split; [| split].
    + exists unverifiedFlag. split; [| reflexivity].
      destruct (assessment_redFlags clock ca None None None all) as [-> _].
      now apply Array_sort_In.
    + exact Hbound.
    + intros Ho Hl. rewrite Ho, Hl in Hbound. unfold bonus in Hbound. lia.
Qed.

(** An absent source analysed with detectors that fire on every text, and the
    resulting analysis assessed with an empty registry. *)
Lemma unverified_source_floor_witness :
  analyzeContract
    {| toLowerCase := fun s => s;
       detectProxyPattern := fun _ => true;
       detectMintFunction := fun _ => true;
       detectPauseFunction := fun _ => true;
       detectBlacklist := fun _ => true;
       detectWhitelist := fun _ => true;
       detectHoneypot := fun _ => true;
       detectTaxes := fun _ => (99, 99);
       detectOwnershipRenounced := fun _ => true |}
    None None
  = initialAnalysis None None
  /\ exists r,
       @detectScam standInBuiltins emptyRegistry dayOne exampleProject
         (initialAnalysis None None) None None None = Returned r
       /\ hasCriticalFlag (redFlags r) /\ contractSafety r <= 70.
Proof.
  split.
  - apply (proj1 unverified_source_floor). reflexivity.
  - eexists. split; [vm_compute; reflexivity |].
    destruct (proj1 (proj2 unverified_source_floor) standInBuiltins
                emptyRegistry dayOne exampleProject (initialAnalysis None None)
                _ eq_refl eq_refl) as [Hc [_ Hs]].
    split; [exact Hc | now apply Hs].
Defined.

(** The bound of 70 fails for an unverified analysis whose ownership is
    renounced and whose liquidity is locked: its contract safety is 90. *)
Lemma unverified_source_floor_counterexample :
  verified unverifiedLocked = false
  /\ exists r,
       @detectScam standInBuiltins emptyRegistry dayOne exampleProject
         unverifiedLocked None None None = Returned r
       /\ contractSafety r = 90 /\ ~ contractSafety r <= 70.
Proof.
  split; [reflexivity |].
  eexists. split; [vm_compute; reflexivity |].
  split; [reflexivity | vm_compute; congruence].
Qed.

(** *** Registry failure *)

(** C5, as the code has it.  When the registry lookup fails, [detectScam]
    returns no score: the failure of the lookup is the outcome of the call,
    whatever flags the other inputs raise. *)
Theorem registry_failure_propagates (B : NumberBuiltins) (env : Env)
    (clock : Clock) (pd : ProjectData) (ca : ContractAnalysis)
    (tok : option TokenomicsAnalysis) (team : option TeamAnalysis)
    (comm : option CommunityAnalysis) :
  DB_scam_patterns env = None ->
  detectScam env clock pd ca tok team comm = Thrown RegistryUnavailable.
Proof.
  intros Hdb. rewrite detectScam_eq. unfold matchScamPatterns.
  now rewrite Hdb.
Qed.

Lemma registry_failure_propagates_witness :
  DB_scam_patterns unavailableRegistry = None
  /\ @detectScam standInBuiltins unavailableRegistry dayOne exampleProject
       mintableProxy (Some smallTokenomics) (Some scamTeam) (Some idleCommunity)
     = Thrown RegistryUnavailable.
Proof.
  split; [reflexivity |].
  apply (registry_failure_propagates standInBuiltins). reflexivity.
Defined.

(** With the registry unavailable, the honest token gets no score at all. *)
Lemma registry_failure_counterexample :
  @detectScam standInBuiltins unavailableRegistry dayOne exampleProject
    honestToken None None None = Thrown RegistryUnavailable
  /\ forall r,
       @detectScam standInBuiltins unavailableRegistry dayOne exampleProject
         honestToken None None None <> Returned r.
Proof.
  split; [reflexivity |]. intros r H. vm_compute in H. discriminate.
Qed.

(** *** The honest token *)

(** C6, as the code has it.  For the honest token (verified, no proxy, mint,
    pause, blacklist or honeypot, both taxes 0, ownership renounced, liquidity
    locked) with tokenomics, team and community omitted and an empty registry,
    [detectScam] raises no flag and returns a contract safety of 100, a
    liquidity score of 80 and the neutral 50 elsewhere: the overall score is
    68 and the recommendation MODERATE_RISK. *)
Theorem honest_token_is_moderate_risk (B : NumberBuiltins) (clock : Clock)
    (pd : ProjectData) (ca : ContractAnalysis) :
  verified ca = true -> isProxy ca = false -> hasMintFunction ca = false ->
  hasPauseFunction ca = false -> hasBlacklist ca = false ->
  buyTax ca = 0 -> sellTax ca = 0 -> ownershipRenounced ca = true ->
  lpLocked ca = true -> hasHoneypot ca = false ->
  exists r,
    detectScam emptyRegistry clock pd ca None None None = Returned r
    /\ redFlags r = []
    /\ contractSafety r = 100
    /\ liquidityRisk r = 80
    /\ overall r = 68
    /\ recommendation r = MODERATE_RISK.
Proof.
  intros Hv Hp Hm Hpa Hb Hbt Hst Ho Hl Hh.
  destruct ca; simpl in *; subst.
  eexists. split; [reflexivity |].
  repeat split.
Qed.

Lemma honest_token_is_moderate_risk_witness :
  exists r,
    @detectScam standInBuiltins emptyRegistry dayEight otherProject honestToken
      None None None = Returned r
    /\ redFlags r = []
    /\ contractSafety r = 100
    /\ liquidityRisk r = 80
    /\ overall r = 68
    /\ recommendation r = MODERATE_RISK.
Proof.
  apply (honest_token_is_moderate_risk standInBuiltins dayEight otherProject
           honestToken); reflexivity.
Defined.

(** The recommendation for the honest token is neither LOW_RISK nor SAFE. *)
Lemma honest_token_counterexample :
  exists r,
    @detectScam standInBuiltins emptyRegistry dayOne exampleProject honestToken
      None None None = Returned r
    /\ contractSafety r = 100
    /\ recommendation r = MODERATE_RISK
    /\ recommendation r <> LOW_RISK /\ recommendation r <> SAFE.
Proof.
  eexists. split; [vm_compute; reflexivity |].
  repeat split; simpl; discriminate.
Qed.

(** *** Dependence on the clock *)

Lemma generateRedFlags_ageRule (now1 now2 : Z) (ca : ContractAnalysis) :
  ageRuleFires now1 ca = ageRuleFires now2 ca ->
  generateRedFlags now1 ca = generateRedFlags now2 ca.
Proof.
  unfold ageRuleFires, generateRedFlags. cbv zeta.
  destruct (negb (lpLocked ca) && (0 <? creationTimestamp ca));
    [| reflexivity].
  simpl. now intros ->.
Qed.

Lemma collectRedFlags_ageRule (B : NumberBuiltins) (c1 c2 : Clock)
    (ca : ContractAnalysis) (tok : option TokenomicsAnalysis)
    (team : option TeamAnalysis) (comm : option CommunityAnalysis) :
  ageRuleFires (nowAtAgeRule c1) ca = ageRuleFires (nowAtAgeRule c2) ca ->
  collectRedFlags c1 ca tok team comm = collectRedFlags c2 ca tok team comm.
Proof.
  intros H. unfold collectRedFlags.
  now rewrite (generateRedFlags_ageRule _ _ ca H).
Qed.

Lemma withTimestamp_assessment (c1 c2 : Clock) (ca : ContractAnalysis)
    (tok : option TokenomicsAnalysis) (team : option TeamAnalysis)
    (comm : option CommunityAnalysis) (flags : list RedFlag) :
  withTimestamp (nowAtReturn c2) (assessment c1 ca tok team comm flags)
  = assessment c2 ca tok team comm flags.
Proof. reflexivity. Qed.

(** C4, as the code has it.  For fixed inputs and a fixed registry snapshot,
    two calls of [detectScam] at which the rule on young contracts fires
    alike return records that are equal in every field but
    [analysisTimestamp], which is the reading of the clock at the end of each
    call; the records are identical when these two readings agree as well. *)
Theorem detectScam_deterministic_up_to_clock (B : NumberBuiltins) (env : Env)
    (c1 c2 : Clock) (pd : ProjectData) (ca : ContractAnalysis)
    (tok : option TokenomicsAnalysis) (team : option TeamAnalysis)
    (comm : option CommunityAnalysis) :
  ageRuleFires (nowAtAgeRule c1) ca = ageRuleFires (nowAtAgeRule c2) ca ->
  mapOutcome (withTimestamp (nowAtReturn c2))
    (detectScam env c1 pd ca tok team comm)
  = detectScam env c2 pd ca tok team comm
  /\ (nowAtReturn c1 = nowAtReturn c2 ->
      detectScam env c1 pd ca tok team comm
      = detectScam env c2 pd ca tok team comm).
Proof.
  intros Hage. rewrite !detectScam_eq.
  rewrite (collectRedFlags_ageRule B c1 c2 ca tok team comm Hage).
  destruct (matchScamPatterns env pd ca) as [flags | e]; simpl.
  - rewrite withTimestamp_assessment. split; [reflexivity |].
    intros Hs. unfold assessment. now rewrite Hs.
  - split; reflexivity.
Qed.

(** Two calls on the same day for a young contract with unlocked liquidity. *)
Lemma detectScam_deterministic_up_to_clock_witness :
  ageRuleFires (nowAtAgeRule dayOne) mintableProxy
  = ageRuleFires (nowAtAgeRule dayOne + 3600000) mintableProxy
  /\ mapOutcome (withTimestamp (nowAtReturn dayOne + 3600000))
       (@detectScam standInBuiltins (registryOf [proxyPattern]) dayOne
          exampleProject mintableProxy None (Some scamTeam) None)
     = @detectScam standInBuiltins (registryOf [proxyPattern])
         {| nowAtAgeRule := nowAtAgeRule dayOne + 3600000;
            nowAtReturn := nowAtReturn dayOne + 3600000 |}
         exampleProject mintableProxy None (Some scamTeam) None.
Proof.
  split; [reflexivity |].
  apply (detectScam_deterministic_up_to_clock standInBuiltins
           (registryOf [proxyPattern]) dayOne
           {| nowAtAgeRule := nowAtAgeRule dayOne + 3600000;
              nowAtReturn := nowAtReturn dayOne + 3600000 |}
           exampleProject mintableProxy None (Some scamTeam) None).
  reflexivity.
Defined.

(** The same inputs assessed one day and eight days after the creation of the
    contract: the time stamps differ, and so do the flags and the liquidity
    score. *)
Lemma detectScam_not_deterministic_counterexample :
  exists r1 r2,
    @detectScam standInBuiltins emptyRegistry dayOne exampleProject
      mintableProxy None None None = Returned r1
    /\ @detectScam standInBuiltins emptyRegistry dayEight exampleProject
         mintableProxy None None None = Returned r2
    /\ analysisTimestamp r1 <> analysisTimestamp r2
    /\ List.length (redFlags r1) = 3%nat /\ List.length (redFlags r2) = 2%nat
    /\ liquidityRisk r1 = 30 /\ liquidityRisk r2 = 50
    /\ r1 <> r2.
Proof.
  eexists. eexists.
  split; [vm_compute; reflexivity |].
  split; [vm_compute; reflexivity |].
  repeat split; simpl; discriminate.
Qed.

(** *** Independence from the project *)

(** C10, as the code has it.  [detectScam] never reads its [ProjectData]
    argument, and neither does [matchScamPatterns]; but the two calls read the
    clock.  With the other inputs and the registry fixed, two calls on any two
    projects at which the rule on young contracts fires alike return records
    that are equal in every field but [analysisTimestamp], and equal there
    too when the two calls end at the same time. *)
Theorem detectScam_ignores_projectData (B : NumberBuiltins) (env : Env)
    (c1 c2 : Clock) (pd1 pd2 : ProjectData) (ca : ContractAnalysis)
    (tok : option TokenomicsAnalysis) (team : option TeamAnalysis)
    (comm : option CommunityAnalysis) :
  ageRuleFires (nowAtAgeRule c1) ca = ageRuleFires (nowAtAgeRule c2) ca ->
  matchScamPatterns env pd1 ca = matchScamPatterns env pd2 ca
  /\ mapOutcome (withTimestamp (nowAtReturn c2))
       (detectScam env c1 pd1 ca tok team comm)
     = detectScam env c2 pd2 ca tok team comm
  /\ (nowAtReturn c1 = nowAtReturn c2 ->
      detectScam env c1 pd1 ca tok team comm
      = detectScam env c2 pd2 ca tok team comm).
Proof.
  intros Hage. split; [reflexivity |]. rewrite !detectScam_eq.
  rewrite (collectRedFlags_ageRule B c1 c2 ca tok team comm Hage).
  assert (matchScamPatterns env pd1 ca = matchScamPatterns env pd2 ca) as ->
      by reflexivity.
  destruct (matchScamPatterns env pd2 ca) as [flags | e]; simpl.
  - rewrite withTimestamp_assessment. split; [reflexivity |].
    intros Hs. unfold assessment. now rewrite Hs.
  - split; reflexivity.
Qed.

(** Two projects assessed an hour apart, the contract being one day old at
    both calls. *)
Lemma detectScam_ignores_projectData_witness :
  ageRuleFires (nowAtAgeRule dayOne) mintableProxy
  = ageRuleFires (nowAtAgeRule dayOne + 3600000) mintableProxy
  /\ mapOutcome (withTimestamp (nowAtReturn dayOne + 3600000))
       (@detectScam standInBuiltins (registryOf [proxyPattern]) dayOne
          exampleProject mintableProxy None (Some scamTeam) None)
     = @detectScam standInBuiltins (registryOf [proxyPattern])
         {| nowAtAgeRule := nowAtAgeRule dayOne + 3600000;
            nowAtReturn := nowAtReturn dayOne + 3600000 |}
         otherProject mintableProxy None (Some scamTeam) None.
Proof.
  split; [reflexivity |].
  apply (detectScam_ignores_projectData standInBuiltins
           (registryOf [proxyPattern]) dayOne
           {| nowAtAgeRule := nowAtAgeRule dayOne + 3600000;
              nowAtReturn := nowAtReturn dayOne + 3600000 |}
           exampleProject otherProject mintableProxy None (Some scamTeam)
           None).
  reflexivity.
Defined.

(** Two projects with the same contract, one assessed a day and the other
    eight days after its creation: the records differ in more than the time
    stamp. *)
Lemma detectScam_two_projects_counterexample :
  exists r1 r2,
    @detectScam standInBuiltins emptyRegistry dayOne exampleProject
      mintableProxy None None None = Returned r1
    /\ @detectScam standInBuiltins emptyRegistry dayEight otherProject
         mintableProxy None None None = Returned r2
    /\ List.length (redFlags r1) = 3%nat /\ List.length (redFlags r2) = 2%nat
    /\ List.length (warnings r1) = 3%nat /\ List.length (warnings r2) = 2%nat
    /\ liquidityRisk r1 = 30 /\ liquidityRisk r2 = 50
    /\ overall r1 = 51 /\ overall r2 = 53
    /\ withTimestamp (analysisTimestamp r2) r1 <> r2.
Proof.
  eexists. eexists.
  split; [vm_compute; reflexivity |].
  split; [vm_compute; reflexivity |].
  repeat split; simpl; discriminate.
Qed.

(** *** Pattern matching *)

Lemma unrecognized_never_matches (ca : ContractAnalysis) (indicator : string) :
  recognized indicator = false -> indicatorMatches ca indicator = false.
Proof.
  unfold recognized, indicatorMatches. intros H.
  repeat (apply orb_false_iff in H as [H ?]).
  repeat match goal with
         | E : (_ =? _)%string = false |- _ => rewrite E; clear E
         end.
  reflexivity.
Qed.

(** C7, as the code has it.  For every registry of patterns and every
    [ContractAnalysis], pattern matching returns, pattern by pattern in
    registry order, no flag for a pattern none of whose indicators matches and
    exactly one flag for a pattern with at least one matching indicator; the
    flag carries the severity, type (as category) and description of the
    pattern, and its evidence is the list, joined by ", ", of the labels
    under which the engine reports the matched indicators ("Is proxy
    contract", "Has mint function", "Ownership not renounced", "LP not
    locked"), not of their names.  An indicator name the engine does not
    recognize matches nothing, and is skipped without effect on the rest. *)
Theorem pattern_matching_flags (pd : ProjectData) (ca : ContractAnalysis)
    (patterns : list ScamPattern) :
  matchScamPatterns (registryOf patterns) pd ca
  = Returned (flat_map (patternFlags indicatorLabel ca) patterns)
  /\ (forall p,
        (existsb (indicatorMatches ca) (indicatorNames p) = false ->
         patternFlags indicatorLabel ca p = [])
        /\ (existsb (indicatorMatches ca) (indicatorNames p) = true ->
            patternFlags indicatorLabel ca p
            = [ {| severity := patternSeverity p;
                   category := patternType p;
                   description := patternDescription p;
                   evidence :=
                     Some (join ", " (map indicatorLabel
                                        (matchedIndicators ca p))) |} ]))
  /\ (forall indicator,
        recognized indicator = false ->
        indicatorMatches ca indicator = false
        /\ forall p before after,
             indicatorNames p = before ++ indicator :: after ->
             patternFlags indicatorLabel ca p
             = patternFlags indicatorLabel ca
                 {| patternType := patternType p;
                    patternDescription := patternDescription p;
                    indicatorNames := before ++ after;
                    patternSeverity := patternSeverity p |}).
Proof.
  split; [| split].
  - apply matchScamPatterns_registryOf.
  - intros p. unfold patternFlags, matchedIndicators. split; intros H.
    + destruct (filter (indicatorMatches ca) (indicatorNames p))
        as [| i rest] eqn:E; [reflexivity |].
      assert (In i (filter (indicatorMatches ca) (indicatorNames p))) as Hin
          by (rewrite E; now left).
      apply filter_In in Hin as [Hin Hm].
      assert (existsb (indicatorMatches ca) (indicatorNames p) = true) as Hex
          by (apply existsb_exists; now exists i).
      congruence.
    + apply existsb_exists in H as [i [Hin Hm]].
      destruct (filter (indicatorMatches ca) (indicatorNames p))
        as [| j rest] eqn:E; [| reflexivity].
      assert (In i (filter (indicatorMatches ca) (indicatorNames p))) as Hi
          by (apply filter_In; now split).
      rewrite E in Hi. contradiction.
  - intros indicator Hunknown.
    pose proof (unrecognized_never_matches ca indicator Hunknown) as Hno.
    split; [exact Hno |].
    intros p before after Hnames.
    unfold patternFlags, matchedIndicators. cbn [indicatorNames patternType
      patternDescription patternSeverity].
    rewrite Hnames, !filter_app. cbn [filter]. now rewrite Hno.
Qed.

Lemma pattern_matching_flags_witness :
  recognized "no_such_indicator" = false
  /\ existsb (indicatorMatches mintableProxy) (indicatorNames proxyPattern) = true
  /\ matchScamPatterns (registryOf [proxyPattern]) exampleProject mintableProxy
     = Returned (flat_map (patternFlags indicatorLabel mintableProxy)
                   [proxyPattern])
  /\ indicatorMatches mintableProxy "no_such_indicator" = false.
Proof.
  split; [reflexivity |]. split; [reflexivity |]. split.
  - apply (proj1 (pattern_matching_flags exampleProject mintableProxy
                    [proxyPattern])).
  - apply (proj2 (proj2 (pattern_matching_flags exampleProject mintableProxy
                           [proxyPattern]))).
    reflexivity.
Defined.

(** The evidence of a pattern flag is not the list of the matched indicator
    names: for a proxy with a mint function and an active owner it reads "Is
    proxy contract, Has mint function, Ownership not renounced". *)
Lemma pattern_evidence_counterexample :
  matchScamPatterns (registryOf [proxyPattern]) exampleProject mintableProxy
  = Returned
      [ {| severity := CRITICAL; category := "CONTRACT";
           description := "Hidden mint function in proxy contract";
           evidence := Some "Is proxy contract, Has mint function, Ownership not renounced" |} ]
  /\ join ", " (matchedIndicators mintableProxy proxyPattern)
     = "is_proxy, has_mint, ownership_not_renounced"
  /\ matchScamPatterns (registryOf [proxyPattern]) exampleProject mintableProxy
     <> Returned (flat_map (patternFlags (fun name => name) mintableProxy)
                    [proxyPattern]).
Proof.
  split; [reflexivity |]. split; [reflexivity |].
  vm_compute. discriminate.
Qed.

(** *** Warnings and the order of the flags *)

(** In the record that [detectScam] returns, [redFlags] is the array as
    [generateWarnings] leaves it, sorted by severity, and [warnings] is its
    rendering, flag by flag. *)
Lemma detectScam_redFlags_sorted (B : NumberBuiltins) (env : Env)
    (clock : Clock) (pd : ProjectData) (ca : ContractAnalysis)
    (tok : option TokenomicsAnalysis) (team : option TeamAnalysis)
    (comm : option CommunityAnalysis) (r : RiskScore) :
  detectScam env clock pd ca tok team comm = Returned r ->
  exists patternRedFlags,
    matchScamPatterns env pd ca = Returned patternRedFlags
    /\ redFlags r
       = Array_sort compareSeverity
           (collectRedFlags clock ca tok team comm ++ patternRedFlags)
    /\ StronglySorted bySeverity (redFlags r)
    /\ warnings r = map renderWarning (redFlags r).
Proof.
  intros H. apply detectScam_returned in H as [flags [Hm ->]].
  exists flags. split; [exact Hm |].
  destruct (assessment_redFlags clock ca tok team comm
              (collectRedFlags clock ca tok team comm ++ flags)) as [-> ->].
  split; [reflexivity |]. split; [| reflexivity].
  apply Array_sort_stable_sort.
Qed.

(** C8, on the code.  A mintable token with an active owner and a team with a
    scam history: the flags are collected in the order HIGH (mint), CRITICAL
    (team), and the record returned by [detectScam] lists them in the order
    CRITICAL, HIGH.  The warnings are the rendering of the flags sorted by
    severity, and the sort has reordered the [redFlags] of the result as
    well. *)
Theorem generateWarnings_reorders_redFlags :
  map severity
    (@collectRedFlags standInBuiltins dayOne mintableToken None (Some scamTeam)
       None) = [HIGH; CRITICAL]
  /\ exists r,
       @detectScam standInBuiltins emptyRegistry dayOne exampleProject
         mintableToken None (Some scamTeam) None = Returned r
       /\ map severity (redFlags r) = [CRITICAL; HIGH]
       /\ warnings r
          = ["[CRITICAL] Team has history of scam projects";
             "[HIGH] Contract has mint function and ownership not renounced"]
       /\ redFlags r
          <> @collectRedFlags standInBuiltins dayOne mintableToken None
               (Some scamTeam) None.
Proof.
  split; [reflexivity |].
  eexists. split; [vm_compute; reflexivity |].
  split; [reflexivity |]. split; [reflexivity |].
  vm_compute. discriminate.
Qed.

(** * Further properties of the scanner and of the detector *)

(** ** [generateRedFlags] rule by rule *)

(** The flags that [generateRedFlags] can push, in the order of its rules. *)
Definition honeypotFlag : RedFlag :=
  {| severity := CRITICAL; category := "CONTRACT";
     description := "Honeypot detected - may not be able to sell";
     evidence := Some "Contract contains transfer restrictions that could prevent selling" |}.

Definition upgradeableMintFlag : RedFlag :=
  {| severity := CRITICAL; category := "CONTRACT";
     description := "Upgradeable contract with mint function and active owner";
     evidence := Some "Owner can upgrade contract to mint unlimited tokens" |}.

Definition mintFlag : RedFlag :=
  {| severity := HIGH; category := "CONTRACT";
     description := "Contract has mint function and ownership not renounced";
     evidence := Some "Owner can mint new tokens at any time" |}.

Definition taxFlag (analysis : ContractAnalysis) : RedFlag :=
  {| severity := HIGH; category := "CONTRACT";
     description := "Excessive trading taxes detected";
     evidence := Some ("Buy tax: " ++ Z_toString (buyTax analysis)
                       ++ "%, Sell tax: " ++ Z_toString (sellTax analysis)
                       ++ "%")%string |}.

Definition blacklistFlag : RedFlag :=
  {| severity := MEDIUM; category := "CONTRACT";
     description := "Contract can blacklist addresses";
     evidence := Some "Owner can prevent specific addresses from trading" |}.

Definition pauseFlag : RedFlag :=
  {| severity := MEDIUM; category := "CONTRACT";
     description := "Contract can be paused by owner";
     evidence := Some "Owner can halt all trading at any time" |}.

Definition newTokenLiquidityFlag : RedFlag :=
  {| severity := HIGH; category := "LIQUIDITY";
     description := "Liquidity not locked for new token";
     evidence := Some "LP tokens are not locked, rug pull risk" |}.

(** The flag of a rule whose condition is [cond]. *)
Definition fired (cond : bool) (flag : RedFlag) : list RedFlag :=
  if cond then [flag] else [].

(** The conditions of the rules of [generateRedFlags] that need an owner. *)
Definition ownerCanMint (analysis : ContractAnalysis) : bool :=
  hasMintFunction analysis && negb (ownershipRenounced analysis).

Definition ownerCanUpgradeMint (analysis : ContractAnalysis) : bool :=
  isProxy analysis && hasMintFunction analysis
  && negb (ownershipRenounced analysis).

Definition excessiveTax (analysis : ContractAnalysis) : bool :=
  (10 <? buyTax analysis) || (10 <? sellTax analysis).

(** ** [quickSafetyCheck] *)

Record SafetyCheck : Type := {
  isSafe : bool;
  criticalIssues : Z;
  highIssues : Z;
  safetyWarnings : list string
}.

(** [quickSafetyCheck]: the two fetches of [analyzeContract] are given as
    what they resolve to, and [now] is the value of [Date.now()]. *)
Definition quickSafetyCheck (D : SourceDetectors) (now : Z)
    (sourceInfo : option SourceInfo) (creation : option CreationInfo)
    : SafetyCheck :=
  let analysis := analyzeContract D sourceInfo creation in
  let redFlags := generateRedFlags now analysis in
  let criticalIssues :=
    Z.of_nat (List.length
      (filter (fun f => Severity_eqb (severity f) CRITICAL) redFlags)) in
  let highIssues :=
    Z.of_nat (List.length
      (filter (fun f => Severity_eqb (severity f) HIGH) redFlags)) in
  let warnings := map description redFlags in
  {| isSafe := (criticalIssues =? 0) && (highIssues =? 0);
     criticalIssues := criticalIssues;
     highIssues := highIssues;
     safetyWarnings := warnings |}.

(** A source whose [isVerified] is set, and a creation record of a given
    time. *)
Definition verifiedSource (text : string) : SourceInfo :=
  {| sourceCode := text; abi := "[]"; contractName := "Token";
     compilerVersion := "v0.8.20"; optimizationUsed := "1";
     isVerified := true |}.

Definition createdAt (seconds : Z) : CreationInfo :=
  {| creator := "0xc0ffee"; txHash := "0xfeed"; timestamp := seconds |}.

(** Detectors that find nothing but a renounced ownership, and detectors that
    fire on every text. *)
Definition quietDetectors : SourceDetectors :=
  {| toLowerCase := fun s => s;
     detectProxyPattern := fun _ => false;
     detectMintFunction := fun _ => false;
     detectPauseFunction := fun _ => false;
     detectBlacklist := fun _ => false;
     detectWhitelist := fun _ => false;
     detectHoneypot := fun _ => false;
     detectTaxes := fun _ => (0, 0);
     detectOwnershipRenounced := fun _ => true |}.

Definition alarmDetectors : SourceDetectors :=
  {| toLowerCase := fun s => s;
     detectProxyPattern := fun _ => true;
     detectMintFunction := fun _ => true;
     detectPauseFunction := fun _ => true;
     detectBlacklist := fun _ => true;
     detectWhitelist := fun _ => true;
     detectHoneypot := fun _ => true;
     detectTaxes := fun _ => (25, 25);
     detectOwnershipRenounced := fun _ => false |}.

(** *** The rules of [generateRedFlags] *)

Lemma generateRedFlags_rules (now : Z) (a : ContractAnalysis) :
  generateRedFlags now a
  = fired (negb (verified a)) unverifiedFlag
    ++ fired (hasHoneypot a) honeypotFlag
    ++ fired (ownerCanUpgradeMint a) upgradeableMintFlag
    ++ fired (ownerCanMint a) mintFlag
    ++ fired (excessiveTax a) (taxFlag a)
    ++ fired (hasBlacklist a && negb (ownershipRenounced a)) blacklistFlag
    ++ fired (hasPauseFunction a && negb (ownershipRenounced a)) pauseFlag
    ++ fired (ageRuleFires now a) newTokenLiquidityFlag.
Proof.
  unfold generateRedFlags, ageRuleFires, ownerCanUpgradeMint, ownerCanMint,
    excessiveTax, fired, pushIf.
  cbv zeta.
  destruct (negb (verified a)), (hasHoneypot a),
    (isProxy a && hasMintFunction a && negb (ownershipRenounced a)),
    (hasMintFunction a && negb (ownershipRenounced a)),
    ((10 <? buyTax a) || (10 <? sellTax a)),
    (hasBlacklist a && negb (ownershipRenounced a)),
    (hasPauseFunction a && negb (ownershipRenounced a)),
    (negb (lpLocked a) && (0 <? creationTimestamp a)),
    (now - creationTimestamp a * 1000 <? sevenDaysMs);
    reflexivity.
Qed.

Lemma fired_nil (cond : bool) (flag : RedFlag) :
  fired cond flag = [] <-> cond = false.
Proof. destruct cond; simpl; split; intros H; congruence. Qed.

(** X1.  [generateRedFlags] returns no flag exactly for a verified contract
    without honeypot, whose mint, blacklist and pause functions, if any, have
    lost their owner, whose two taxes are at most 10, and which is not a
    young contract with unlocked liquidity. *)
Theorem generateRedFlags_clean_iff (now : Z) (a : ContractAnalysis) :
  generateRedFlags now a = []
  <-> verified a = true
      /\ hasHoneypot a = false
      /\ (hasMintFunction a = true -> ownershipRenounced a = true)
      /\ buyTax a <= 10 /\ sellTax a <= 10
      /\ (hasBlacklist a = true -> ownershipRenounced a = true)
      /\ (hasPauseFunction a = true -> ownershipRenounced a = true)
      /\ ageRuleFires now a = false.
Proof.
  rewrite generateRedFlags_rules.
  unfold ownerCanUpgradeMint, ownerCanMint, excessiveTax.
  split.
  - intros H.
    repeat match type of H with
           | _ ++ _ = [] => apply app_eq_nil in H; destruct H as [?H H]
           end.
    repeat match goal with
           | E : fired _ _ = [] |- _ => apply fired_nil in E
           end.
    destruct (verified a), (hasHoneypot a), (hasMintFunction a),
      (ownershipRenounced a), (hasBlacklist a), (hasPauseFunction a),
      (isProxy a);
      simpl in *; try discriminate;
      match goal with
      | E : (10 <? buyTax a) || (10 <? sellTax a) = false |- _ =>
          apply orb_false_iff in E; destruct E as [E1 E2];
          apply Z.ltb_ge in E1; apply Z.ltb_ge in E2
      end;
      repeat split; auto; discriminate.
  - intros (Hv & Hh & Hm & Hb & Hs & Hbl & Hp & Hage).
    rewrite Hv, Hh, Hage.
    assert ((10 <? buyTax a) || (10 <? sellTax a) = false) as ->.
    { apply orb_false_iff. split; apply Z.ltb_ge; assumption. }
    destruct (hasMintFunction a), (ownershipRenounced a), (hasBlacklist a),
      (hasPauseFunction a), (isProxy a); simpl;
      try reflexivity;
      try (specialize (Hm eq_refl); discriminate);
      try (specialize (Hbl eq_refl); discriminate);
      try (specialize (Hp eq_refl); discriminate).
Qed.

(** X2.  Once ownership is renounced, the proxy, mint, blacklist and pause
    capabilities of a contract raise no flag: the flags are those of the same
    analysis with the four capabilities cleared, and each of them is the
    unverified, honeypot, tax or young-liquidity flag. *)
Theorem renounced_owner_rules_are_silent (now : Z) (a : ContractAnalysis) :
  ownershipRenounced a = true ->
  generateRedFlags now a
  = fired (negb (verified a)) unverifiedFlag
    ++ fired (hasHoneypot a) honeypotFlag
    ++ fired (excessiveTax a) (taxFlag a)
    ++ fired (ageRuleFires now a) newTokenLiquidityFlag
  /\ forall proxy mint blacklist pause whitelist,
       generateRedFlags now
         {| verified := verified a; isProxy := proxy;
            hasHoneypot := hasHoneypot a; hasMintFunction := mint;
            hasPauseFunction := pause; hasBlacklist := blacklist;
            hasWhitelist := whitelist; buyTax := buyTax a;
            sellTax := sellTax a; ownershipRenounced := true;
            maxWalletLimit := maxWalletLimit a;
            maxTxLimit := maxTxLimit a; lpLocked := lpLocked a;
            lpLockDuration := lpLockDuration a;
            creatorAddress := creatorAddress a;
            creationTimestamp := creationTimestamp a |}
       = generateRedFlags now a.
Proof.
  intros Hr.
  assert (forall b, generateRedFlags now b
                    = fired (negb (verified b)) unverifiedFlag
                      ++ fired (hasHoneypot b) honeypotFlag
                      ++ fired (excessiveTax b) (taxFlag b)
                      ++ fired (ageRuleFires now b) newTokenLiquidityFlag
                    \/ ownershipRenounced b = false) as Hform.
  { intros b. destruct (ownershipRenounced b) eqn:E; [left | now right].
    rewrite generateRedFlags_rules.
    unfold ownerCanUpgradeMint, ownerCanMint. rewrite E.
    rewrite !andb_false_r. reflexivity. }
  split.
  - destruct (Hform a) as [H | H]; [exact H | congruence].
  - intros proxy mint blacklist pause whitelist.
    match goal with
    | |- generateRedFlags now ?b = _ =>
        destruct (Hform b) as [Hb | Hb]; [| discriminate Hb];
        destruct (Hform a) as [Ha | Ha]; [| congruence];
        rewrite Hb, Ha
    end.
    reflexivity.
Qed.

Lemma renounced_owner_rules_are_silent_witness :
  ownershipRenounced honestToken = true
  /\ generateRedFlags (nowAtAgeRule dayOne)
       {| verified := true; isProxy := true; hasHoneypot := false;
          hasMintFunction := true; hasPauseFunction := true;
          hasBlacklist := true; hasWhitelist := true; buyTax := 0;
          sellTax := 0; ownershipRenounced := true; maxWalletLimit := None;
          maxTxLimit := None; lpLocked := true; lpLockDuration := None;
          creatorAddress := "0xc0ffee"; creationTimestamp := 1700000000 |}
     = generateRedFlags (nowAtAgeRule dayOne) honestToken.
Proof.
  split; [reflexivity |].
  apply (proj2 (renounced_owner_rules_are_silent (nowAtAgeRule dayOne)
                  honestToken eq_refl) true true true true true).
Defined.

(** *** What [analyzeContract] always returns *)

Lemma analyzeContract_unverified (D : SourceDetectors)
    (sourceInfo : option SourceInfo) (creation : option CreationInfo) :
  cannotAnalyze sourceInfo = true ->
  analyzeContract D sourceInfo creation = initialAnalysis None creation.
Proof.
  intros Hno. unfold analyzeContract.
  destruct sourceInfo as [info |]; [| reflexivity].
  simpl in Hno. rewrite Hno. unfold initialAnalysis.
  destruct (isVerified info); [discriminate | reflexivity].
Qed.

(** X3.  Whatever the source and the detectors, the analysis returned by
    [analyzeContract] reports unlocked liquidity and no wallet or transaction
    limit, is verified exactly when the source is present and marked
    verified, and carries the creation time of the creation record (0 without
    one) and its creator ("Unknown" without one, or when it is empty). *)
Theorem analyzeContract_invariants (D : SourceDetectors)
    (sourceInfo : option SourceInfo) (creation : option CreationInfo) :
  let analysis := analyzeContract D sourceInfo creation in
  lpLocked analysis = false
  /\ lpLockDuration analysis = None
  /\ maxWalletLimit analysis = None /\ maxTxLimit analysis = None
  /\ verified analysis = negb (cannotAnalyze sourceInfo)
  /\ creationTimestamp analysis
     = match creation with Some c => timestamp c | None => 0 end
  /\ creatorAddress analysis
     = match creation with
       | Some c => if truthy (creator c) then creator c else "Unknown"
       | None => "Unknown"
       end
  /\ (creatorAddress analysis <> EmptyString).
Proof.
  unfold analyzeContract.
  destruct sourceInfo as [info |]; simpl.
  - destruct (isVerified info) eqn:Hv; simpl; rewrite ?Hv;
      repeat split; try reflexivity;
      destruct creation as [c |]; simpl; try discriminate;
      try (destruct (creator c); simpl; discriminate).
  - repeat split; try reflexivity.
    destruct creation as [c |]; simpl; try discriminate.
    destruct (creator c); simpl; discriminate.
Qed.

(** *** [quickSafetyCheck] *)

Lemma count_fired (s : Severity) (cond : bool) (flag : RedFlag)
    (rest : list RedFlag) :
  List.length (filter (fun f => Severity_eqb (severity f) s)
                 (fired cond flag ++ rest))
  = (Nat.b2n (cond && Severity_eqb (severity flag) s)
     + List.length (filter (fun f => Severity_eqb (severity f) s) rest))%nat.
Proof.
  destruct cond; simpl; [| reflexivity].
  destruct (Severity_eqb (severity flag) s); reflexivity.
Qed.

Lemma generateRedFlags_counts (now : Z) (a : ContractAnalysis) :
  List.length (filter (fun f => Severity_eqb (severity f) CRITICAL)
                 (generateRedFlags now a))
  = (Nat.b2n (negb (verified a)) + Nat.b2n (hasHoneypot a)
     + Nat.b2n (ownerCanUpgradeMint a))%nat
  /\ List.length (filter (fun f => Severity_eqb (severity f) HIGH)
                    (generateRedFlags now a))
     = (Nat.b2n (ownerCanMint a) + Nat.b2n (excessiveTax a)
        + Nat.b2n (ageRuleFires now a))%nat.
Proof.
  rewrite generateRedFlags_rules.
  rewrite <- (app_nil_r (fired (ageRuleFires now a) newTokenLiquidityFlag)).
  rewrite !count_fired. simpl.
  rewrite !andb_true_r, !andb_false_r. simpl. split; lia.
Qed.

(** X4.  [quickSafetyCheck] reports a contract as safe exactly when its
    analysis is verified, shows no honeypot, no mint function under an active
    owner and no tax above 10, and the contract is not a young one with
    unlocked liquidity; a blacklist or a pause function alone, or a proxy,
    does not make a contract unsafe.  Its two counters count the rules that
    fired, and it issues one warning per flag. *)
Theorem quickSafetyCheck_isSafe (D : SourceDetectors) (now : Z)
    (sourceInfo : option SourceInfo) (creation : option CreationInfo) :
  let analysis := analyzeContract D sourceInfo creation in
  let check := quickSafetyCheck D now sourceInfo creation in
  isSafe check
  = verified analysis && negb (hasHoneypot analysis)
    && negb (ownerCanMint analysis) && negb (excessiveTax analysis)
    && negb (ageRuleFires now analysis)
  /\ criticalIssues check
     = bonus (negb (verified analysis)) 1 + bonus (hasHoneypot analysis) 1
       + bonus (ownerCanUpgradeMint analysis) 1
  /\ highIssues check
     = bonus (ownerCanMint analysis) 1 + bonus (excessiveTax analysis) 1
       + bonus (ageRuleFires now analysis) 1
  /\ List.length (safetyWarnings check)
     = List.length (generateRedFlags now analysis).
Proof.
  intros analysis check. subst check. unfold quickSafetyCheck.
  fold analysis. cbn [isSafe criticalIssues highIssues safetyWarnings].
  destruct (generateRedFlags_counts now analysis) as [-> ->].
  rewrite length_map.
  unfold ownerCanUpgradeMint, ownerCanMint, bonus.
  destruct (verified analysis), (hasHoneypot analysis), (isProxy analysis),
    (hasMintFunction analysis), (ownershipRenounced analysis),
    (excessiveTax analysis), (ageRuleFires now analysis);
    repeat split; reflexivity.
Qed.

(** X5.  A contract whose source is absent or unverified is never reported
    safe: [quickSafetyCheck] counts one critical issue and warns first that
    the source is not verified.  Nor is any contract less than seven days
    old, whatever its source says, because [analyzeContract] never reports
    locked liquidity. *)
Theorem quickSafetyCheck_never_safe (D : SourceDetectors) (now : Z)
    (sourceInfo : option SourceInfo) (creation : option CreationInfo) :
  (cannotAnalyze sourceInfo = true ->
   isSafe (quickSafetyCheck D now sourceInfo creation) = false
   /\ criticalIssues (quickSafetyCheck D now sourceInfo creation) = 1
   /\ hd_error (safetyWarnings (quickSafetyCheck D now sourceInfo creation))
      = Some "Contract source code is not verified")
  /\ (forall c,
        creation = Some c -> 0 < timestamp c ->
        now - timestamp c * 1000 < sevenDaysMs ->
        isSafe (quickSafetyCheck D now sourceInfo creation) = false
        /\ 1 <= highIssues (quickSafetyCheck D now sourceInfo creation)).
Proof.
  split.
  - intros Hno.
    destruct (quickSafetyCheck_isSafe D now sourceInfo creation)
      as (Hs & Hc & _ & _).
    rewrite Hs, Hc. unfold quickSafetyCheck.
    rewrite (analyzeContract_unverified D sourceInfo creation Hno).
    split; [reflexivity |]. split; [reflexivity |].
    cbn [safetyWarnings]. rewrite generateRedFlags_rules. reflexivity.
  - intros c -> Hpos Hyoung.
    destruct (quickSafetyCheck_isSafe D now sourceInfo (Some c))
      as (Hs & _ & Hh & _).
    destruct (analyzeContract_invariants D sourceInfo (Some c))
      as (Hl & _ & _ & _ & _ & Ht & _).
    assert (ageRuleFires now (analyzeContract D sourceInfo (Some c)) = true)
      as Hage.
    { unfold ageRuleFires. rewrite Hl, Ht. simpl.
      apply andb_true_iff. split; [now apply Z.ltb_lt | now apply Z.ltb_lt]. }
    rewrite Hs, Hh, Hage. rewrite andb_false_r. split; [reflexivity |].
    unfold bonus.
    destruct (ownerCanMint _), (excessiveTax _); simpl; lia.
Qed.

Lemma quickSafetyCheck_never_safe_witness :
  cannotAnalyze None = true
  /\ isSafe (quickSafetyCheck alarmDetectors 1700086400000 None None) = false
  /\ isSafe (quickSafetyCheck quietDetectors 1700086400000
               (Some (verifiedSource "contract Token {}"))
               (Some (createdAt 1700000000))) = false.
Proof.
  split; [reflexivity |]. split.
  - apply (proj1 (quickSafetyCheck_never_safe alarmDetectors 1700086400000
                    None None)).
    reflexivity.
  - apply (proj2 (quickSafetyCheck_never_safe quietDetectors 1700086400000
                    (Some (verifiedSource "contract Token {}"))
                    (Some (createdAt 1700000000)))
             (createdAt 1700000000) eq_refl); reflexivity.
Defined.

(** ** The rules of the three optional checks *)

Definition anonymousTeamFlag : RedFlag :=
  {| severity := MEDIUM; category := "TEAM";
     description := "Anonymous team";
     evidence := Some "No verified team member identities" |}.

Definition scamHistoryFlag : RedFlag :=
  {| severity := CRITICAL; category := "TEAM";
     description := "Team has history of scam projects";
     evidence := Some "Team members involved in previous rug pulls or scams" |}.

Definition noTeamInfoFlag : RedFlag :=
  {| severity := HIGH; category := "TEAM";
     description := "No team information available";
     evidence := Some "Cannot verify team members" |}.

(** [team.members && team.members.length === 0] *)
Definition emptyMemberList (team : TeamAnalysis) : bool :=
  match members team with
  | Some [] => true
  | _ => false
  end.

Definition fakeFollowersFlag : RedFlag :=
  {| severity := MEDIUM; category := "COMMUNITY";
     description := "Low engagement relative to follower count";
     evidence := Some "Possible fake/bought followers" |}.

Definition fakeFollowers (community : CommunityAnalysis) : bool :=
  (1000 <? twitterFollowers community)
  && PrimFloat.ltb (twitterEngagement community) 0.5.

Definition fewHolders (tokenomics : TokenomicsAnalysis) : bool :=
  holderCount tokenomics <? 100.

Definition concentrated (tokenomics : TokenomicsAnalysis) : bool :=
  PrimFloat.ltb 50 (top10Percentage tokenomics).

Definition hasWhale (tokenomics : TokenomicsAnalysis) : bool :=
  match topHolders tokenomics with
  | largestHolder :: _ => PrimFloat.ltb 20 (percentage largestHolder)
  | [] => false
  end.

Section OptionalChecks.

Context {builtins : NumberBuiltins}.

Definition botFlag (community : CommunityAnalysis) : RedFlag :=
  {| severity := HIGH; category := "COMMUNITY";
     description := "High bot activity detected";
     evidence := Some (Number_toString (botActivity community)
                       ++ "% estimated bot activity")%string |}.

Definition sentimentFlag (community : CommunityAnalysis) : RedFlag :=
  {| severity := MEDIUM; category := "COMMUNITY";
     description := "Negative community sentiment";
     evidence := Some ("Sentiment score: "
                       ++ toFixed2 (sentimentScore community))%string |}.

Definition concentrationFlag (tokenomics : TokenomicsAnalysis) : RedFlag :=
  {| severity := HIGH; category := "TOKENOMICS";
     description := "High concentration in top 10 holders";
     evidence := Some ("Top 10 holders own "
                       ++ toFixed2 (top10Percentage tokenomics)
                       ++ "% of supply")%string |}.

Definition whaleFlag (largest : float) : RedFlag :=
  {| severity := HIGH; category := "TOKENOMICS";
     description := "Single address holds too much supply";
     evidence := Some ("Largest holder owns " ++ toFixed2 largest
                       ++ "% of supply")%string |}.

Definition fewHoldersFlag (tokenomics : TokenomicsAnalysis) : RedFlag :=
  {| severity := MEDIUM; category := "TOKENOMICS";
     description := "Very few token holders";
     evidence := Some ("Only " ++ Z_toString (holderCount tokenomics)
                       ++ " holders")%string |}.

Definition lowLiquidityFlag (liquidityRatio : float) : RedFlag :=
  {| severity := HIGH; category := "LIQUIDITY";
     description := "Very low liquidity relative to market cap";
     evidence := Some ("Liquidity is only "
                       ++ toFixed2 (PrimFloat.mul liquidityRatio 100)
                       ++ "% of market cap")%string |}.

(** [parseFloat(tokenomics.lpTokens) / tokenomics.marketCap], where the code
    computes it. *)
Definition liquidityRatioOf (tokenomics : TokenomicsAnalysis) (lp : string)
    : float :=
  PrimFloat.div (parseFloat lp) (marketCap tokenomics).

Definition lowLiquidity (tokenomics : TokenomicsAnalysis) : bool :=
  match lpTokens tokenomics with
  | Some lp =>
      truthy lp && PrimFloat.ltb 0 (marketCap tokenomics)
      && PrimFloat.ltb (liquidityRatioOf tokenomics lp) 0.05
  | None => false
  end.

Lemma checkTeamRedFlags_rules (team : TeamAnalysis) :
  checkTeamRedFlags team
  = fired (negb (isDoxxed team)) anonymousTeamFlag
    ++ fired (scamHistory team) scamHistoryFlag
    ++ fired (emptyMemberList team) noTeamInfoFlag.
Proof.
  unfold checkTeamRedFlags, emptyMemberList, fired, pushIf.
  destruct (isDoxxed team), (scamHistory team),
    (members team) as [[| m l] |]; reflexivity.
Qed.

Lemma checkCommunityRedFlags_rules (c : CommunityAnalysis) :
  checkCommunityRedFlags c
  = fired (PrimFloat.ltb 50 (botActivity c)) (botFlag c)
    ++ fired (fakeFollowers c) fakeFollowersFlag
    ++ fired (PrimFloat.ltb (sentimentScore c) (-0.5)) (sentimentFlag c).
Proof.
  unfold checkCommunityRedFlags, fakeFollowers, fired, pushIf.
  destruct (PrimFloat.ltb 50 (botActivity c)),
    ((1000 <? twitterFollowers c)
     && PrimFloat.ltb (twitterEngagement c) 0.5),
    (PrimFloat.ltb (sentimentScore c) (-0.5)); reflexivity.
Qed.

Lemma checkTokenomicsRedFlags_rules (t : TokenomicsAnalysis) :
  exists whale lowLiq,
    checkTokenomicsRedFlags t
    = fired (concentrated t) (concentrationFlag t)
      ++ fired (hasWhale t) (whaleFlag whale)
      ++ fired (fewHolders t) (fewHoldersFlag t)
      ++ fired (lowLiquidity t) (lowLiquidityFlag lowLiq).
Proof.
  unfold checkTokenomicsRedFlags, concentrated, hasWhale, fewHolders,
    lowLiquidity, liquidityRatioOf, fired, pushIf.
  exists (match topHolders t with h :: _ => percentage h | [] => 0%float end).
  exists (match lpTokens t with
          | Some lp => PrimFloat.div (parseFloat lp) (marketCap t)
          | None => 0%float
          end).
  cbv zeta.
  destruct (PrimFloat.ltb 50 (top10Percentage t)),
    (topHolders t) as [| h rest], (holderCount t <? 100),
    (lpTokens t) as [lp |];
    try destruct (PrimFloat.ltb 20 (percentage h));
    try destruct (truthy lp && PrimFloat.ltb 0 (marketCap t));
    try destruct (PrimFloat.ltb
                    (PrimFloat.div (parseFloat lp) (marketCap t)) 0.05);
    reflexivity.
Qed.

(** *** Where CRITICAL flags come from *)

Definition isCritical (f : RedFlag) : bool := Severity_eqb (severity f) CRITICAL.

Lemma existsb_fired (p : RedFlag -> bool) (cond : bool) (flag : RedFlag) :
  existsb p (fired cond flag) = cond && p flag.
Proof. destruct cond; simpl; [now rewrite orb_false_r | reflexivity]. Qed.

Definition teamHasScamHistory (team : option TeamAnalysis) : bool :=
  match team with
  | Some t => scamHistory t
  | None => false
  end.

Lemma collectRedFlags_critical (clock : Clock) (ca : ContractAnalysis)
    (tok : option TokenomicsAnalysis) (team : option TeamAnalysis)
    (comm : option CommunityAnalysis) :
  existsb isCritical (collectRedFlags clock ca tok team comm)
  = negb (verified ca) || hasHoneypot ca || ownerCanUpgradeMint ca
    || teamHasScamHistory team.
Proof.
  unfold collectRedFlags. cbv zeta. rewrite app_nil_l.
  assert (existsb isCritical (generateRedFlags (nowAtAgeRule clock) ca)
          = negb (verified ca) || hasHoneypot ca || ownerCanUpgradeMint ca)
    as Hc.
  { rewrite generateRedFlags_rules, !existsb_app, !existsb_fired.
    unfold isCritical. simpl. rewrite !andb_true_r, !andb_false_r.
    rewrite !orb_false_r. now rewrite !orb_assoc. }
  assert (forall t, existsb isCritical (checkTokenomicsRedFlags t) = false)
    as Ht.
  { intros t. destruct (checkTokenomicsRedFlags_rules t) as [w [l ->]].
    rewrite !existsb_app, !existsb_fired. unfold isCritical. simpl.
    now rewrite !andb_false_r. }
  assert (forall t, existsb isCritical (checkTeamRedFlags t) = scamHistory t)
    as Hteam.
  { intros t. rewrite checkTeamRedFlags_rules, !existsb_app, !existsb_fired.
    unfold isCritical. simpl.
    now rewrite !andb_false_r, andb_true_r, orb_false_r. }
  assert (forall c, existsb isCritical (checkCommunityRedFlags c) = false)
    as Hcomm.
  { intros c. rewrite checkCommunityRedFlags_rules, !existsb_app,
      !existsb_fired.
    unfold isCritical. simpl. now rewrite !andb_false_r. }
  destruct tok as [t |], team as [tm |], comm as [c |];
    rewrite ?existsb_app, ?Hc, ?Ht, ?Hteam, ?Hcomm; simpl;
    rewrite ?orb_false_r; reflexivity.
Qed.

Lemma determineRecommendation_critical (overallScore : Z)
    (flags : list RedFlag) :
  existsb isCritical flags = true ->
  determineRecommendation overallScore flags = AVOID.
Proof.
  intros H. unfold determineRecommendation.
  change (fun f => Severity_eqb (severity f) CRITICAL) with isCritical.
  now rewrite H.
Qed.

Lemma determineRecommendation_avoid_iff (overallScore : Z)
    (flags : list RedFlag) :
  determineRecommendation overallScore flags = AVOID
  <-> existsb isCritical flags = true \/ overallScore < 30.
Proof.
  unfold determineRecommendation.
  change (fun f => Severity_eqb (severity f) CRITICAL) with isCritical.
  destruct (existsb isCritical flags); simpl.
  - split; [now left | reflexivity].
  - destruct (Z.ltb_spec overallScore 30) as [Hlt | Hge].
    + split; [now right | reflexivity].
    + split.
      * destruct (overallScore <? 50), (overallScore <? 70),
          (overallScore <? 85); discriminate.
      * intros [H | H]; [discriminate | lia].
Qed.

(** X6.  The record returned by [detectScam] recommends AVOID exactly when
    the contract is unverified, or a honeypot, or an upgradeable contract
    with a mint function and an active owner, or the team has a scam history,
    or a matched registry pattern is CRITICAL, or the overall score is below
    30.  No tokenomics or community input raises a CRITICAL flag. *)
Theorem detectScam_avoid_iff (env : Env) (clock : Clock)
    (pd : ProjectData) (ca : ContractAnalysis)
    (tok : option TokenomicsAnalysis) (team : option TeamAnalysis)
    (comm : option CommunityAnalysis) (r : RiskScore) :
  detectScam env clock pd ca tok team comm = Returned r ->
  exists patternRedFlags,
    matchScamPatterns env pd ca = Returned patternRedFlags
    /\ (recommendation r = AVOID
        <-> verified ca = false \/ hasHoneypot ca = true
            \/ ownerCanUpgradeMint ca = true
            \/ teamHasScamHistory team = true
            \/ existsb isCritical patternRedFlags = true
            \/ overall r < 30).
Proof.
  intros H. apply detectScam_returned in H as [pflags [Hm ->]].
  exists pflags. split; [exact Hm |].
  unfold assessment. cbn [recommendation overall].
  rewrite determineRecommendation_avoid_iff, existsb_app,
    collectRedFlags_critical.
  rewrite !orb_true_iff, negb_true_iff. tauto.
Qed.

End OptionalChecks.

Lemma detectScam_avoid_iff_witness :
  exists r,
    @detectScam standInBuiltins emptyRegistry dayOne exampleProject honestToken
      (Some smallTokenomics) (Some scamTeam) (Some idleCommunity) = Returned r
    /\ recommendation r = AVOID /\ 30 <= overall r.
Proof.
  eexists. split; [vm_compute; reflexivity |]. split.
  - destruct (@detectScam_avoid_iff standInBuiltins emptyRegistry dayOne
                exampleProject honestToken (Some smallTokenomics)
                (Some scamTeam) (Some idleCommunity) _ eq_refl)
      as [pflags [_ Hiff]].
    apply Hiff. right. right. right. left. reflexivity.
  - vm_compute. discriminate.
Defined.

(** ** The order of the flags does not matter to the scores *)

Lemma totalPenalty_perm (penalty : RedFlag -> Z) (cat : string)
    (l l' : list RedFlag) :
  Permutation l l' -> totalPenalty penalty cat l = totalPenalty penalty cat l'.
Proof.
  unfold totalPenalty. induction 1 as [| x l l' _ IH | x y l | l l' l'' _ IH1 _ IH2].
  - reflexivity.
  - simpl. destruct (hasCategory cat x); simpl; lia.
  - simpl. destruct (hasCategory cat x), (hasCategory cat y); simpl; lia.
  - lia.
Qed.

Lemma existsb_perm {A : Type} (p : A -> bool) (l l' : list A) :
  Permutation l l' -> existsb p l = existsb p l'.
Proof.
  intros H. destruct (existsb p l) eqn:E1, (existsb p l') eqn:E2;
    try reflexivity.
  - apply existsb_exists in E1 as [x [Hin Hp]].
    assert (existsb p l' = true) as E
        by (apply existsb_exists; exists x; split;
            [eapply Permutation_in; eassumption | assumption]).
    congruence.
  - apply existsb_exists in E2 as [x [Hin Hp]].
    assert (existsb p l = true) as E
        by (apply existsb_exists; exists x; split;
            [eapply Permutation_in; [apply Permutation_sym |]; eassumption
            | assumption]).
    congruence.
Qed.

(** X7.  The five sub-scores and the recommendation depend on which flags
    were collected, not on their order: two lists of flags that are
    permutations of each other give the same scores.  The array that
    [generateWarnings] leaves behind is a permutation of the one it was
    given, so sorting the flags for the warnings changes no score. *)
Theorem scores_ignore_flag_order (flags flags' : list RedFlag)
    (ca : ContractAnalysis) (tok : TokenomicsAnalysis) (team : TeamAnalysis)
    (comm : CommunityAnalysis) (overallScore : Z) :
  Permutation flags flags' ->
  calculateContractSafety ca flags = calculateContractSafety ca flags'
  /\ calculateTokenomicsScore tok flags = calculateTokenomicsScore tok flags'
  /\ calculateTeamScore team flags = calculateTeamScore team flags'
  /\ calculateCommunityScore comm flags = calculateCommunityScore comm flags'
  /\ calculateLiquidityRisk ca flags = calculateLiquidityRisk ca flags'
  /\ determineRecommendation overallScore flags
     = determineRecommendation overallScore flags'
  /\ Permutation (snd (generateWarnings flags)) flags.
Proof.
  intros Hp.
  rewrite !calculateContractSafety_eq, !calculateTokenomicsScore_eq,
    !calculateTeamScore_eq, !calculateCommunityScore_eq,
    !calculateLiquidityRisk_eq.
  rewrite (totalPenalty_perm _ "CONTRACT" _ _ Hp),
    (totalPenalty_perm _ "TOKENOMICS" _ _ Hp),
    (totalPenalty_perm _ "TEAM" _ _ Hp),
    (totalPenalty_perm _ "COMMUNITY" _ _ Hp),
    (totalPenalty_perm _ "LIQUIDITY" _ _ Hp).
  repeat split.
  - unfold determineRecommendation.
    now rewrite (existsb_perm _ _ _ Hp).
  - unfold generateWarnings. cbn [snd]. apply Array_sort_perm.
Qed.

Lemma scores_ignore_flag_order_witness :
  Permutation [mintFlag; scamHistoryFlag] [scamHistoryFlag; mintFlag]
  /\ calculateContractSafety mintableToken [mintFlag; scamHistoryFlag]
     = calculateContractSafety mintableToken [scamHistoryFlag; mintFlag].
Proof.
  split; [apply perm_swap |].
  apply (scores_ignore_flag_order [mintFlag; scamHistoryFlag]
           [scamHistoryFlag; mintFlag] mintableToken smallTokenomics scamTeam
           idleCommunity 70 (perm_swap _ _ _)).
Defined.

(** ** Without the optional inputs *)

Definition cappedOverall (cs lq : Z) : bool :=
  let o := Math_round (weightedSum cs 50 50 50 lq) in
  (30 <=? o) && (o <=? 68).

Lemma overall_without_options :
  forallb (fun cs =>
             forallb (fun lq => (80 <? lq) || cappedOverall cs lq) (grid 10))
          (grid 5) = true.
Proof. vm_compute. reflexivity. Qed.

(** X8.  With tokenomics, team and community all omitted, the overall score
    returned by [detectScam] lies between 30 and 68 whatever the contract and
    the registry: the recommendation is never LOW_RISK nor SAFE, and AVOID is
    reached through a CRITICAL flag only. *)
Theorem detectScam_without_options (B : NumberBuiltins) (env : Env)
    (clock : Clock) (pd : ProjectData) (ca : ContractAnalysis)
    (r : RiskScore) :
  detectScam env clock pd ca None None None = Returned r ->
  30 <= overall r <= 68
  /\ tokenomics r = 50 /\ teamCredibility r = 50 /\ communityHealth r = 50
  /\ liquidityRisk r <= 80
  /\ recommendation r <> LOW_RISK /\ recommendation r <> SAFE
  /\ (recommendation r = AVOID -> hasCriticalFlag (redFlags r)).
Proof.
  intros H. apply detectScam_returned in H as [pflags [_ ->]].
  set (flags := collectRedFlags clock ca None None None ++ pflags).
  assert (liquidityRisk (assessment clock ca None None None flags) <= 80)
    as Hlq.
  { cbn [assessment liquidityRisk]. rewrite calculateLiquidityRisk_eq.
    pose proof (totalPenalty_nonneg 30 20 10 0 "LIQUIDITY" flags).
    unfold clampScore, bonus. destruct (lpLocked ca); lia. }
  assert (30 <= overall (assessment clock ca None None None flags) <= 68)
    as Ho.
  { cbn [assessment overall liquidityRisk] in *.
    pose proof overall_without_options as Hall.
    rewrite forallb_forall in Hall.
    specialize (Hall _ (calculateContractSafety_grid ca flags)).
    rewrite forallb_forall in Hall.
    specialize (Hall _ (calculateLiquidityRisk_grid ca flags)).
    apply orb_true_iff in Hall as [Hbig | Hcap].
    - apply Z.ltb_lt in Hbig. lia.
    - unfold cappedOverall in Hcap. apply andb_true_iff in Hcap as [H1 H2].
      apply Z.leb_le in H1. apply Z.leb_le in H2. lia. }
  split; [exact Ho |].
  split; [reflexivity |]. split; [reflexivity |]. split; [reflexivity |].
  split; [exact Hlq |].
  cbn [assessment recommendation redFlags overall] in *.
  unfold determineRecommendation.
  pose proof (hasCritical_existsb flags) as Hc.
  destruct (existsb (fun f => Severity_eqb (severity f) CRITICAL) flags).
  - simpl. repeat split; try discriminate.
    intros _. destruct Hc as [Hc _]. specialize (Hc eq_refl).
    destruct Hc as [f [Hin Hs]]. exists f. split; [| exact Hs].
    now apply Array_sort_In.
  - simpl.
    destruct (Z.ltb_spec (Math_round
      (weightedSum (calculateContractSafety ca flags) 50 50 50
         (calculateLiquidityRisk ca flags))) 30); [lia |].
    destruct (Z.ltb_spec (Math_round
      (weightedSum (calculateContractSafety ca flags) 50 50 50
         (calculateLiquidityRisk ca flags))) 50);
      [repeat split; discriminate |].
    destruct (Z.ltb_spec (Math_round
      (weightedSum (calculateContractSafety ca flags) 50 50 50
         (calculateLiquidityRisk ca flags))) 70);
      [repeat split; discriminate | lia].
Qed.

Lemma detectScam_without_options_witness :
  exists r,
    @detectScam standInBuiltins (registryOf hostilePatterns) dayOne
      exampleProject mintableProxy None None None = Returned r
    /\ 30 <= overall r <= 68 /\ recommendation r <> SAFE.
Proof.
  eexists. split; [vm_compute; reflexivity |].
  destruct (detectScam_without_options standInBuiltins
              (registryOf hostilePatterns) dayOne exampleProject mintableProxy
              _ eq_refl) as (Ho & _ & _ & _ & _ & _ & Hs & _).
  split; [exact Ho | exact Hs].
Defined.

(** ** The sub-scores when no registry pattern matches *)

Lemma totalPenalty_fired (penalty : RedFlag -> Z) (cat : string)
    (cond : bool) (flag : RedFlag) (rest : list RedFlag) :
  totalPenalty penalty cat (fired cond flag ++ rest)
  = bonus (cond && hasCategory cat flag) (penalty flag)
    + totalPenalty penalty cat rest.
Proof.
  rewrite totalPenalty_app. f_equal.
  unfold totalPenalty, fired, bonus.
  destruct cond; simpl; [| reflexivity].
  destruct (hasCategory cat flag); simpl; lia.
Qed.

Lemma totalPenalty_nil (penalty : RedFlag -> Z) (cat : string) :
  totalPenalty penalty cat [] = 0.
Proof. reflexivity. Qed.

Definition growing (community : CommunityAnalysis) : bool :=
  PrimFloat.ltb 0 (holderGrowthRate community).

Definition positiveSentiment (community : CommunityAnalysis) : bool :=
  PrimFloat.ltb 0.5 (sentimentScore community).

Definition engaged (community : CommunityAnalysis) : bool :=
  PrimFloat.ltb 2 (twitterEngagement community).

Definition manyBots (community : CommunityAnalysis) : bool :=
  PrimFloat.ltb 50 (botActivity community).

Definition negativeSentiment (community : CommunityAnalysis) : bool :=
  PrimFloat.ltb (sentimentScore community) (-0.5).

Section ClosedForms.

Context {builtins : NumberBuiltins}.

Definition lowLiquidityOf (tok : option TokenomicsAnalysis) : bool :=
  match tok with
  | Some t => lowLiquidity t
  | None => false
  end.

Lemma penalties_of_contract (now : Z) (ca : ContractAnalysis) (cat : string)
    (c h m l : Z) :
  totalPenalty (severityPenalty c h m l) cat (generateRedFlags now ca)
  = bonus (negb (verified ca) && (cat =? "CONTRACT")%string) c
    + bonus (hasHoneypot ca && (cat =? "CONTRACT")%string) c
    + bonus (ownerCanUpgradeMint ca && (cat =? "CONTRACT")%string) c
    + bonus (ownerCanMint ca && (cat =? "CONTRACT")%string) h
    + bonus (excessiveTax ca && (cat =? "CONTRACT")%string) h
    + bonus (hasBlacklist ca && negb (ownershipRenounced ca)
             && (cat =? "CONTRACT")%string) m
    + bonus (hasPauseFunction ca && negb (ownershipRenounced ca)
             && (cat =? "CONTRACT")%string) m
    + bonus (ageRuleFires now ca && (cat =? "LIQUIDITY")%string) h.
Proof.
  rewrite generateRedFlags_rules.
  rewrite <- (app_nil_r (fired (ageRuleFires now ca) newTokenLiquidityFlag)).
  rewrite !totalPenalty_fired, totalPenalty_nil.
  unfold hasCategory, severityPenalty.
  cbn [category severity unverifiedFlag honeypotFlag upgradeableMintFlag
         mintFlag taxFlag blacklistFlag pauseFlag newTokenLiquidityFlag].
  rewrite (String.eqb_sym "CONTRACT" cat), (String.eqb_sym "LIQUIDITY" cat).
  lia.
Qed.

Lemma penalties_of_tokenomics (t : TokenomicsAnalysis) (cat : string)
    (c h m l : Z) :
  totalPenalty (severityPenalty c h m l) cat (checkTokenomicsRedFlags t)
  = bonus (concentrated t && (cat =? "TOKENOMICS")%string) h
    + bonus (hasWhale t && (cat =? "TOKENOMICS")%string) h
    + bonus (fewHolders t && (cat =? "TOKENOMICS")%string) m
    + bonus (lowLiquidity t && (cat =? "LIQUIDITY")%string) h.
Proof.
  destruct (checkTokenomicsRedFlags_rules t) as [w [lq ->]].
  rewrite <- (app_nil_r (fired (lowLiquidity t) (lowLiquidityFlag lq))).
  rewrite !totalPenalty_fired, totalPenalty_nil.
  unfold hasCategory, severityPenalty. cbn [category severity concentrationFlag
    whaleFlag fewHoldersFlag lowLiquidityFlag].
  rewrite (String.eqb_sym "TOKENOMICS" cat), (String.eqb_sym "LIQUIDITY" cat).
  lia.
Qed.

Lemma penalties_of_team (t : TeamAnalysis) (cat : string) (c h m l : Z) :
  totalPenalty (severityPenalty c h m l) cat (checkTeamRedFlags t)
  = bonus (negb (isDoxxed t) && (cat =? "TEAM")%string) m
    + bonus (scamHistory t && (cat =? "TEAM")%string) c
    + bonus (emptyMemberList t && (cat =? "TEAM")%string) h.
Proof.
  rewrite checkTeamRedFlags_rules.
  rewrite <- (app_nil_r (fired (emptyMemberList t) noTeamInfoFlag)).
  rewrite !totalPenalty_fired, totalPenalty_nil.
  unfold hasCategory, severityPenalty. cbn [category severity anonymousTeamFlag
    scamHistoryFlag noTeamInfoFlag].
  rewrite (String.eqb_sym "TEAM" cat). lia.
Qed.

Lemma penalties_of_community (cm : CommunityAnalysis) (cat : string)
    (c h m l : Z) :
  totalPenalty (severityPenalty c h m l) cat (checkCommunityRedFlags cm)
  = bonus (manyBots cm && (cat =? "COMMUNITY")%string) h
    + bonus (fakeFollowers cm && (cat =? "COMMUNITY")%string) m
    + bonus (negativeSentiment cm && (cat =? "COMMUNITY")%string) m.
Proof.
  rewrite checkCommunityRedFlags_rules.
  rewrite <- (app_nil_r (fired (PrimFloat.ltb (sentimentScore cm) (-0.5))
                           (sentimentFlag cm))).
  rewrite !totalPenalty_fired, totalPenalty_nil.
  unfold hasCategory, severityPenalty, manyBots, negativeSentiment.
  cbn [category severity botFlag fakeFollowersFlag sentimentFlag].
  rewrite (String.eqb_sym "COMMUNITY" cat). lia.
Qed.

Lemma penalties_collected (clock : Clock) (ca : ContractAnalysis)
    (tok : option TokenomicsAnalysis) (team : option TeamAnalysis)
    (comm : option CommunityAnalysis) (cat : string) (c h m l : Z) :
  totalPenalty (severityPenalty c h m l) cat
    (collectRedFlags clock ca tok team comm)
  = totalPenalty (severityPenalty c h m l) cat
      (generateRedFlags (nowAtAgeRule clock) ca)
    + match tok with
      | Some t => totalPenalty (severityPenalty c h m l) cat
                    (checkTokenomicsRedFlags t)
      | None => 0
      end
    + match team with
      | Some t => totalPenalty (severityPenalty c h m l) cat
                    (checkTeamRedFlags t)
      | None => 0
      end
    + match comm with
      | Some cm => totalPenalty (severityPenalty c h m l) cat
                     (checkCommunityRedFlags cm)
      | None => 0
      end.
Proof.
  unfold collectRedFlags. cbv zeta. rewrite app_nil_l.
  destruct tok, team, comm; rewrite ?totalPenalty_app; lia.
Qed.

Ltac evaluate_penalties :=
  rewrite ?app_nil_r, ?penalties_collected, ?penalties_of_contract,
    ?penalties_of_tokenomics, ?penalties_of_team, ?penalties_of_community;
  cbn [String.eqb Ascii.eqb Bool.eqb];
  rewrite ?andb_true_r, ?andb_false_r; unfold bonus.

(** X9.  When no registry pattern matches, each sub-score returned by
    [detectScam] is a fixed sum over the rules that fired: contract safety
    100, minus 30 for each of unverified source, honeypot and upgradeable
    mint, 20 for mint under an active owner and for excessive tax, 10 for
    blacklist and for pause under an active owner, plus 10 for each of
    verified, renounced and locked, clamped; tokenomics 100 minus 20 for
    concentration, 20 for a whale and 10 for few holders; team 50 plus 30 if
    doxxed, 10 for members, 10 for previous projects, minus 10 if anonymous,
    40 for a scam history and 20 for an empty member list, clamped; community
    50 plus 10 for each of growth, positive sentiment and engagement, minus 20
    for bots, 10 for fake followers and 10 for negative sentiment; liquidity
    50 plus 30 if locked, minus 20 for a young unlocked contract and 20 for
    low liquidity. *)
Theorem subscores_closed_form (env : Env) (clock : Clock) (pd : ProjectData)
    (ca : ContractAnalysis) (tok : option TokenomicsAnalysis)
    (team : option TeamAnalysis) (comm : option CommunityAnalysis)
    (r : RiskScore) :
  detectScam env clock pd ca tok team comm = Returned r ->
  matchScamPatterns env pd ca = Returned [] ->
  contractSafety r
  = clampScore
      (100 - bonus (negb (verified ca)) 30 - bonus (hasHoneypot ca) 30
       - bonus (ownerCanUpgradeMint ca) 30 - bonus (ownerCanMint ca) 20
       - bonus (excessiveTax ca) 20
       - bonus (hasBlacklist ca && negb (ownershipRenounced ca)) 10
       - bonus (hasPauseFunction ca && negb (ownershipRenounced ca)) 10
       + bonus (verified ca) 10 + bonus (ownershipRenounced ca) 10
       + bonus (lpLocked ca) 10)
  /\ tokenomics r
     = match tok with
       | Some t => 100 - bonus (concentrated t) 20 - bonus (hasWhale t) 20
                   - bonus (fewHolders t) 10
       | None => 50
       end
  /\ teamCredibility r
     = match team with
       | Some t =>
           clampScore
             (50 + bonus (isDoxxed t) 30 + bonus (nonEmpty (members t)) 10
              + bonus (nonEmpty (previousProjects t)) 10
              - bonus (negb (isDoxxed t)) 10 - bonus (scamHistory t) 40
              - bonus (emptyMemberList t) 20)
       | None => 50
       end
  /\ communityHealth r
     = match comm with
       | Some c => 50 + bonus (growing c) 10 + bonus (positiveSentiment c) 10
                   + bonus (engaged c) 10 - bonus (manyBots c) 20
                   - bonus (fakeFollowers c) 10
                   - bonus (negativeSentiment c) 10
       | None => 50
       end
  /\ liquidityRisk r
     = 50 + bonus (lpLocked ca) 30
       - bonus (ageRuleFires (nowAtAgeRule clock) ca) 20
       - bonus (lowLiquidityOf tok) 20.
Proof.
  intros H Hm. apply detectScam_returned in H as [pflags [Hm' ->]].
  rewrite Hm in Hm'. injection Hm' as <-.
  cbn [assessment contractSafety tokenomics teamCredibility communityHealth
         liquidityRisk].
  assert (ageRuleFires (nowAtAgeRule clock) ca = true -> lpLocked ca = false)
    as Hlock.
  { unfold ageRuleFires. destruct (lpLocked ca); [discriminate | trivial]. }
  unfold lowLiquidityOf, growing, positiveSentiment, engaged.
  destruct tok as [t |], team as [tm |], comm as [c |];
    rewrite ?calculateContractSafety_eq, ?calculateTokenomicsScore_eq,
      ?calculateTeamScore_eq, ?calculateCommunityScore_eq,
      ?calculateLiquidityRisk_eq;
    evaluate_penalties;
    (split; [f_equal; lia |]);
    (split; [try reflexivity; unfold clampScore;
             destruct (concentrated t), (hasWhale t), (fewHolders t);
             reflexivity |]);
    (split; [try reflexivity; f_equal; lia |]);
    (split; [try reflexivity; unfold clampScore;
             destruct (PrimFloat.ltb 0 (holderGrowthRate c)),
               (PrimFloat.ltb 0.5 (sentimentScore c)),
               (PrimFloat.ltb 2 (twitterEngagement c)), (manyBots c),
               (fakeFollowers c), (negativeSentiment c); reflexivity |]);
    unfold clampScore;
    destruct (ageRuleFires (nowAtAgeRule clock) ca), (lpLocked ca);
    try (specialize (Hlock eq_refl); discriminate);
    try destruct (lowLiquidity t); reflexivity.
Qed.

(** X10.  When no registry pattern matches, supplying the tokenomics never
    scores below the neutral 50 that omitting it gives; the community score
    lies between 10 and 80 and the liquidity score between 10 and 80, and the
    liquidity score is at most 50 for a contract whose liquidity is not
    locked. *)
Theorem subscore_floors (env : Env) (clock : Clock) (pd : ProjectData)
    (ca : ContractAnalysis) (tok : option TokenomicsAnalysis)
    (team : option TeamAnalysis) (comm : option CommunityAnalysis)
    (r : RiskScore) :
  detectScam env clock pd ca tok team comm = Returned r ->
  matchScamPatterns env pd ca = Returned [] ->
  50 <= tokenomics r
  /\ 10 <= communityHealth r <= 80
  /\ 10 <= liquidityRisk r <= 80
  /\ (lpLocked ca = false -> liquidityRisk r <= 50).
Proof.
  intros H Hm. apply detectScam_returned in H as [pflags [Hm' ->]].
  rewrite Hm in Hm'. injection Hm' as <-.
  cbn [assessment tokenomics communityHealth liquidityRisk].
  assert (ageRuleFires (nowAtAgeRule clock) ca = true -> lpLocked ca = false)
    as Hlock.
  { unfold ageRuleFires. destruct (lpLocked ca); [discriminate | trivial]. }
  destruct tok as [t |], team as [tm |], comm as [c |];
    rewrite ?calculateTokenomicsScore_eq, ?calculateCommunityScore_eq,
      ?calculateLiquidityRisk_eq;
    evaluate_penalties; unfold clampScore;
    (split; [try lia;
             destruct (concentrated t), (hasWhale t), (fewHolders t); lia |]);
    (split; [try lia;
             destruct (PrimFloat.ltb 0 (holderGrowthRate c)),
               (PrimFloat.ltb 0.5 (sentimentScore c)),
               (PrimFloat.ltb 2 (twitterEngagement c)), (manyBots c),
               (fakeFollowers c), (negativeSentiment c); lia |]);
    (split; [| intros Hl; rewrite Hl in *]);
    destruct (ageRuleFires (nowAtAgeRule clock) ca);
    try destruct (lpLocked ca);
    try (specialize (Hlock eq_refl); discriminate);
    try destruct (lowLiquidity t); lia.
Qed.

End ClosedForms.

Lemma subscores_closed_form_witness :
  matchScamPatterns emptyRegistry exampleProject mintableProxy = Returned []
  /\ exists r,
       @detectScam standInBuiltins emptyRegistry dayOne exampleProject
         mintableProxy (Some smallTokenomics) (Some scamTeam)
         (Some idleCommunity) = Returned r
       /\ contractSafety r = 60 /\ tokenomics r = 90
       /\ teamCredibility r = 60 /\ communityHealth r = 40
       /\ liquidityRisk r = 30.
Proof.
  split; [reflexivity |].
  eexists. split; [vm_compute; reflexivity |].
  destruct (@subscores_closed_form standInBuiltins emptyRegistry dayOne
              exampleProject mintableProxy (Some smallTokenomics)
              (Some scamTeam) (Some idleCommunity) _ eq_refl eq_refl)
    as (H1 & H2 & H3 & H4 & H5).
  split; [exact H1 |]. split; [exact H2 |]. split; [exact H3 |].
  split; [exact H4 | exact H5].
Defined.

Lemma subscore_floors_witness :
  matchScamPatterns emptyRegistry exampleProject mintableProxy = Returned []
  /\ exists r,
       @detectScam standInBuiltins emptyRegistry dayOne exampleProject
         mintableProxy (Some smallTokenomics) (Some scamTeam)
         (Some idleCommunity) = Returned r
       /\ 50 <= tokenomics r /\ liquidityRisk r <= 50.
Proof.
  split; [reflexivity |].
  eexists. split; [vm_compute; reflexivity |].
  destruct (@subscore_floors standInBuiltins emptyRegistry dayOne
              exampleProject mintableProxy (Some smallTokenomics)
              (Some scamTeam) (Some idleCommunity) _ eq_refl eq_refl)
    as (H1 & _ & _ & H4).
  split; [exact H1 | now apply H4].
Defined.

(** ** When [detectScam] fails *)

(** A column over whose value the loop of [checkPatternMatch] runs: an array
    or a string. *)
Definition iterable (row : ScamPatternRow) : bool :=
  match indicators row with
  | IndicatorArray _ | IndicatorText _ => true
  | NotIterable => false
  end.

Lemma matchRows_outcome (rows : list ScamPatternRow) (ca : ContractAnalysis)
    (acc : list RedFlag) :
  (forallb iterable rows = true ->
   exists flags, matchRows rows ca acc = Returned flags)
  /\ (forallb iterable rows = false ->
      matchRows rows ca acc = Thrown MalformedIndicators).
Proof.
  revert acc. induction rows as [| row rows IH]; intros acc.
  - split; [intros _; now exists acc | discriminate].
  - cbn [forallb matchRows]. unfold iterable at 1 3.
    destruct (indicators row) as [names | text |]; cbn [JSON_parse bind andb].
    + apply IH.
    + apply IH.
    + split; [discriminate | reflexivity].
Qed.

(** No character is one of the four names: a string matches nothing. *)
Lemma checkPatternMatch_characters (text : string) (ca : ContractAnalysis) :
  checkPatternMatch (charactersOf text) ca = [].
Proof.
  unfold checkPatternMatch, charactersOf.
  induction text as [| c text IH]; [reflexivity |].
  cbn [list_ascii_of_string map fold_left].
  assert (checkIndicator ca [] (String c EmptyString) = []) as ->; [| exact IH].
  unfold checkIndicator. cbn [String.eqb].
  repeat match goal with
         | |- context [Ascii.eqb c ?x] => destruct (Ascii.eqb c x)
         end; reflexivity.
Qed.

(** X11.  [detectScam] returns a record exactly when the registry query
    resolves and the [indicators] column of every row holds a value that the
    loop can iterate: an array, or a string.  One row whose column holds
    anything else makes the whole assessment fail, wherever the row stands
    and whatever the other rows match; a failed query fails it too.  A row
    whose column holds a string raises no flag: the loop runs over its
    characters, and none is a name the engine knows. *)
Theorem detectScam_returns_iff (B : NumberBuiltins) (env : Env) (clock : Clock)
    (pd : ProjectData) (ca : ContractAnalysis)
    (tok : option TokenomicsAnalysis) (team : option TeamAnalysis)
    (comm : option CommunityAnalysis) :
  ((exists r, detectScam env clock pd ca tok team comm = Returned r)
   <-> exists rows,
         DB_scam_patterns env = Some rows /\ forallb iterable rows = true)
  /\ (forall rows,
        DB_scam_patterns env = Some rows -> forallb iterable rows = false ->
        detectScam env clock pd ca tok team comm = Thrown MalformedIndicators)
  /\ (DB_scam_patterns env = None ->
      detectScam env clock pd ca tok team comm = Thrown RegistryUnavailable)
  /\ (forall row rows text flags,
        indicators row = IndicatorText text ->
        matchRows (row :: rows) ca flags = matchRows rows ca flags).
Proof.
  split; [| split; [| split]].
  - rewrite detectScam_eq. unfold matchScamPatterns.
    destruct (DB_scam_patterns env) as [rows |].
    + destruct (matchRows_outcome rows ca []) as [Hok Hbad].
      destruct (forallb iterable rows) eqn:E.
      * destruct (Hok eq_refl) as [flags ->]. simpl.
        split; [intros _; now exists rows | intros _; eexists; reflexivity].
      * rewrite (Hbad eq_refl). simpl.
        split; [intros [r Hr]; discriminate |].
        intros [rows' [Heq Hd]]. injection Heq as <-. congruence.
    + simpl. split; [intros [r Hr]; discriminate |].
      intros [rows [Heq _]]. discriminate.
  - intros rows Hrows Hbad. rewrite detectScam_eq. unfold matchScamPatterns.
    rewrite Hrows.
    now rewrite (proj2 (matchRows_outcome rows ca []) Hbad).
  - intros Hnone. rewrite detectScam_eq. unfold matchScamPatterns.
    now rewrite Hnone.
  - intros row rows text flags Htext. cbn [matchRows]. rewrite Htext.
    cbn [JSON_parse bind]. now rewrite checkPatternMatch_characters.
Qed.

(** A row whose column holds a number, and one whose column holds a
    string. *)
Definition undecodableRow : ScamPatternRow :=
  {| pattern_type := "CONTRACT";
     pattern_description := "row with a damaged indicators column";
     indicators := NotIterable;
     pattern_severity := LOW |}.

Definition textRow : ScamPatternRow :=
  {| pattern_type := "CONTRACT";
     pattern_description := "row with a string for its indicators";
     indicators := IndicatorText "is_proxy";
     pattern_severity := CRITICAL |}.

Lemma detectScam_returns_iff_witness :
  DB_scam_patterns
    {| DB_scam_patterns := Some [rowOf proxyPattern; undecodableRow] |}
  = Some [rowOf proxyPattern; undecodableRow]
  /\ forallb iterable [rowOf proxyPattern; undecodableRow] = false
  /\ @detectScam standInBuiltins
       {| DB_scam_patterns := Some [rowOf proxyPattern; undecodableRow] |}
       dayOne exampleProject honestToken None None None
     = Thrown MalformedIndicators
  /\ matchRows [textRow; rowOf proxyPattern] mintableProxy []
     = matchRows [rowOf proxyPattern] mintableProxy []
  /\ exists r,
       @detectScam standInBuiltins {| DB_scam_patterns := Some [textRow] |}
         dayOne exampleProject mintableProxy None None None = Returned r.
Proof.
  split; [reflexivity |]. split; [reflexivity |]. split; [| split].
  - apply (proj1 (proj2 (detectScam_returns_iff standInBuiltins
                           {| DB_scam_patterns :=
                                Some [rowOf proxyPattern; undecodableRow] |}
                           dayOne exampleProject honestToken None None None))
             [rowOf proxyPattern; undecodableRow]); reflexivity.
  - apply (proj2 (proj2 (proj2
             (detectScam_returns_iff standInBuiltins emptyRegistry dayOne
                exampleProject mintableProxy None None None)))
             textRow [rowOf proxyPattern] "is_proxy" []).
    reflexivity.
  - apply (proj2 (proj1 (detectScam_returns_iff standInBuiltins
                           {| DB_scam_patterns := Some [textRow] |}
                           dayOne exampleProject mintableProxy None None None))).
    exists [textRow]. split; reflexivity.
Defined.

(** ** The registry that the schema installs *)

(** The eight rows inserted by schema.sql, their [indicators] decoded. *)
Definition defaultScamPatterns : list ScamPattern :=
  [ {| patternType := "CONTRACT";
       patternDescription := "Honeypot - Can buy but cannot sell";
       indicatorNames := ["no_sell_function"; "transfer_restrictions";
                          "blacklist_on_sell"];
       patternSeverity := CRITICAL |};
    {| patternType := "CONTRACT";
       patternDescription := "Hidden mint function in proxy contract";
       indicatorNames := ["is_proxy"; "has_mint"; "ownership_not_renounced"];
       patternSeverity := CRITICAL |};
    {| patternType := "TOKENOMICS";
       patternDescription := "Extreme concentration in top holders";
       indicatorNames := ["top_10_holders > 50%"; "team_allocation > 30%"];
       patternSeverity := HIGH |};
    {| patternType := "TOKENOMICS";
       patternDescription := "Unlocked liquidity with high market cap";
       indicatorNames := ["lp_not_locked"; "market_cap > 1000000"];
       patternSeverity := HIGH |};
    {| patternType := "TEAM";
       patternDescription := "Anonymous team with no history";
       indicatorNames := ["team_anonymous"; "no_previous_projects";
                          "no_linkedin"];
       patternSeverity := MEDIUM |};
    {| patternType := "TEAM";
       patternDescription := "Fake team members using stock photos";
       indicatorNames := ["fake_profile_images"; "copied_bios"];
       patternSeverity := CRITICAL |};
    {| patternType := "SOCIAL";
       patternDescription := "Sudden follower spike indicating bought followers";
       indicatorNames := ["follower_spike > 1000%"; "low_engagement_rate"];
       patternSeverity := MEDIUM |};
    {| patternType := "BEHAVIOR";
       patternDescription := "Multiple wallets controlled by same entity (Sybil)";
       indicatorNames := ["similar_funding_source"; "coordinated_trading";
                          "same_gas_patterns"];
       patternSeverity := HIGH |} ].

Definition hiddenMintPattern : ScamPattern :=
  {| patternType := "CONTRACT";
     patternDescription := "Hidden mint function in proxy contract";
     indicatorNames := ["is_proxy"; "has_mint"; "ownership_not_renounced"];
     patternSeverity := CRITICAL |}.

Definition unlockedLiquidityPattern : ScamPattern :=
  {| patternType := "TOKENOMICS";
     patternDescription := "Unlocked liquidity with high market cap";
     indicatorNames := ["lp_not_locked"; "market_cap > 1000000"];
     patternSeverity := HIGH |}.

Definition hiddenMintFlag (ca : ContractAnalysis) : RedFlag :=
  {| severity := CRITICAL; category := "CONTRACT";
     description := "Hidden mint function in proxy contract";
     evidence := Some (join ", " (map indicatorLabel
                                    (matchedIndicators ca hiddenMintPattern))) |}.

Definition unlockedLiquidityFlag : RedFlag :=
  {| severity := HIGH; category := "TOKENOMICS";
     description := "Unlocked liquidity with high market cap";
     evidence := Some "LP not locked" |}.

Lemma defaultScamPatterns_flags (pd : ProjectData) (ca : ContractAnalysis) :
  matchScamPatterns (registryOf defaultScamPatterns) pd ca
  = Returned
      (fired (isProxy ca || hasMintFunction ca || negb (ownershipRenounced ca))
         (hiddenMintFlag ca)
       ++ fired (negb (lpLocked ca)) unlockedLiquidityFlag).
Proof.
  rewrite matchScamPatterns_registryOf. f_equal.
  unfold defaultScamPatterns, hiddenMintFlag, unlockedLiquidityFlag,
    hiddenMintPattern.
  cbn [flat_map]. unfold patternFlags, matchedIndicators, fired.
  cbn [indicatorNames filter]. unfold indicatorMatches.
  destruct (isProxy ca), (hasMintFunction ca), (ownershipRenounced ca),
    (lpLocked ca); reflexivity.
Qed.

(** X12.  With the registry that schema.sql installs, only two of the eight
    patterns can ever match, the six others naming indicators the engine does
    not know.  "Hidden mint function in proxy contract" matches as soon as
    the contract is a proxy, or has a mint function, or has an active owner,
    and being CRITICAL it makes [detectScam] recommend AVOID for every such
    contract.  "Unlocked liquidity with high market cap" matches every
    contract whose liquidity is not locked, whatever its market cap; its HIGH
    flag is of category TOKENOMICS, and holds the tokenomics score, when
    tokenomics is supplied, at 80 or less. *)
Theorem default_registry_verdicts (B : NumberBuiltins) (clock : Clock)
    (pd : ProjectData) (ca : ContractAnalysis)
    (tok : option TokenomicsAnalysis) (team : option TeamAnalysis)
    (comm : option CommunityAnalysis) :
  exists r,
    detectScam (registryOf defaultScamPatterns) clock pd ca tok team comm
    = Returned r
    /\ matchScamPatterns (registryOf defaultScamPatterns) pd ca
       = Returned
           (fired (isProxy ca || hasMintFunction ca
                   || negb (ownershipRenounced ca)) (hiddenMintFlag ca)
            ++ fired (negb (lpLocked ca)) unlockedLiquidityFlag)
    /\ (isProxy ca = true \/ hasMintFunction ca = true
        \/ ownershipRenounced ca = false -> recommendation r = AVOID)
    /\ (lpLocked ca = false ->
        In unlockedLiquidityFlag (redFlags r)
        /\ (tok <> None -> tokenomics r <= 80)).
Proof.
  rewrite detectScam_eq, defaultScamPatterns_flags. cbn [bind].
  eexists. split; [reflexivity |]. split; [reflexivity |].
  unfold assessment. cbn [recommendation redFlags tokenomics].
  split.
  - intros Hc. apply determineRecommendation_critical.
    rewrite !existsb_app, !existsb_fired.
    assert (isProxy ca || hasMintFunction ca || negb (ownershipRenounced ca)
            = true) as ->.
    { destruct Hc as [-> | [-> | ->]]; rewrite ?orb_true_r; reflexivity. }
    simpl. now rewrite orb_true_r.
  - intros Hl. rewrite Hl. cbn [negb fired].
    match goal with
    | |- In _ (Array_sort _ ?l) /\ _ =>
        assert (In unlockedLiquidityFlag l) as Hin
            by (apply in_or_app; right; apply in_or_app; right; now left)
    end.
    split; [now apply Array_sort_In |].
    intros Htok. destruct tok as [t |]; [| congruence].
    rewrite calculateTokenomicsScore_eq.
    pose proof (totalPenalty_member 30 20 10 5 "TOKENOMICS" _
                  unlockedLiquidityFlag ltac:(lia) ltac:(lia) ltac:(lia)
                  ltac:(lia) Hin eq_refl) as Hp.
    change (severityPenalty 30 20 10 5 unlockedLiquidityFlag) with 20 in Hp.
    unfold clampScore. lia.
Qed.

(** ** The warnings, severity by severity *)

Lemma filter_below (s : Severity) (x : RedFlag) (l : list RedFlag) :
  Forall (bySeverity x) l ->
  severityOrder s < severityOrder (severity x) ->
  filter (hasSeverity s) l = [].
Proof.
  intros Hall Hlt. apply filter_none.
  eapply Forall_impl; [| exact Hall].
  intros y Hy. destruct (hasSeverity s y) eqn:E; [| reflexivity].
  apply hasSeverity_order in E. unfold bySeverity in Hy. lia.
Qed.

Lemma filter_hasSeverity_cons (s : Severity) (x : RedFlag) (l : list RedFlag) :
  filter (hasSeverity s) (x :: l)
  = if Severity_eqb (severity x) s
    then x :: filter (hasSeverity s) l else filter (hasSeverity s) l.
Proof. reflexivity. Qed.

Lemma sorted_buckets (l : list RedFlag) :
  StronglySorted bySeverity l ->
  l = filter (hasSeverity CRITICAL) l ++ filter (hasSeverity HIGH) l
      ++ filter (hasSeverity MEDIUM) l ++ filter (hasSeverity LOW) l.
Proof.
  induction 1 as [| x l Hl IH Hx]; [reflexivity |].
  rewrite !filter_hasSeverity_cons.
  destruct (severity x) eqn:E; cbn [Severity_eqb].
  - cbn [app]. f_equal. exact IH.
  - rewrite (filter_below CRITICAL x l Hx) in * by (rewrite E; simpl; lia).
    cbn [app] in *. f_equal. exact IH.
  - rewrite (filter_below CRITICAL x l Hx) in * by (rewrite E; simpl; lia).
    rewrite (filter_below HIGH x l Hx) in * by (rewrite E; simpl; lia).
    cbn [app] in *. f_equal. exact IH.
  - rewrite (filter_below CRITICAL x l Hx) in * by (rewrite E; simpl; lia).
    rewrite (filter_below HIGH x l Hx) in * by (rewrite E; simpl; lia).
    rewrite (filter_below MEDIUM x l Hx) in * by (rewrite E; simpl; lia).
    cbn [app] in *. f_equal. exact IH.
Qed.

(** X13.  [generateWarnings] lists the flags severity by severity: all
    CRITICAL flags in the order they were collected, then all HIGH flags, then
    MEDIUM, then LOW, each rendered as "[SEVERITY] description"; there is one
    warning per flag, and sorting an array that is already sorted leaves it
    unchanged. *)
Theorem generateWarnings_buckets (flags : list RedFlag) :
  let buckets :=
    filter (hasSeverity CRITICAL) flags ++ filter (hasSeverity HIGH) flags
    ++ filter (hasSeverity MEDIUM) flags ++ filter (hasSeverity LOW) flags in
  generateWarnings flags = (map renderWarning buckets, buckets)
  /\ List.length (fst (generateWarnings flags)) = List.length flags
  /\ generateWarnings (snd (generateWarnings flags)) = generateWarnings flags.
Proof.
  intros buckets.
  destruct (Array_sort_stable_sort flags) as (Hperm & Hsorted & Hstable).
  assert (Array_sort compareSeverity flags = buckets) as Hb.
  { rewrite (sorted_buckets _ Hsorted) at 1. subst buckets.
    now rewrite !Hstable. }
  assert (generateWarnings flags = (map renderWarning buckets, buckets)) as Hg.
  { unfold generateWarnings. now rewrite Hb. }
  split; [exact Hg |]. split.
  - rewrite Hg. cbn [fst]. rewrite length_map, <- Hb.
    now apply Permutation_length.
  - rewrite Hg. cbn [snd]. unfold generateWarnings.
    destruct (Array_sort_stable_sort buckets) as (_ & Hsorted' & Hstable').
    assert (Array_sort compareSeverity buckets = buckets) as ->.
    { rewrite (sorted_buckets _ Hsorted') at 1. rewrite !Hstable'.
      rewrite <- Hb. symmetry. now apply sorted_buckets. }
    reflexivity.
Qed.
From Stdlib Require Import Ascii.

(** * The substring detectors of the scanner (contract-scanner.ts)

    Three of the detectors that [analyzeContract] runs on the lower-cased
    source look for fixed indicator strings with [String.prototype.includes];
    they are embedded here as the code has them.  The detectors built from
    regular expressions stay fields of [SourceDetectors]. *)

Module Scanner.

(** [s.includes(indicator)] *)
Fixpoint includes (s indicator : string) : bool :=
  String.prefix indicator s
  || match s with
     | EmptyString => false
     | String _ rest => includes rest indicator
     end.

(** [indicators.some(indicator => sourceCode.includes(indicator))] *)
Definition someIncluded (indicators : list string) (sourceCode : string) : bool :=
  existsb (fun indicator => includes sourceCode indicator) indicators.

Definition proxyIndicators : list string :=
  ["delegatecall"; "upgradeable"; "proxy"; "implementation"; "eip1967"].

Definition detectProxyPattern (sourceCode : string) : bool :=
  someIncluded proxyIndicators sourceCode.

Definition blacklistIndicators : list string :=
  ["blacklist"; "isblacklisted"; "_blacklist"; "banned"; "isbanned"].

Definition detectBlacklist (sourceCode : string) : bool :=
  someIncluded blacklistIndicators sourceCode.

Definition whitelistIndicators : list string :=
  ["whitelist"; "iswhitelisted"; "_whitelist"; "allowed"; "isallowed"].

Definition detectWhitelist (sourceCode : string) : bool :=
  someIncluded whitelistIndicators sourceCode.

End Scanner.

Lemma prefix_append (p s : string) :
  String.prefix p s = true <-> exists rest, s = (p ++ rest)%string.
Proof.
  revert s. induction p as [| c p IH]; intros s.
  - split; [intros _; now exists s | now destruct s].
  - destruct s as [| d s]; simpl.
    + split; [discriminate | intros [rest H]; discriminate].
    + destruct (Ascii.ascii_dec c d) as [-> | Hne].
      * rewrite IH. split; intros [rest H]; exists rest.
        -- now rewrite H.
        -- now injection H.
      * split; [discriminate |].
        intros [rest H]. injection H as H1 H2. congruence.
Qed.

Lemma append_assoc (a b c : string) :
  ((a ++ b) ++ c = a ++ (b ++ c))%string.
Proof. induction a as [| x a IH]; simpl; [reflexivity | now rewrite IH]. Qed.

(** [includes] is the substring relation. *)
Lemma includes_spec (s indicator : string) :
  Scanner.includes s indicator = true
  <-> exists before after, s = (before ++ indicator ++ after)%string.
Proof.
  induction s as [| c s IH]; cbn [Scanner.includes].
  - rewrite Bool.orb_false_r, prefix_append. split.
    + intros [rest H]. now exists EmptyString, rest.
    + intros (before & after & H). destruct before; simpl in H.
      * now exists after.
      * discriminate.
  - rewrite Bool.orb_true_iff, prefix_append, IH. split.
    + intros [[rest H] | (before & after & H)].
      * now exists EmptyString, rest.
      * exists (String c before), after. simpl. now rewrite H.
    + intros (before & after & H). destruct before as [| d before]; simpl in H.
      * left. now exists after.
      * right. injection H as _ H. now exists before, after.
Qed.

Lemma includes_trans (s long short : string) :
  Scanner.includes long short = true ->
  Scanner.includes s long = true -> Scanner.includes s short = true.
Proof.
  rewrite !includes_spec.
  intros (b1 & a1 & H1) (b2 & a2 & H2).
  exists (b2 ++ b1)%string, (a1 ++ a2)%string.
  rewrite H2, H1. now rewrite !append_assoc.
Qed.

Lemma someIncluded_monotone (indicators : list string) (s t : string) :
  Scanner.includes t s = true ->
  Scanner.someIncluded indicators s = true ->
  Scanner.someIncluded indicators t = true.
Proof.
  intros Hst. unfold Scanner.someIncluded. rewrite !existsb_exists.
  intros (i & Hin & Hi). exists i. split; [exact Hin |].
  now apply (includes_trans t s i).
Qed.

(** X14.  Of the five blacklist indicators only "blacklist" and "banned"
    decide the result, and of the five whitelist indicators only "whitelist"
    and "allowed": the three others of each list contain one of the two, so
    they can never be the only indicator found. *)
Theorem substring_detectors_two_indicators (sourceCode : string) :
  Scanner.detectBlacklist sourceCode
  = Scanner.includes sourceCode "blacklist"
    || Scanner.includes sourceCode "banned"
  /\ Scanner.detectWhitelist sourceCode
     = Scanner.includes sourceCode "whitelist"
       || Scanner.includes sourceCode "allowed".
Proof.
  unfold Scanner.detectBlacklist, Scanner.detectWhitelist,
    Scanner.someIncluded, Scanner.blacklistIndicators,
    Scanner.whitelistIndicators.
  cbn [existsb].
  pose proof (includes_trans sourceCode "isblacklisted" "blacklist" eq_refl).
  pose proof (includes_trans sourceCode "_blacklist" "blacklist" eq_refl).
  pose proof (includes_trans sourceCode "isbanned" "banned" eq_refl).
  pose proof (includes_trans sourceCode "iswhitelisted" "whitelist" eq_refl).
  pose proof (includes_trans sourceCode "_whitelist" "whitelist" eq_refl).
  pose proof (includes_trans sourceCode "isallowed" "allowed" eq_refl).
  split.
  - destruct (Scanner.includes sourceCode "blacklist"),
      (Scanner.includes sourceCode "isblacklisted"),
      (Scanner.includes sourceCode "_blacklist"),
      (Scanner.includes sourceCode "banned"),
      (Scanner.includes sourceCode "isbanned"); simpl; try reflexivity;
      try (now assert (false = true) by auto).
  - destruct (Scanner.includes sourceCode "whitelist"),
      (Scanner.includes sourceCode "iswhitelisted"),
      (Scanner.includes sourceCode "_whitelist"),
      (Scanner.includes sourceCode "allowed"),
      (Scanner.includes sourceCode "isallowed"); simpl; try reflexivity;
      try (now assert (false = true) by auto).
Qed.

(** X15.  The three substring detectors only ever gain from more text: a
    source that contains another one as a substring triggers every detector
    the contained source triggers.  In particular text added before or after
    a source, such as a comment, cannot silence a detector. *)
Theorem substring_detectors_monotone (sourceCode larger : string) :
  Scanner.includes larger sourceCode = true ->
  (Scanner.detectProxyPattern sourceCode = true ->
   Scanner.detectProxyPattern larger = true)
  /\ (Scanner.detectBlacklist sourceCode = true ->
      Scanner.detectBlacklist larger = true)
  /\ (Scanner.detectWhitelist sourceCode = true ->
      Scanner.detectWhitelist larger = true)
  /\ forall before after,
       Scanner.includes (before ++ sourceCode ++ after)%string sourceCode = true.
Proof.
  intros H. repeat split.
  - now apply someIncluded_monotone.
  - now apply someIncluded_monotone.
  - now apply someIncluded_monotone.
  - intros before after. apply includes_spec. now exists before, after.
Qed.

Lemma substring_detectors_monotone_witness :
  Scanner.detectBlacklist "mapping(address => bool) banned;" = true
  /\ Scanner.detectBlacklist
       "// audited mapping(address => bool) banned; // safe" = true.
Proof.
  split; [reflexivity |].
  apply (substring_detectors_monotone
           "mapping(address => bool) banned;"
           "// audited mapping(address => bool) banned; // safe");
    reflexivity.
Defined.

(** * The wallet analyzer (wallet-analyzer.ts)

    [WalletAnalyzer] turns the transfer rows that Etherscan returns for a
    wallet into trades, and the trades into a profit history.  Its numbers
    are binary64 values throughout: amounts and prices are fractional, and a
    field that does not parse is NaN. *)

Module Transfer.

(** A row of [tokentx] or [tokennfttx]; the code types it [any] and reads
    these fields, all of them JSON strings. *)
Record t : Type := {
  hash : string;
  blockNumber : string;
  to : string;
  value : string;
  contractAddress : string;
  tokenName : string;
  tokenSymbol : string;
  tokenDecimal : string;
  tokenID : string;
  timeStamp : string
}.

End Transfer.

Module WalletAnalyzer.

(** What the class takes from its environment: built-ins of the JavaScript
    engine whose value comes from a string, [Math.pow], the engine's
    [Array.prototype.sort] for a numeric comparator (the order it produces
    is left to the engine when the comparator returns NaN, which
    [parseInt] allows), and the [usd] field of the answer of CoinGecko to
    the request numbered [n] for an address ([None] when the request fails
    or the answer has no such field). *)
Class Engine : Type := {
  toLowerCase : string -> string;
  parseInt : string -> float;
  parseFloat : string -> float;
  Math_pow : float -> float -> float;
  Array_sort_numeric : forall A : Type, (A -> A -> float) -> list A -> list A;
  usdQuote : nat -> string -> option float;
  (* whatever the comparator, the sorted array holds the elements it held *)
  Array_sort_permutes :
    forall (A : Type) (compare : A -> A -> float) (array : list A),
      Permutation (Array_sort_numeric A compare array) array
}.

(** Truthiness of a number: every number but 0, -0 and NaN. *)
Definition truthyNumber (x : float) : bool :=
  negb (x =? 0)%float && negb (is_nan x).

(** [x || 0] *)
Definition orZero (x : float) : float :=
  if truthyNumber x then x else 0%float.

(** [Math.min] of two numbers: NaN if either is, and -0 below +0. *)
Definition Math_min (a b : float) : float :=
  if is_nan a || is_nan b then nan
  else if (a <? b)%float then a
  else if (b <? a)%float then b
  else if get_sign a then a else b.

(** [array.length] as a number. *)
Definition lengthOf {A : Type} (array : list A) : float :=
  number_of_Z (Z.of_nat (List.length array)).

(** A [Map] with string keys: its entries in insertion order.  [set] on a
    key that is present replaces the value where it stands. *)
Fixpoint Map_get {V : Type} (key : string) (map : list (string * V))
    : option V :=
  match map with
  | [] => None
  | (k, v) :: rest => if String.eqb k key then Some v else Map_get key rest
  end.

Fixpoint Map_set {V : Type} (key : string) (v : V) (map : list (string * V))
    : list (string * V) :=
  match map with
  | [] => [(key, v)]
  | (k, old) :: rest =>
      if String.eqb k key then (k, v) :: rest
      else (k, old) :: Map_set key v rest
  end.

(** [if (!map.has(key)) map.set(key, []); map.get(key).push(x)]: the array
    stored under the key is the one that grows. *)
Definition pushInto {A : Type} (key : string) (x : A)
    (map : list (string * list A)) : list (string * list A) :=
  match Map_get key map with
  | None => Map_set key [x] map
  | Some array => Map_set key (array ++ [x]) map
  end.

Definition groupBy {A : Type} (keyOf : A -> string) (rows : list A)
    : list (string * list A) :=
  fold_left (fun map row => pushInto (keyOf row) row map) rows [].

(** ** Trades *)

Record Leg : Type := {
  timestamp : float;
  amount : float;
  price : float;
  txHash : string
}.

Record Trade : Type := {
  tokenAddress : string;
  tokenSymbol : string;
  buy : option Leg;
  sell : option Leg;
  profit : option float;
  roi : option float;
  isOpen : bool
}.

Inductive Side : Type := Buy | Sell.

Section Analyzer.

Context {engine : Engine}.

(** [(a, b) => parseInt(a.timeStamp) - parseInt(b.timeStamp)] *)
Definition byTimeStamp (a b : Transfer.t) : float :=
  (parseInt (Transfer.timeStamp a) - parseInt (Transfer.timeStamp b))%float.

(** [DefiDataClient.getTokenPrice], at the request numbered [n]: the quote,
    or 0 when the request fails or the quote is missing or falsy. *)
Definition getTokenPrice (n : nat) (contractAddress : string) : float :=
  match usdQuote n contractAddress with
  | Some usd => orZero usd
  | None => 0%float
  end.

(** [estimateTradePrice]; [getTokenPrice] catches its own failures, so the
    [catch] branch of this function is never taken. *)
Definition estimateTradePrice (n : nat) (transfer : Transfer.t) (side : Side)
    : float :=
  orZero (getTokenPrice n (Transfer.contractAddress transfer)).

Definition estimateNFTPrice (transfer : Transfer.t) (side : Side) : float :=
  0%float.

(** *** [analyzeTokenTrades] *)

(** The variables of the loops: [position] and [totalCost] are those of the
    token at hand, [trades] is the map of all trades so far, [requests]
    counts the price requests made. *)
Record TokenLoop : Type := {
  position : float;
  totalCost : float;
  trades : list (string * Trade);
  requests : nat
}.

Definition symbolOr (symbol fallback : string) : string :=
  if truthy symbol then symbol else fallback.

(** The body of the inner loop. *)
Definition tokenStep (wallet tokenAddr : string) (st : TokenLoop)
    (transfer : Transfer.t) : TokenLoop :=
  let amount :=
    (parseFloat (Transfer.value transfer)
     / Math_pow 10 (parseInt (Transfer.tokenDecimal transfer)))%float in
  let isBuy := String.eqb (toLowerCase (Transfer.to transfer)) wallet in
  if isBuy then
    let position' := (position st + amount)%float in
    let price := estimateTradePrice (requests st) transfer Buy in
    let totalCost' := (totalCost st + amount * price)%float in
    let tradeKey := (tokenAddr ++ "-" ++ Transfer.hash transfer)%string in
    {| position := position';
       totalCost := totalCost';
       trades :=
         Map_set tradeKey
           {| tokenAddress := tokenAddr;
              tokenSymbol := symbolOr (Transfer.tokenSymbol transfer) "UNKNOWN";
              buy := Some {| timestamp :=
                               (parseInt (Transfer.timeStamp transfer) * 1000)%float;
                             amount := amount;
                             price := price;
                             txHash := Transfer.hash transfer |};
              sell := None;
              profit := None;
              roi := None;
              isOpen := true |}
           (trades st);
       requests := S (requests st) |}
  else if (0 <? position st)%float then
    let price := estimateTradePrice (requests st) transfer Sell in
    let avgCost := (totalCost st / position st)%float in
    let profit := ((price - avgCost) * Math_min amount (position st))%float in
    let roi := (((price - avgCost) / avgCost) * 100)%float in
    let position' := (position st - amount)%float in
    let totalCost' := (totalCost st - avgCost * Math_min amount position')%float in
    let tradeKey := (tokenAddr ++ "-" ++ Transfer.hash transfer)%string in
    {| position := position';
       totalCost := totalCost';
       trades :=
         Map_set tradeKey
           {| tokenAddress := tokenAddr;
              tokenSymbol := symbolOr (Transfer.tokenSymbol transfer) "UNKNOWN";
              buy := None;
              sell := Some {| timestamp :=
                                (parseInt (Transfer.timeStamp transfer) * 1000)%float;
                              amount := amount;
                              price := price;
                              txHash := Transfer.hash transfer |};
              profit := Some profit;
              roi := Some roi;
              isOpen := false |}
           (trades st);
       requests := S (requests st) |}
  else st.

(** The body of the outer loop: one token, its transfers sorted by time,
    starting from an empty position. *)
Definition tokenGroup (wallet : string) (acc : list (string * Trade) * nat)
    (entry : string * list Transfer.t) : list (string * Trade) * nat :=
  let (tokenAddr, tokenTransfers) := entry in
  let sorted := Array_sort_numeric _ byTimeStamp tokenTransfers in
  let final :=
    fold_left (tokenStep wallet tokenAddr) sorted
      {| position := 0%float; totalCost := 0%float;
         trades := fst acc; requests := snd acc |} in
  (trades final, requests final).

Definition analyzeTokenTrades (transfers : list Transfer.t)
    (walletAddress : string) : list Trade :=
  let wallet := toLowerCase walletAddress in
  let transfersByToken :=
    groupBy (fun transfer => toLowerCase (Transfer.contractAddress transfer))
      transfers in
  map snd (fst (fold_left (tokenGroup wallet) transfersByToken ([], 0%nat))).

(** *** [analyzeNFTTrades] *)

Record NFTLoop : Type := {
  buyPrice : float;
  buyTimestamp : float;
  nftTrades : list Trade
}.

Definition nftStep (wallet : string) (st : NFTLoop) (transfer : Transfer.t)
    : NFTLoop :=
  let isBuy := String.eqb (toLowerCase (Transfer.to transfer)) wallet in
  if isBuy then
    {| buyPrice := estimateNFTPrice transfer Buy;
       buyTimestamp := (parseInt (Transfer.timeStamp transfer) * 1000)%float;
       nftTrades := nftTrades st |}
  else if (0 <? buyPrice st)%float then
    let sellPrice := estimateNFTPrice transfer Sell in
    let profit := (sellPrice - buyPrice st)%float in
    let roi := (((sellPrice - buyPrice st) / buyPrice st) * 100)%float in
    {| buyPrice := 0%float;
       buyTimestamp := buyTimestamp st;
       nftTrades :=
         nftTrades st
         ++ [ {| tokenAddress := Transfer.contractAddress transfer;
                 tokenSymbol := symbolOr (Transfer.tokenName transfer) "NFT";
                 buy := Some {| timestamp := buyTimestamp st;
                                amount := 1%float;
                                price := buyPrice st;
                                txHash := Transfer.hash transfer |};
                 sell := Some {| timestamp :=
                                   (parseInt (Transfer.timeStamp transfer) * 1000)%float;
                                 amount := 1%float;
                                 price := sellPrice;
                                 txHash := Transfer.hash transfer |};
                 profit := Some profit;
                 roi := Some roi;
                 isOpen := false |} ] |}
  else st.

Definition nftGroup (wallet : string) (acc : list Trade)
    (entry : string * list Transfer.t) : list Trade :=
  let sorted := Array_sort_numeric _ byTimeStamp (snd entry) in
  nftTrades
    (fold_left (nftStep wallet) sorted
       {| buyPrice := 0%float; buyTimestamp := 0%float; nftTrades := acc |}).

Definition analyzeNFTTrades (transfers : list Transfer.t)
    (walletAddress : string) : list Trade :=
  let wallet := toLowerCase walletAddress in
  let nftsByToken :=
    groupBy
      (fun transfer =>
         (Transfer.contractAddress transfer ++ "-" ++ Transfer.tokenID transfer)%string)
      transfers in
  fold_left (nftGroup wallet) nftsByToken [].

End Analyzer.

(** ** Metrics *)

Definition day : float := (24 * 60 * 60 * 1000)%float.
Definition week : float := (7 * day)%float.
Definition month : float := (30 * day)%float.
Definition quarter : float := (90 * day)%float.

Record PeriodProfits : Type := {
  all : float;
  weekProfit : float;
  monthProfit : float;
  quarterProfit : float
}.

(** [trade.profit && !trade.isOpen && trade.sell], with the values the body
    of the loop reads. *)
Definition realised (trade : Trade) : option (float * Leg) :=
  match profit trade, sell trade with
  | Some p, Some leg =>
      if truthyNumber p && negb (isOpen trade) then Some (p, leg) else None
  | _, _ => None
  end.

Definition addWithin (limit age p sum : float) : float :=
  if (age <=? limit)%float then (sum + p)%float else sum.

Definition periodStep (now : float) (sums : PeriodProfits) (trade : Trade)
    : PeriodProfits :=
  match realised trade with
  | Some (p, leg) =>
      let age := (now - timestamp leg)%float in
      {| all := (all sums + p)%float;
         weekProfit := addWithin week age p (weekProfit sums);
         monthProfit := addWithin month age p (monthProfit sums);
         quarterProfit := addWithin quarter age p (quarterProfit sums) |}
  | None => sums
  end.

Definition calculatePeriodProfits (trades : list Trade) (now : float)
    : PeriodProfits :=
  fold_left (periodStep now) trades
    {| all := 0%float; weekProfit := 0%float; monthProfit := 0%float;
       quarterProfit := 0%float |}.

Definition isSome {A : Type} (o : option A) : bool :=
  match o with Some _ => true | None => false end.

(** [array.reduce((sum, x) => sum + x, 0)] *)
Definition sumOf (xs : list float) : float :=
  fold_left (fun sum x => (sum + x)%float) xs 0%float.

Definition calculateWinRate (trades : list Trade) : float :=
  let closedTrades :=
    filter (fun t => negb (isOpen t) && isSome (profit t)) trades in
  if (List.length closedTrades =? 0)%nat then 0%float
  else
    let wins :=
      filter (fun t => match profit t with
                       | Some p => (0 <? p)%float
                       | None => false
                       end) closedTrades in
    ((lengthOf wins / lengthOf closedTrades) * 100)%float.

Definition positionSizes (trades : list Trade) : list float :=
  flat_map (fun t => match buy t with
                     | Some leg => [(amount leg * price leg)%float]
                     | None => []
                     end) trades.

Definition calculateAvgPositionSize (trades : list Trade) : float :=
  let positions := positionSizes trades in
  if (List.length positions =? 0)%nat then 0%float
  else (sumOf positions / lengthOf positions)%float.

Definition calculateROI (trades : list Trade) : float :=
  let closedTrades :=
    filter (fun t => negb (isOpen t) && isSome (roi t)) trades in
  if (List.length closedTrades =? 0)%nat then 0%float
  else
    let totalROI :=
      fold_left (fun sum t => match roi t with
                              | Some r => (sum + r)%float
                              | None => sum
                              end) closedTrades 0%float in
    (totalROI / lengthOf closedTrades)%float.

End WalletAnalyzer.

Module ProfitHistory.

Record t : Type := {
  total : float;
  last7d : float;
  last30d : float;
  last90d : float;
  trades : nat;
  winRate : float;
  avgPositionSize : float;
  roi : float;
  lastUpdated : float
}.

End ProfitHistory.

(** [calculateProfitHistory], from the two transfer lists that the calls to
    Etherscan returned and from the value of [Date.now()]. *)
Definition calculateProfitHistory {engine : WalletAnalyzer.Engine}
    (transfers nftTransfers : list Transfer.t) (walletAddress : string)
    (now : float) : ProfitHistory.t :=
  let tokenTrades := WalletAnalyzer.analyzeTokenTrades transfers walletAddress in
  let nftTrades := WalletAnalyzer.analyzeNFTTrades nftTransfers walletAddress in
  let allTrades := tokenTrades ++ nftTrades in
  let profitByPeriod := WalletAnalyzer.calculatePeriodProfits allTrades now in
  {| ProfitHistory.total := WalletAnalyzer.all profitByPeriod;
     ProfitHistory.last7d := WalletAnalyzer.weekProfit profitByPeriod;
     ProfitHistory.last30d := WalletAnalyzer.monthProfit profitByPeriod;
     ProfitHistory.last90d := WalletAnalyzer.quarterProfit profitByPeriod;
     ProfitHistory.trades :=
       List.length (filter (fun t => negb (WalletAnalyzer.isOpen t)) allTrades);
     ProfitHistory.winRate := WalletAnalyzer.calculateWinRate allTrades;
     ProfitHistory.avgPositionSize :=
       WalletAnalyzer.calculateAvgPositionSize allTrades;
     ProfitHistory.roi := WalletAnalyzer.calculateROI allTrades;
     ProfitHistory.lastUpdated := now |}.

Section WalletAnalyzerProperties.

Import WalletAnalyzer.

Context {engine : Engine}.

Lemma nftStep_nothing (wallet : string) (st : NFTLoop) (transfer : Transfer.t) :
  buyPrice st = 0%float ->
  buyPrice (nftStep wallet st transfer) = 0%float
  /\ nftTrades (nftStep wallet st transfer) = nftTrades st.
Proof.
  intros H. unfold nftStep.
  destruct (String.eqb _ wallet); [split; reflexivity |].
  rewrite H. change (0 <? 0)%float with false. now split.
Qed.

Lemma nftLoop_nothing (wallet : string) (transfers : list Transfer.t)
    (st : NFTLoop) :
  buyPrice st = 0%float ->
  nftTrades (fold_left (nftStep wallet) transfers st) = nftTrades st.
Proof.
  revert st. induction transfers as [| x l IH]; intros st H; simpl.
  - reflexivity.
  - destruct (nftStep_nothing wallet st x H) as [H1 H2].
    rewrite IH by exact H1. exact H2.
Qed.

Lemma nftGroups_nothing (wallet : string)
    (groups : list (string * list Transfer.t)) (acc : list Trade) :
  fold_left (nftGroup wallet) groups acc = acc.
Proof.
  revert acc. induction groups as [| g groups IH]; intros acc; simpl.
  - reflexivity.
  - rewrite IH. unfold nftGroup. now rewrite nftLoop_nothing.
Qed.

(** X16.  [analyzeNFTTrades] returns no trade, whatever the transfers: the
    price it estimates for a purchase is 0, and a sale is recorded only
    against a purchase price above 0.  The profit history of a wallet is
    therefore the one computed from its token transfers alone. *)
Theorem nft_transfers_never_count (nftTransfers : list Transfer.t)
    (walletAddress : string) :
  analyzeNFTTrades nftTransfers walletAddress = []
  /\ forall transfers now,
       calculateProfitHistory transfers nftTransfers walletAddress now
       = calculateProfitHistory transfers [] walletAddress now.
Proof.
  assert (forall l, analyzeNFTTrades l walletAddress = []) as H.
  { intros l. unfold analyzeNFTTrades. apply nftGroups_nothing. }
  split; [apply H |].
  intros transfers now. unfold calculateProfitHistory. now rewrite !H.
Qed.

(** *** Profits by period *)

(** The age test of [calculatePeriodProfits] on a trade that it counts. *)
Definition soldWithin (limit now : float) (trade : Trade) : bool :=
  match realised trade with
  | Some (_, leg) => (now - timestamp leg <=? limit)%float
  | None => false
  end.

Lemma periodLoop_week (now : float) (trades : list Trade)
    (sums sums' : PeriodProfits) :
  weekProfit sums = all sums' ->
  weekProfit (fold_left (periodStep now) trades sums)
  = all (fold_left (periodStep now) (filter (soldWithin week now) trades) sums').
Proof.
  revert sums sums'. induction trades as [| t l IH]; intros sums sums' H.
  - exact H.
  - cbn [fold_left filter]. unfold soldWithin at 1.
    destruct (realised t) as [[p leg] |] eqn:Hr.
    + destruct (now - timestamp leg <=? week)%float eqn:Hage.
      * cbn [fold_left]. apply IH. unfold periodStep. rewrite Hr.
        cbn [weekProfit all]. unfold addWithin. now rewrite Hage, H.
      * apply IH. unfold periodStep. rewrite Hr.
        cbn [weekProfit]. unfold addWithin. now rewrite Hage.
    + apply IH. unfold periodStep. now rewrite Hr.
Qed.

Lemma periodLoop_month (now : float) (trades : list Trade)
    (sums sums' : PeriodProfits) :
  monthProfit sums = all sums' ->
  monthProfit (fold_left (periodStep now) trades sums)
  = all (fold_left (periodStep now) (filter (soldWithin month now) trades) sums').
Proof.
  revert sums sums'. induction trades as [| t l IH]; intros sums sums' H.
  - exact H.
  - cbn [fold_left filter]. unfold soldWithin at 1.
    destruct (realised t) as [[p leg] |] eqn:Hr.
    + destruct (now - timestamp leg <=? month)%float eqn:Hage.
      * cbn [fold_left]. apply IH. unfold periodStep. rewrite Hr.
        cbn [monthProfit all]. unfold addWithin. now rewrite Hage, H.
      * apply IH. unfold periodStep. rewrite Hr.
        cbn [monthProfit]. unfold addWithin. now rewrite Hage.
    + apply IH. unfold periodStep. now rewrite Hr.
Qed.

Lemma periodLoop_quarter (now : float) (trades : list Trade)
    (sums sums' : PeriodProfits) :
  quarterProfit sums = all sums' ->
  quarterProfit (fold_left (periodStep now) trades sums)
  = all (fold_left (periodStep now) (filter (soldWithin quarter now) trades) sums').
Proof.
  revert sums sums'. induction trades as [| t l IH]; intros sums sums' H.
  - exact H.
  - cbn [fold_left filter]. unfold soldWithin at 1.
    destruct (realised t) as [[p leg] |] eqn:Hr.
    + destruct (now - timestamp leg <=? quarter)%float eqn:Hage.
      * cbn [fold_left]. apply IH. unfold periodStep. rewrite Hr.
        cbn [quarterProfit all]. unfold addWithin. now rewrite Hage, H.
      * apply IH. unfold periodStep. rewrite Hr.
        cbn [quarterProfit]. unfold addWithin. now rewrite Hage.
    + apply IH. unfold periodStep. now rewrite Hr.
Qed.

(** An age that is at most the smaller of two positive limits is at most the
    larger: the two are compared as binary64 values. *)
Lemma leb_limits (age : float) (m1 m2 : positive) (e1 e2 : Z) :
  (e1 < e2)%Z ->
  SFleb (Prim2SF age) (S754_finite false m1 e1) = true ->
  SFleb (Prim2SF age) (S754_finite false m2 e2) = true.
Proof.
  intros He. unfold SFleb, SFcompare.
  destruct (Prim2SF age) as [s | s | | s m e]; try (intros H; exact H).
  destruct s; [intros _; reflexivity |].
  destruct (Z.compare_spec e e1) as [-> | Hlt | Hgt].
  - intros _. destruct (Z.compare_spec e1 e2); reflexivity || lia.
  - intros _. destruct (Z.compare_spec e e2); reflexivity || lia.
  - discriminate.
Qed.

Lemma week_le_month (age : float) :
  (age <=? week)%float = true -> (age <=? month)%float = true.
Proof.
  rewrite !FloatAxioms.leb_spec.
  change (Prim2SF week) with (S754_finite false 5073430118400000 (-23)).
  change (Prim2SF month) with (S754_finite false 5435817984000000 (-21)).
  apply leb_limits. lia.
Qed.

Lemma month_le_quarter (age : float) :
  (age <=? month)%float = true -> (age <=? quarter)%float = true.
Proof.
  rewrite !FloatAxioms.leb_spec.
  change (Prim2SF month) with (S754_finite false 5435817984000000 (-21)).
  change (Prim2SF quarter) with (S754_finite false 8153726976000000 (-20)).
  apply leb_limits. lia.
Qed.

(** X17.  Each period figure of [calculatePeriodProfits] is the all-time
    figure of the trades sold within the period: the 7-day profit is the
    total over the realised trades whose sale is at most 7 days old, and
    likewise for 30 and 90 days, summed in the same order.  The periods are
    nested: a trade counted for 7 days is counted for 30, and one counted for
    30 is counted for 90. *)
Theorem calculatePeriodProfits_by_period (trades : list Trade) (now : float) :
  let within limit :=
    all (calculatePeriodProfits (filter (soldWithin limit now) trades) now) in
  weekProfit (calculatePeriodProfits trades now) = within week
  /\ monthProfit (calculatePeriodProfits trades now) = within month
  /\ quarterProfit (calculatePeriodProfits trades now) = within quarter
  /\ forall trade,
       (soldWithin week now trade = true -> soldWithin month now trade = true)
       /\ (soldWithin month now trade = true ->
           soldWithin quarter now trade = true).
Proof.
  intros within. subst within. unfold calculatePeriodProfits.
  split; [now apply periodLoop_week |].
  split; [now apply periodLoop_month |].
  split; [now apply periodLoop_quarter |].
  intros trade. unfold soldWithin.
  destruct (realised trade) as [[p leg] |].
  - split; [apply week_le_month | apply month_le_quarter].
  - split; intros H; exact H.
Qed.

(** *** Token trades *)

Definition buyOnly (trade : Trade) : bool :=
  isOpen trade && isSome (buy trade) && negb (isSome (sell trade))
  && negb (isSome (profit trade)) && negb (isSome (roi trade)).

Definition sellOnly (trade : Trade) : bool :=
  negb (isOpen trade) && negb (isSome (buy trade)) && isSome (sell trade)
  && isSome (profit trade) && isSome (roi trade).

Definition oneSided (trade : Trade) : bool := buyOnly trade || sellOnly trade.

Lemma Map_set_values {V : Type} (P : V -> Prop) (key : string) (v : V)
    (map : list (string * V)) :
  Forall P (List.map snd map) -> P v ->
  Forall P (List.map snd (Map_set key v map)).
Proof.
  intros Hall Hv. induction map as [| [k old] rest IH]; simpl.
  - constructor; [exact Hv | constructor].
  - simpl in Hall. inversion Hall as [| ? ? Hold Hrest]; subst.
    destruct (String.eqb k key); simpl; constructor; auto.
Qed.

Lemma Map_set_length {V : Type} (key : string) (v : V)
    (map : list (string * V)) :
  (List.length (Map_set key v map) <= S (List.length map))%nat.
Proof.
  induction map as [| [k old] rest IH]; simpl.
  - lia.
  - destruct (String.eqb k key); simpl; lia.
Qed.

Lemma tokenStep_oneSided (wallet tokenAddr : string) (st : TokenLoop)
    (transfer : Transfer.t) :
  Forall (fun t => oneSided t = true) (List.map snd (trades st)) ->
  Forall (fun t => oneSided t = true)
    (List.map snd (trades (tokenStep wallet tokenAddr st transfer))).
Proof.
  intros H. unfold tokenStep.
  destruct (String.eqb _ wallet).
  - cbn [trades]. apply Map_set_values; [exact H | reflexivity].
  - destruct (0 <? position st)%float.
    + cbn [trades]. apply Map_set_values; [exact H | reflexivity].
    + exact H.
Qed.

Lemma tokenStep_length (wallet tokenAddr : string) (st : TokenLoop)
    (transfer : Transfer.t) :
  (List.length (trades (tokenStep wallet tokenAddr st transfer))
   <= S (List.length (trades st)))%nat.
Proof.
  unfold tokenStep.
  destruct (String.eqb _ wallet).
  - cbn [trades]. apply Map_set_length.
  - destruct (0 <? position st)%float.
    + cbn [trades]. apply Map_set_length.
    + lia.
Qed.

Lemma tokenLoop_invariants (wallet tokenAddr : string)
    (transfers : list Transfer.t) (st : TokenLoop) :
  Forall (fun t => oneSided t = true) (List.map snd (trades st)) ->
  Forall (fun t => oneSided t = true)
    (List.map snd (trades (fold_left (tokenStep wallet tokenAddr) transfers st)))
  /\ (List.length (trades (fold_left (tokenStep wallet tokenAddr) transfers st))
      <= List.length (trades st) + List.length transfers)%nat.
Proof.
  revert st. induction transfers as [| x l IH]; intros st H; simpl.
  - split; [exact H | lia].
  - destruct (IH (tokenStep wallet tokenAddr st x)
                (tokenStep_oneSided wallet tokenAddr st x H)) as [H1 H2].
    split; [exact H1 |].
    pose proof (tokenStep_length wallet tokenAddr st x). lia.
Qed.

(** The number of rows in the groups of a map. *)
Definition rowCount {A : Type} (map : list (string * list A)) : nat :=
  fold_right (fun entry n => (List.length (snd entry) + n)%nat) 0%nat map.

Lemma tokenGroups_invariants (wallet : string)
    (groups : list (string * list Transfer.t))
    (acc : list (string * Trade) * nat) :
  Forall (fun t => oneSided t = true) (List.map snd (fst acc)) ->
  Forall (fun t => oneSided t = true)
    (List.map snd (fst (fold_left (tokenGroup wallet) groups acc)))
  /\ (List.length (fst (fold_left (tokenGroup wallet) groups acc))
      <= List.length (fst acc) + rowCount groups)%nat.
Proof.
  revert acc. induction groups as [| [tokenAddr rows] groups IH];
    intros acc H; simpl.
  - split; [exact H | lia].
  - set (sorted := Array_sort_numeric _ byTimeStamp rows).
    set (start := {| position := 0%float; totalCost := 0%float;
                     trades := fst acc; requests := snd acc |}).
    destruct (tokenLoop_invariants wallet tokenAddr sorted start H)
      as [H1 H2].
    destruct (IH (trades (fold_left (tokenStep wallet tokenAddr) sorted start),
                  requests (fold_left (tokenStep wallet tokenAddr) sorted start))
                H1) as [H3 H4].
    split; [exact H3 |].
    cbn [fst] in H4. cbn [trades start] in H2.
    assert (List.length sorted = List.length rows) as Hlen
      by (apply Permutation_length, Array_sort_permutes).
    lia.
Qed.

Lemma Map_get_set_rowCount {A : Type} (key : string) (x : A)
    (map : list (string * list A)) :
  rowCount (pushInto key x map) = S (rowCount map).
Proof.
  unfold pushInto. induction map as [| [k array] rest IH]; simpl.
  - reflexivity.
  - destruct (String.eqb k key) eqn:Hk.
    + simpl. rewrite length_app. simpl. lia.
    + destruct (Map_get key rest) as [array' |]; simpl; simpl in IH; lia.
Qed.

Lemma groupBy_rowCount {A : Type} (keyOf : A -> string) (rows : list A) :
  rowCount (groupBy keyOf rows) = List.length rows.
Proof.
  unfold groupBy.
  assert (forall map,
            rowCount (fold_left (fun map row => pushInto (keyOf row) row map)
                        rows map)
            = (rowCount map + List.length rows)%nat) as H.
  { induction rows as [| x l IH]; intros map; simpl.
    - lia.
    - rewrite IH, Map_get_set_rowCount. lia. }
  now rewrite H.
Qed.

Lemma positionSizes_open (trades : list Trade) :
  Forall (fun t => oneSided t = true) trades ->
  positionSizes trades = positionSizes (filter isOpen trades).
Proof.
  induction 1 as [| t l Ht Hl IH]; [reflexivity |].
  unfold positionSizes in *. cbn [flat_map filter].
  unfold oneSided, buyOnly, sellOnly in Ht.
  destruct (isOpen t); cbn [flat_map].
  - now rewrite IH.
  - destruct (buy t); [simpl in Ht; discriminate |]. exact IH.
Qed.

(** X18.  Every trade that [analyzeTokenTrades] returns is one-sided: an open
    trade with a [buy] leg and no [sell], [profit] or [roi], or a closed
    trade with a [sell] leg, a [profit] and a [roi] and no [buy] leg.  So the
    average position size is computed from the open trades alone, and no more
    trades are returned than there are transfers. *)
Theorem token_trades_are_one_sided (transfers : list Transfer.t)
    (walletAddress : string) :
  let trades := analyzeTokenTrades transfers walletAddress in
  forallb oneSided trades = true
  /\ calculateAvgPositionSize trades
     = calculateAvgPositionSize (filter isOpen trades)
  /\ (List.length trades <= List.length transfers)%nat.
Proof.
  intros result. subst result. unfold analyzeTokenTrades.
  set (groups := groupBy _ transfers).
  destruct (tokenGroups_invariants (toLowerCase walletAddress) groups ([], 0%nat))
    as [H1 H2]; [constructor |].
  split; [| split].
  - apply forallb_forall. intros t Ht.
    rewrite Forall_forall in H1. now apply H1.
  - unfold calculateAvgPositionSize. now rewrite <- positionSizes_open.
  - rewrite length_map. subst groups. rewrite groupBy_rowCount in H2.
    simpl in H2. exact H2.
Qed.

(** *** A wallet that never receives *)

Lemma Map_get_values {V : Type} (P : V -> Prop) (key : string) (v : V)
    (map : list (string * V)) :
  Forall P (List.map snd map) -> Map_get key map = Some v -> P v.
Proof.
  induction map as [| [k old] rest IH]; simpl; [discriminate |].
  intros Hall. inversion Hall as [| ? ? Hold Hrest]; subst.
  destruct (String.eqb k key).
  - intros [= <-]. exact Hold.
  - now apply IH.
Qed.

Lemma groupBy_Forall {A : Type} (P : A -> Prop) (keyOf : A -> string)
    (rows : list A) :
  Forall P rows ->
  Forall (Forall P) (List.map snd (groupBy keyOf rows)).
Proof.
  unfold groupBy.
  assert (forall map,
            Forall (Forall P) (List.map snd map) -> Forall P rows ->
            Forall (Forall P)
              (List.map snd
                 (fold_left (fun map row => pushInto (keyOf row) row map)
                    rows map))) as H.
  { induction rows as [| x l IH]; intros map Hmap Hrows; simpl.
    - exact Hmap.
    - inversion Hrows as [| ? ? Hx Hl]; subst.
      apply IH; [| exact Hl]. unfold pushInto.
      destruct (Map_get (keyOf x) map) as [array |] eqn:Hget.
      + apply Map_set_values; [exact Hmap |].
        apply Forall_app. split.
        * exact (Map_get_values _ _ _ _ Hmap Hget).
        * constructor; [exact Hx | constructor].
      + apply Map_set_values; [exact Hmap |].
        constructor; [exact Hx | constructor]. }
  intros Hrows. apply H; [constructor | exact Hrows].
Qed.

Definition outgoing (wallet : string) (transfer : Transfer.t) : bool :=
  negb (String.eqb (toLowerCase (Transfer.to transfer)) wallet).

Lemma tokenLoop_outgoing (wallet tokenAddr : string)
    (transfers : list Transfer.t) (st : TokenLoop) :
  Forall (fun t => outgoing wallet t = true) transfers ->
  position st = 0%float ->
  fold_left (tokenStep wallet tokenAddr) transfers st = st.
Proof.
  revert st. induction 1 as [| x l Hx Hl IH]; intros Hpos; simpl.
  - reflexivity.
  - assert (tokenStep wallet tokenAddr st x = st) as ->.
    { unfold tokenStep. unfold outgoing in Hx.
      destruct (String.eqb _ wallet); [discriminate |].
      rewrite Hpos. now change (0 <? 0)%float with false. }
    now apply IH.
Qed.

Lemma tokenGroups_outgoing (wallet : string)
    (groups : list (string * list Transfer.t))
    (acc : list (string * Trade) * nat) :
  Forall (Forall (fun t => outgoing wallet t = true)) (List.map snd groups) ->
  fold_left (tokenGroup wallet) groups acc = acc.
Proof.
  revert acc. induction groups as [| [tokenAddr rows] groups IH];
    intros acc H; simpl.
  - reflexivity.
  - simpl in H. inversion H as [| ? ? Hrows Hgroups]; subst.
    rewrite tokenLoop_outgoing.
    + cbn [trades requests]. destruct acc. now apply IH.
    + eapply Permutation_Forall; [| exact Hrows].
      apply Permutation_sym, Array_sort_permutes.
    + reflexivity.
Qed.

(** X19.  For a wallet that is the recipient of none of its token transfers,
    [analyzeTokenTrades] returns no trade: a sale is
    recorded only against a position above 0.  Its profit history is zero in
    every figure. *)
Theorem wallet_that_never_receives (transfers nftTransfers : list Transfer.t)
    (walletAddress : string) (now : float) :
  forallb (outgoing (toLowerCase walletAddress)) transfers = true ->
  analyzeTokenTrades transfers walletAddress = []
  /\ calculateProfitHistory transfers nftTransfers walletAddress now
     = {| ProfitHistory.total := 0%float;
          ProfitHistory.last7d := 0%float;
          ProfitHistory.last30d := 0%float;
          ProfitHistory.last90d := 0%float;
          ProfitHistory.trades := 0%nat;
          ProfitHistory.winRate := 0%float;
          ProfitHistory.avgPositionSize := 0%float;
          ProfitHistory.roi := 0%float;
          ProfitHistory.lastUpdated := now |}.
Proof.
  intros H.
  assert (analyzeTokenTrades transfers walletAddress = []) as Htok.
  { unfold analyzeTokenTrades. rewrite tokenGroups_outgoing; [reflexivity |].
    apply groupBy_Forall. apply Forall_forall.
    rewrite forallb_forall in H. exact H. }
  split; [exact Htok |].
  unfold calculateProfitHistory. rewrite Htok.
  assert (analyzeNFTTrades nftTransfers walletAddress = []) as ->.
  { unfold analyzeNFTTrades. apply nftGroups_nothing. }
  reflexivity.
Qed.

End WalletAnalyzerProperties.

(** An engine to run the analyzer on: ASCII lower-casing, decimal numerals,
    powers by repeated multiplication, a stable insertion sort, and a quote
    that rises by one dollar with each request. *)
Definition asciiLower (c : Ascii.ascii) : Ascii.ascii :=
  let n := Ascii.nat_of_ascii c in
  if ((65 <=? n) && (n <=? 90))%nat then Ascii.ascii_of_nat (n + 32) else c.

Fixpoint lowerCase (s : string) : string :=
  match s with
  | EmptyString => EmptyString
  | String c rest => String (asciiLower c) (lowerCase rest)
  end.

Definition decimalNumber (s : string) : float :=
  match s with
  | EmptyString => nan
  | _ =>
      match NilEmpty.uint_of_string s with
      | Some digits => number_of_Z (Z.of_uint digits)
      | None => nan
      end
  end.

Fixpoint insertNumeric {A : Type} (compare : A -> A -> float) (x : A)
    (sorted : list A) : list A :=
  match sorted with
  | [] => [x]
  | y :: rest =>
      if (compare x y <? 0)%float then x :: y :: rest
      else y :: insertNumeric compare x rest
  end.

Definition sortNumeric (A : Type) (compare : A -> A -> float)
    (array : list A) : list A :=
  fold_left (fun sorted x => insertNumeric compare x sorted) array [].

Lemma insertNumeric_perm {A : Type} (compare : A -> A -> float) (x : A)
    (l : list A) :
  Permutation (insertNumeric compare x l) (x :: l).
Proof.
  induction l as [| y l IH]; simpl.
  - apply Permutation_refl.
  - destruct (compare x y <? 0)%float.
    + apply Permutation_refl.
    + eapply Permutation_trans; [apply perm_skip, IH | apply perm_swap].
Qed.

Lemma sortNumeric_permutes (A : Type) (compare : A -> A -> float)
    (array : list A) :
  Permutation (sortNumeric A compare array) array.
Proof.
  unfold sortNumeric.
  assert (forall acc,
            Permutation
              (fold_left (fun sorted x => insertNumeric compare x sorted)
                 array acc) (acc ++ array)) as H.
  { induction array as [| x l IH]; intros acc; simpl.
    - rewrite app_nil_r. apply Permutation_refl.
    - eapply Permutation_trans; [apply IH |].
      eapply Permutation_trans;
        [apply Permutation_app_tail, insertNumeric_perm |].
      simpl. apply Permutation_middle. }
  apply (H []).
Qed.

Definition exampleEngine : WalletAnalyzer.Engine :=
  {| WalletAnalyzer.toLowerCase := lowerCase;
     WalletAnalyzer.parseInt := decimalNumber;
     WalletAnalyzer.parseFloat := decimalNumber;
     WalletAnalyzer.Math_pow :=
       fun base exponent =>
         Nat.iter (Z.to_nat (Math_round exponent))
           (fun power => (power * base)%float) 1%float;
     WalletAnalyzer.Array_sort_numeric := sortNumeric;
     WalletAnalyzer.usdQuote :=
       fun n _ => Some (number_of_Z (Z.of_nat (S n)));
     WalletAnalyzer.Array_sort_permutes := sortNumeric_permutes |}.

Definition transferOf (hash to value contract symbol time : string)
    : Transfer.t :=
  {| Transfer.hash := hash; Transfer.blockNumber := "18500000";
     Transfer.to := to; Transfer.value := value;
     Transfer.contractAddress := contract; Transfer.tokenName := symbol;
     Transfer.tokenSymbol := symbol; Transfer.tokenDecimal := "2";
     Transfer.tokenID := "7"; Transfer.timeStamp := time |}.

(** The wallet 0xAA sends a token twice and never receives it. *)
Definition outgoingTransfers : list Transfer.t :=
  [ transferOf "0x01" "0xbb" "500" "0xT0" "TKN" "1700000100";
    transferOf "0x02" "0xcc" "300" "0xT0" "TKN" "1700000000" ].

Lemma wallet_that_never_receives_witness :
  @WalletAnalyzer.analyzeTokenTrades exampleEngine outgoingTransfers "0xAA" = []
  /\ ProfitHistory.trades
       (@calculateProfitHistory exampleEngine outgoingTransfers
          outgoingTransfers "0xAA" 1700000200000%float) = 0%nat.
Proof.
  destruct (@wallet_that_never_receives exampleEngine outgoingTransfers
              outgoingTransfers "0xAA" 1700000200000%float eq_refl)
    as [H1 H2].
  split; [exact H1 |]. now rewrite H2.
Defined.

(** ** [searchProfitableWallets]: the query it prepares *)

Module Search.

Inductive Timeframe : Type := Last7d | Last30d | Last90d | AllTime.

Inductive Specialization : Type := NFT | DEFI | MEMECOIN | ALL.

Definition Specialization_text (s : Specialization) : string :=
  match s with
  | NFT => "NFT" | DEFI => "DEFI" | MEMECOIN => "MEMECOIN" | ALL => "ALL"
  end.

Record WalletSearchCriteria : Type := {
  minProfit : option float;
  timeframe : option Timeframe;
  minWinRate : option float;
  chains : option (list string);
  specialization : option Specialization;
  minTrades : option float;
  excludeContracts : option bool
}.

(** A value bound to a placeholder of the statement. *)
Inductive SqlValue : Type :=
| SqlNumber (x : float)
| SqlText (s : string).

(** [if (x)] on an optional number. *)
Definition given (x : option float) : option float :=
  match x with
  | Some v => if WalletAnalyzer.truthyNumber v then Some v else None
  | None => None
  end.

Definition timeframeField (criteria : WalletSearchCriteria) : string :=
  match timeframe criteria with
  | Some Last7d => "profit_7d"
  | Some Last30d => "profit_30d"
  | Some Last90d => "profit_90d"
  | _ => "total_profit"
  end.

(** The statement text and the values bound to it, as
    [searchProfitableWallets] builds them; [limit] is the argument, 10 when
    it is omitted. *)
Definition searchQuery (criteria : WalletSearchCriteria) (limit : option float)
    : string * list SqlValue :=
  let limit := match limit with Some n => n | None => 10%float end in
  let query := "SELECT * FROM wallet_profiles WHERE 1=1" in
  let params := [] in
  let '(query, params) :=
    match given (minProfit criteria) with
    | Some v =>
        ((query ++ " AND " ++ timeframeField criteria ++ " >= ?")%string,
         params ++ [SqlNumber v])
    | None => (query, params)
    end in
  let '(query, params) :=
    match given (minWinRate criteria) with
    | Some v => ((query ++ " AND win_rate >= ?")%string, params ++ [SqlNumber v])
    | None => (query, params)
    end in
  let '(query, params) :=
    match specialization criteria with
    | Some ALL | None => (query, params)
    | Some s =>
        ((query ++ " AND specialization = ?")%string,
         params ++ [SqlText (Specialization_text s)])
    end in
  let '(query, params) :=
    match given (minTrades criteria) with
    | Some v => ((query ++ " AND trade_count >= ?")%string, params ++ [SqlNumber v])
    | None => (query, params)
    end in
  ((query ++ " ORDER BY score DESC LIMIT ?")%string, params ++ [SqlNumber limit]).

(** The number of placeholders of a statement. *)
Fixpoint placeholders (statement : string) : nat :=
  match statement with
  | EmptyString => 0
  | String c rest =>
      ((if Ascii.eqb c "?"%char then 1 else 0) + placeholders rest)%nat
  end.

End Search.

Lemma placeholders_append (a b : string) :
  Search.placeholders (a ++ b)
  = (Search.placeholders a + Search.placeholders b)%nat.
Proof.
  induction a as [| c a IH]; simpl; [reflexivity |]. rewrite IH. lia.
Qed.

(** X20.  The statement that [searchProfitableWallets] prepares has exactly as
    many placeholders as values are bound to it, between one and five, the
    last being the limit.  The [chains] and [excludeContracts] criteria never
    reach the query: whatever the other criteria, changing them changes
    neither the statement nor the values.  A threshold that is 0 or NaN adds
    no condition: the query is the one built without it, so [minProfit: 0]
    does not exclude the wallets that lost money. *)
Theorem searchQuery_placeholders (criteria : Search.WalletSearchCriteria)
    (limit : option float) :
  let (query, params) := Search.searchQuery criteria limit in
  Search.placeholders query = List.length params
  /\ (1 <= List.length params <= 5)%nat
  /\ last params (Search.SqlText EmptyString)
     = Search.SqlNumber (match limit with Some n => n | None => 10%float end)
  /\ (forall chains' excludeContracts',
        Search.searchQuery
          {| Search.minProfit := Search.minProfit criteria;
             Search.timeframe := Search.timeframe criteria;
             Search.minWinRate := Search.minWinRate criteria;
             Search.chains := chains';
             Search.specialization := Search.specialization criteria;
             Search.minTrades := Search.minTrades criteria;
             Search.excludeContracts := excludeContracts' |} limit
        = (query, params))
  /\ (forall falsy,
        WalletAnalyzer.truthyNumber falsy = false ->
        Search.searchQuery
          {| Search.minProfit := Some falsy;
             Search.timeframe := Search.timeframe criteria;
             Search.minWinRate := Search.minWinRate criteria;
             Search.chains := Search.chains criteria;
             Search.specialization := Search.specialization criteria;
             Search.minTrades := Search.minTrades criteria;
             Search.excludeContracts := Search.excludeContracts criteria |}
          limit
        = Search.searchQuery
            {| Search.minProfit := None;
               Search.timeframe := Search.timeframe criteria;
               Search.minWinRate := Search.minWinRate criteria;
               Search.chains := Search.chains criteria;
               Search.specialization := Search.specialization criteria;
               Search.minTrades := Search.minTrades criteria;
               Search.excludeContracts := Search.excludeContracts criteria |}
            limit).
Proof.
  destruct criteria as [mp tf wr ch sp mt ex].
  cbn [Search.minProfit Search.timeframe Search.minWinRate Search.chains
       Search.specialization Search.minTrades Search.excludeContracts].
  assert (forall falsy,
            WalletAnalyzer.truthyNumber falsy = false ->
            Search.searchQuery
              {| Search.minProfit := Some falsy; Search.timeframe := tf;
                 Search.minWinRate := wr; Search.chains := ch;
                 Search.specialization := sp; Search.minTrades := mt;
                 Search.excludeContracts := ex |} limit
            = Search.searchQuery
                {| Search.minProfit := None; Search.timeframe := tf;
                   Search.minWinRate := wr; Search.chains := ch;
                   Search.specialization := sp; Search.minTrades := mt;
                   Search.excludeContracts := ex |} limit) as Hfalsy.
  { intros falsy Hf. unfold Search.searchQuery.
    cbn [Search.minProfit]. unfold Search.given at 1 4. now rewrite Hf. }
  unfold Search.searchQuery, Search.timeframeField in *.
  cbn [Search.minProfit Search.timeframe Search.minWinRate Search.chains
       Search.specialization Search.minTrades Search.excludeContracts] in *.
  destruct (Search.given mp) as [v1 |] eqn:H1;
    destruct (Search.given wr) as [v2 |] eqn:H2;
    destruct (Search.given mt) as [v4 |] eqn:H4;
    destruct sp as [[ | | | ] |]; destruct tf as [[ | | | ] |];
    (split; [reflexivity |]); (split; [simpl; lia |]);
    (split; [reflexivity |]);
    (split; [intros chains' excludeContracts'; reflexivity | exact Hfalsy]).
Qed.

(** * The wallet monitor (wallet-monitor.ts)

    [WalletMonitorWorkflow] polls Etherscan for a wallet and posts an alert to
    the agent for the transactions that qualify.  The functions that decide
    what is processed and what is alerted are embedded here: the three
    [process...] methods, [getAlertPreferences], and the body of the
    'process transactions' step with the state it updates. *)

Module Tx.

(** [BlockchainTransaction] (src/agent/types.ts): a row of [txlist]. *)
Record t : Type := {
  hash : string;
  blockNumber : string;
  timeStamp : string;
  from : string;
  to : string;
  value : string;
  gas : string;
  gasPrice : string;
  gasUsed : string;
  input : string;
  isError : string;
  methodId : option string;
  functionName : option string
}.

End Tx.

Module Monitor.

Import WalletAnalyzer.

Inductive AlertType : Type :=
| NEW_BUY | NEW_SELL | LARGE_TRANSFER | CONTRACT_INTERACTION | PROFIT_TARGET.

Definition AlertType_eqb (a b : AlertType) : bool :=
  match a, b with
  | NEW_BUY, NEW_BUY | NEW_SELL, NEW_SELL | LARGE_TRANSFER, LARGE_TRANSFER
  | CONTRACT_INTERACTION, CONTRACT_INTERACTION
  | PROFIT_TARGET, PROFIT_TARGET => true
  | _, _ => false
  end.

Inductive Action : Type := BUY | SELL | TRANSFER | SWAP | INTERACT.

Record TokenDetails : Type := {
  address : string;
  symbol : string;
  name : string;
  tokenAmount : string;   (* the field [amount] *)
  usdValue : float
}.

Record NftDetails : Type := {
  collection : string;
  tokenId : string;
  marketplace : string;
  nftPrice : float        (* the field [price] *)
}.

Record AlertDetails : Type := {
  token : option TokenDetails;
  nft : option NftDetails;
  action : Action;
  platform : string;
  profitLoss : option float;
  notes : option string
}.

Record Alert : Type := {
  walletAddress : string;
  transactionHash : string;
  alertTimestamp : float;  (* the field [timestamp] *)
  alertType : AlertType;
  details : AlertDetails;
  readStatus : bool
}.

(** The value that [getAlertPreferences] returns. *)
Record Preferences : Type := {
  enabled : bool;
  minTradeSize : float;
  specificTokens : list string;
  alertTypes : list AlertType
}.

(** What the workflow takes from its host besides the engine of the
    analyzer: the two number formatters, and the [alert_preferences] column
    of the wallet's row at the lookup numbered [n], parsed ([None] when the
    query fails, finds no row or an empty column, or the column does not
    parse). *)
Class Host : Type := {
  toFixed : nat -> float -> string;
  Number_toString : float -> string;
  alertPreferencesRow : nat -> option Preferences
}.

(** The numbers of lookups and of price requests made so far. *)
Record Calls : Type := {
  lookups : nat;
  quotes : nat
}.

Section Workflow.

Context {engine : Engine} {host : Host}.

Definition defaultPreferences : Preferences :=
  {| enabled := true;
     minTradeSize := 100%float;
     specificTokens := [];
     alertTypes := [NEW_BUY; NEW_SELL; LARGE_TRANSFER; CONTRACT_INTERACTION] |}.

Definition getAlertPreferences (n : nat) : Preferences :=
  match alertPreferencesRow n with
  | Some preferences => preferences
  | None => defaultPreferences
  end.

(** [parseInt(tx.timeStamp) * 1000] *)
Definition millis (timeStamp : string) : float :=
  (parseInt timeStamp * 1000)%float.

(** [processTransaction]: the alerts it sends, in order. *)
Definition processTransaction (tx : Tx.t) (walletAddress : string)
    : list Alert :=
  let wallet := toLowerCase walletAddress in
  let isOutgoing := String.eqb (toLowerCase (Tx.from tx)) wallet in
  let valueInEth := (parseFloat (Tx.value tx) / 1e18)%float in
  let large :=
    if (1 <? valueInEth)%float then
      [ {| walletAddress := walletAddress;
           transactionHash := Tx.hash tx;
           alertTimestamp := millis (Tx.timeStamp tx);
           alertType := LARGE_TRANSFER;
           details :=
             {| token := None; nft := None;
                action := if isOutgoing then TRANSFER else TRANSFER;
                platform := "Ethereum";
                profitLoss := None;
                notes :=
                  Some ((if isOutgoing then "Sent" else "Received") ++ " "
                        ++ toFixed 4 valueInEth ++ " ETH")%string |};
           readStatus := false |} ]
    else [] in
  let interaction :=
    if truthy (Tx.input tx) && negb (String.eqb (Tx.input tx) "0x") then
      [ {| walletAddress := walletAddress;
           transactionHash := Tx.hash tx;
           alertTimestamp := millis (Tx.timeStamp tx);
           alertType := CONTRACT_INTERACTION;
           details :=
             {| token := None; nft := None;
                action := INTERACT;
                platform := Tx.to tx;
                profitLoss := None;
                notes :=
                  Some ("Interacted with contract: "
                        ++ match Tx.functionName tx with
                           | Some f => if truthy f then f else "Unknown function"
                           | None => "Unknown function"
                           end)%string |};
           readStatus := false |} ]
    else [] in
  large ++ interaction.

(** [preferences.specificTokens.some(t => t.toLowerCase() ===
    tx.contractAddress.toLowerCase())] *)
Definition tokenMatch (preferences : Preferences) (tx : Transfer.t) : bool :=
  existsb
    (fun t => String.eqb (toLowerCase t)
                (toLowerCase (Transfer.contractAddress tx)))
    (specificTokens preferences).

Definition includesType (preferences : Preferences) (type : AlertType)
    : bool :=
  existsb (AlertType_eqb type) (alertTypes preferences).

(** [parseFloat(tx.value) / Math.pow(10, parseInt(tx.tokenDecimal))] *)
Definition amountOf (tx : Transfer.t) : float :=
  (parseFloat (Transfer.value tx)
   / Math_pow 10 (parseInt (Transfer.tokenDecimal tx)))%float.

Definition tokenAlert (tx : Transfer.t) (walletAddress : string)
    (isBuy : bool) (amount usd : float) : Alert :=
  {| walletAddress := walletAddress;
     transactionHash := Transfer.hash tx;
     alertTimestamp := millis (Transfer.timeStamp tx);
     alertType := if isBuy then NEW_BUY else NEW_SELL;
     details :=
       {| token :=
            Some {| address := Transfer.contractAddress tx;
                    symbol := Transfer.tokenSymbol tx;
                    name := Transfer.tokenName tx;
                    tokenAmount := Number_toString amount;
                    usdValue := usd |};
          nft := None;
          action := if isBuy then BUY else SELL;
          platform := "DEX";
          profitLoss := None;
          notes :=
            Some ((if isBuy then "Bought" else "Sold") ++ " "
                  ++ toFixed 4 amount ++ " " ++ Transfer.tokenSymbol tx
                  ++ " (~$" ++ toFixed 2 usd ++ ")")%string |};
     readStatus := false |}.

(** [processTokenTransfer]: the alerts it sends, and the calls made. *)
Definition processTokenTransfer (tx : Transfer.t) (walletAddress : string)
    (calls : Calls) : list Alert * Calls :=
  let wallet := toLowerCase walletAddress in
  let isBuy := String.eqb (toLowerCase (Transfer.to tx)) wallet in
  let preferences := getAlertPreferences (lookups calls) in
  let calls := {| lookups := S (lookups calls); quotes := quotes calls |} in
  if (0 <? List.length (specificTokens preferences))%nat
     && negb (tokenMatch preferences tx)
  then ([], calls)
  else
    let tokenPrice :=
      getTokenPrice (quotes calls) (Transfer.contractAddress tx) in
    let calls := {| lookups := lookups calls; quotes := S (quotes calls) |} in
    let amount := amountOf tx in
    let usd := (amount * tokenPrice)%float in
    if (usd <? minTradeSize preferences)%float then ([], calls)
    else
      let alertType := if isBuy then NEW_BUY else NEW_SELL in
      if negb (includesType preferences alertType) then ([], calls)
      else ([tokenAlert tx walletAddress isBuy amount usd], calls).

Definition nftAlert (tx : Transfer.t) (walletAddress : string) (isBuy : bool)
    : Alert :=
  let estimatedPrice := 0%float in
  {| walletAddress := walletAddress;
     transactionHash := Transfer.hash tx;
     alertTimestamp := millis (Transfer.timeStamp tx);
     alertType := if isBuy then NEW_BUY else NEW_SELL;
     details :=
       {| token := None;
          nft :=
            Some {| collection := Transfer.tokenName tx;
                    tokenId := Transfer.tokenID tx;
                    marketplace := "Unknown";
                    nftPrice := estimatedPrice |};
          action := if isBuy then BUY else SELL;
          platform := "NFT Marketplace";
          profitLoss := None;
          notes :=
            Some ((if isBuy then "Bought" else "Sold") ++ " "
                  ++ Transfer.tokenName tx ++ " #" ++ Transfer.tokenID tx)%string |};
     readStatus := false |}.

(** [processNFTTransfer] *)
Definition processNFTTransfer (tx : Transfer.t) (walletAddress : string)
    (calls : Calls) : list Alert * Calls :=
  let wallet := toLowerCase walletAddress in
  let isBuy := String.eqb (toLowerCase (Transfer.to tx)) wallet in
  let preferences := getAlertPreferences (lookups calls) in
  let calls := {| lookups := S (lookups calls); quotes := quotes calls |} in
  let alertType := if isBuy then NEW_BUY else NEW_SELL in
  if negb (includesType preferences alertType) then ([], calls)
  else ([nftAlert tx walletAddress isBuy], calls).

(** ** The 'process transactions' step *)

Record MonitorState : Type := {
  lastCheckedBlock : float;
  lastTxHash : option string;
  consecutiveErrors : Z
}.

(** [Math.max] of two numbers: NaN if either is, and +0 above -0. *)
Definition Math_max (a b : float) : float :=
  if is_nan a || is_nan b then nan
  else if (a <? b)%float then b
  else if (b <? a)%float then a
  else if get_sign a then b else a.

(** [state.lastTxHash && tx.hash === state.lastTxHash] *)
Definition alreadyProcessed (last : option string) (hash : string) : bool :=
  match last with
  | Some h => truthy h && String.eqb hash h
  | None => false
  end.

(** The variables that the step changes: the state, the calls made and the
    alerts sent so far. *)
Record Progress : Type := {
  state : MonitorState;
  calls : Calls;
  sent : list Alert
}.

(** The two assignments that follow the processing of a row. *)
Definition advance (st : MonitorState) (blockNumber hash : string)
    : MonitorState :=
  {| lastCheckedBlock := Math_max (lastCheckedBlock st) (parseInt blockNumber);
     lastTxHash := Some hash;
     consecutiveErrors := consecutiveErrors st |}.

(** One of the three [for] loops, with its [break]. *)
Fixpoint forEach {Row : Type} (hashOf blockOf : Row -> string)
    (process : Row -> Calls -> list Alert * Calls) (rows : list Row)
    (progress : Progress) : Progress :=
  match rows with
  | [] => progress
  | tx :: rest =>
      if alreadyProcessed (lastTxHash (state progress)) (hashOf tx)
      then progress
      else
        let (alerts, calls') := process tx (calls progress) in
        forEach hashOf blockOf process rest
          {| state := advance (state progress) (blockOf tx) (hashOf tx);
             calls := calls';
             sent := sent progress ++ alerts |}
  end.

(** What the 'fetch transactions' step returns. *)
Record Fetched : Type := {
  normal : list Tx.t;
  tokens : list Transfer.t;
  nfts : list Transfer.t
}.

Definition isEmpty {A : Type} (array : list A) : bool :=
  match array with [] => true | _ => false end.

(** The test on the three lengths and the body of the step. *)
Definition processTransactions (walletAddress : string)
    (transactions : Fetched) (progress : Progress) : Progress :=
  if isEmpty (normal transactions) && isEmpty (tokens transactions)
     && isEmpty (nfts transactions)
  then progress
  else
    let progress :=
      forEach Tx.hash Tx.blockNumber
        (fun tx calls => (processTransaction tx walletAddress, calls))
        (normal transactions) progress in
    let progress :=
      forEach Transfer.hash Transfer.blockNumber
        (fun tx calls => processTokenTransfer tx walletAddress calls)
        (tokens transactions) progress in
    forEach Transfer.hash Transfer.blockNumber
      (fun tx calls => processNFTTransfer tx walletAddress calls)
      (nfts transactions) progress.

End Workflow.

End Monitor.

(** ** Properties of the monitor *)

Lemma is_nan_Prim2SF (x : float) :
  is_nan x = true -> Prim2SF x = S754_nan.
Proof.
  unfold is_nan. rewrite FloatAxioms.eqb_spec. unfold SFeqb, SFcompare.
  destruct (Prim2SF x) as [s | s | | s m e]; try reflexivity.
  - discriminate.
  - destruct s; discriminate.
  - rewrite Z.compare_refl, Pos.compare_cont_refl. destruct s; discriminate.
Qed.

Lemma ltb_nan (x y : float) : is_nan x = true -> (x <? y)%float = false.
Proof.
  intros H. rewrite FloatAxioms.ltb_spec, (is_nan_Prim2SF x H). reflexivity.
Qed.

(** A number that is neither NaN nor infinite. *)
Definition finiteNumber (x : float) : bool :=
  match Prim2SF x with
  | S754_zero _ | S754_finite _ _ _ => true
  | _ => false
  end.

Lemma ltb_times_zero (x limit : float) :
  finiteNumber x = true ->
  (x * 0 <? limit)%float = (0 <? limit)%float.
Proof.
  unfold finiteNumber. intros H.
  rewrite !FloatAxioms.ltb_spec, FloatAxioms.mul_spec.
  change (Prim2SF 0) with (S754_zero false).
  destruct (Prim2SF x) as [s | s | | s m e]; try discriminate; reflexivity.
Qed.

Section MonitorProperties.

Import WalletAnalyzer.
Import Monitor.

Context {engine : Engine} {host : Host}.

(** The token filter of [processTokenTransfer]: no list, or a list that
    holds the token. *)
Definition tokenPasses (preferences : Preferences) (tx : Transfer.t) : bool :=
  isEmpty (specificTokens preferences) || tokenMatch preferences tx.

Definition receivedBy (walletAddress : string) (tx : Transfer.t) : bool :=
  String.eqb (toLowerCase (Transfer.to tx)) (toLowerCase walletAddress).

Lemma tokenFilter_passes (preferences : Preferences) (tx : Transfer.t) :
  (0 <? List.length (specificTokens preferences))%nat
  && negb (tokenMatch preferences tx)
  = negb (tokenPasses preferences tx).
Proof.
  unfold tokenPasses, isEmpty.
  destruct (specificTokens preferences); simpl; [reflexivity |].
  now destruct (tokenMatch _ _).
Qed.

(** X21.  The minimum trade size of [processTokenTransfer] is a test
    [usdValue < minTradeSize], which is false for NaN: a transfer whose
    amount does not parse passes it, and is alerted whatever the minimum,
    with a USD value of NaN.  When CoinGecko gives no usable price the value
    of a finite amount is 0, and the transfer is dropped for every positive
    minimum, so for the default minimum of 100. *)
Theorem token_threshold_edge_cases (tx : Transfer.t) (walletAddress : string)
    (calls : Calls) :
  let preferences := getAlertPreferences (lookups calls) in
  let isBuy := receivedBy walletAddress tx in
  (is_nan (amountOf tx) = true ->
   tokenPasses preferences tx = true ->
   includesType preferences (if isBuy then NEW_BUY else NEW_SELL) = true ->
   exists usd,
     fst (processTokenTransfer tx walletAddress calls)
     = [tokenAlert tx walletAddress isBuy (amountOf tx) usd]
     /\ is_nan usd = true)
  /\ (finiteNumber (amountOf tx) = true ->
      getTokenPrice (quotes calls) (Transfer.contractAddress tx) = 0%float ->
      (0 <? minTradeSize preferences)%float = true ->
      fst (processTokenTransfer tx walletAddress calls) = []).
Proof.
  intros preferences isBuy. split.
  - intros Hnan Hpass Htype.
    assert (is_nan (amountOf tx
                    * getTokenPrice (quotes calls) (Transfer.contractAddress tx))
            = true) as Husd.
    { unfold is_nan in *. rewrite FloatAxioms.eqb_spec, FloatAxioms.mul_spec.
      rewrite FloatAxioms.eqb_spec in Hnan.
      assert (Prim2SF (amountOf tx) = S754_nan) as ->.
      { apply is_nan_Prim2SF. unfold is_nan.
        now rewrite FloatAxioms.eqb_spec. }
      reflexivity. }
    eexists. split; [| exact Husd].
    unfold processTokenTransfer. fold preferences.
    rewrite tokenFilter_passes, Hpass. cbn [negb quotes lookups].
    rewrite (ltb_nan _ _ Husd).
    fold (receivedBy walletAddress tx). fold isBuy.
    rewrite Htype. reflexivity.
  - intros Hfinite Hprice Hmin.
    unfold processTokenTransfer. fold preferences.
    destruct (_ && negb (tokenMatch preferences tx)); [reflexivity |].
    cbn [quotes lookups]. rewrite Hprice, (ltb_times_zero _ _ Hfinite), Hmin.
    reflexivity.
Qed.

(** *** The [break] of the three loops *)

(** The hashes of a batch, in the order in which the step reads them. *)
Definition hashesOf (transactions : Fetched) : list string :=
  List.map Tx.hash (normal transactions)
  ++ List.map Transfer.hash (tokens transactions)
  ++ List.map Transfer.hash (nfts transactions).

(** No hash of the list equals the one read just before it, [last] standing
    before the first. *)
Fixpoint neverBreaks (last : option string) (hashes : list string) : bool :=
  match hashes with
  | [] => true
  | h :: rest => negb (alreadyProcessed last h) && neverBreaks (Some h) rest
  end.

(** A loop of the step without its [break]: every row is processed. *)
Fixpoint forAll {Row : Type} (hashOf blockOf : Row -> string)
    (process : Row -> Calls -> list Alert * Calls) (rows : list Row)
    (progress : Progress) : Progress :=
  match rows with
  | [] => progress
  | tx :: rest =>
      let (alerts, calls') := process tx (calls progress) in
      forAll hashOf blockOf process rest
        {| state := advance (state progress) (blockOf tx) (hashOf tx);
           calls := calls';
           sent := sent progress ++ alerts |}
  end.

Definition processAll (walletAddress : string) (transactions : Fetched)
    (progress : Progress) : Progress :=
  let progress :=
    forAll Tx.hash Tx.blockNumber
      (fun tx calls => (processTransaction tx walletAddress, calls))
      (normal transactions) progress in
  let progress :=
    forAll Transfer.hash Transfer.blockNumber
      (fun tx calls => processTokenTransfer tx walletAddress calls)
      (tokens transactions) progress in
  forAll Transfer.hash Transfer.blockNumber
    (fun tx calls => processNFTTransfer tx walletAddress calls)
    (nfts transactions) progress.

(** The hash that stands last after a list was read. *)
Definition lastOf (last : option string) (hashes : list string)
    : option string :=
  fold_left (fun _ h => Some h) hashes last.

Lemma forAll_lastTxHash {Row : Type} (hashOf blockOf : Row -> string)
    (process : Row -> Calls -> list Alert * Calls) (rows : list Row)
    (progress : Progress) :
  lastTxHash (state (forAll hashOf blockOf process rows progress))
  = lastOf (lastTxHash (state progress)) (List.map hashOf rows).
Proof.
  revert progress. induction rows as [| tx rest IH]; intros progress; simpl.
  - reflexivity.
  - destruct (process tx (calls progress)) as [alerts calls'].
    rewrite IH. reflexivity.
Qed.

Lemma forEach_forAll {Row : Type} (hashOf blockOf : Row -> string)
    (process : Row -> Calls -> list Alert * Calls) (rows : list Row)
    (progress : Progress) :
  neverBreaks (lastTxHash (state progress)) (List.map hashOf rows) = true ->
  forEach hashOf blockOf process rows progress
  = forAll hashOf blockOf process rows progress.
Proof.
  revert progress. induction rows as [| tx rest IH]; intros progress; simpl.
  - reflexivity.
  - intros H. apply andb_prop in H. destruct H as [H1 H2].
    apply negb_true_iff in H1. rewrite H1.
    destruct (process tx (calls progress)) as [alerts calls'].
    now apply IH.
Qed.

Lemma neverBreaks_app (last : option string) (a b : list string) :
  neverBreaks last (a ++ b)
  = neverBreaks last a && neverBreaks (lastOf last a) b.
Proof.
  revert last. induction a as [| h a IH]; intros last; simpl.
  - reflexivity.
  - rewrite IH. now rewrite andb_assoc.
Qed.

Lemma lastOf_app (last : option string) (a b : list string) :
  lastOf last (a ++ b) = lastOf (lastOf last a) b.
Proof. unfold lastOf. apply fold_left_app. Qed.



Lemma processTransactions_all (walletAddress : string)
    (transactions : Fetched) (progress : Progress) :
  neverBreaks (lastTxHash (state progress)) (hashesOf transactions) = true ->
  processTransactions walletAddress transactions progress
  = processAll walletAddress transactions progress
  /\ lastTxHash (state (processAll walletAddress transactions progress))
     = lastOf (lastTxHash (state progress)) (hashesOf transactions).
Proof.
  unfold hashesOf. rewrite !neverBreaks_app, !lastOf_app.
  intros H. apply andb_prop in H. destruct H as [H1 H].
  apply andb_prop in H. destruct H as [H2 H3].
  unfold processAll. cbv zeta. rewrite !forAll_lastTxHash.
  split; [| reflexivity].
  unfold processTransactions. cbv zeta.
  destruct (isEmpty (normal transactions) && isEmpty (tokens transactions)
            && isEmpty (nfts transactions)) eqn:Hempty.
  - destruct (normal transactions); [| discriminate].
    destruct (tokens transactions); [| discriminate].
    destruct (nfts transactions); [| simpl in Hempty; discriminate].
    reflexivity.
  - rewrite (forEach_forAll Tx.hash) by exact H1.
    rewrite (forEach_forAll Transfer.hash _ _ (tokens transactions));
      [| now rewrite forAll_lastTxHash].
    rewrite (forEach_forAll Transfer.hash _ _ (nfts transactions));
      [| now rewrite !forAll_lastTxHash].
    reflexivity.
Qed.







End MonitorProperties.

(** X23.  [processNFTTransfer] consults the [alertTypes] of the preferences
    and nothing else: under two preference records with the same [alertTypes]
    it sends the same alerts, whatever [enabled], [minTradeSize] and
    [specificTokens] are.  It sends at most one alert, whose price is 0, and
    exactly one when the wallet has no stored preferences. *)
Theorem nft_alerts_consult_alertTypes_only (engine : WalletAnalyzer.Engine)
    (host host' : Monitor.Host) (tx : Transfer.t) (walletAddress : string)
    (calls calls' : Monitor.Calls) :
  let preferences :=
    @Monitor.getAlertPreferences host (Monitor.lookups calls) in
  let preferences' :=
    @Monitor.getAlertPreferences host' (Monitor.lookups calls') in
  let alerts :=
    fst (@Monitor.processNFTTransfer engine host tx walletAddress calls) in
  (Monitor.alertTypes preferences = Monitor.alertTypes preferences' ->
   alerts
   = fst (@Monitor.processNFTTransfer engine host' tx walletAddress calls'))
  /\ (List.length alerts <= 1)%nat
  /\ (forall alert nft,
        In alert alerts ->
        Monitor.nft (Monitor.details alert) = Some nft ->
        Monitor.nftPrice nft = 0%float)
  /\ (@Monitor.alertPreferencesRow host (Monitor.lookups calls) = None ->
      List.length alerts = 1%nat).
Proof.
  intros preferences preferences' alerts. subst alerts.
  unfold Monitor.processNFTTransfer. fold preferences. fold preferences'.
  unfold Monitor.includesType. split; [| split; [| split]].
  - intros ->. now destruct (negb _).
  - destruct (negb _); simpl; lia.
  - intros alert nft. destruct (negb _); simpl; [tauto |].
    intros [<- | []]. simpl. now intros [= <-].
  - intros Hrow. subst preferences. unfold Monitor.getAlertPreferences.
    rewrite Hrow. now destruct (String.eqb _ _).
Qed.

(** The engine of the examples with CoinGecko out of reach. *)
Definition offlineEngine : WalletAnalyzer.Engine :=
  {| WalletAnalyzer.toLowerCase := lowerCase;
     WalletAnalyzer.parseInt := decimalNumber;
     WalletAnalyzer.parseFloat := decimalNumber;
     WalletAnalyzer.Math_pow := @WalletAnalyzer.Math_pow exampleEngine;
     WalletAnalyzer.Array_sort_numeric := sortNumeric;
     WalletAnalyzer.usdQuote := fun _ _ => None;
     WalletAnalyzer.Array_sort_permutes := sortNumeric_permutes |}.

(** A host without stored preferences, and one whose wallet has alerts
    disabled and a minimum trade size of one dollar.  Their formatters stand
    in for the engine's. *)
Definition newHost : Monitor.Host :=
  {| Monitor.toFixed := fun _ _ => "0.00";
     Monitor.Number_toString := fun _ => "0";
     Monitor.alertPreferencesRow := fun _ => None |}.

Definition disabledPreferences : Monitor.Preferences :=
  {| Monitor.enabled := false;
     Monitor.minTradeSize := 1%float;
     Monitor.specificTokens := [];
     Monitor.alertTypes := [Monitor.NEW_BUY; Monitor.NEW_SELL] |}.

Definition disabledHost : Monitor.Host :=
  {| Monitor.toFixed := fun _ _ => "0.00";
     Monitor.Number_toString := fun _ => "0";
     Monitor.alertPreferencesRow := fun _ => Some disabledPreferences |}.

Definition noCalls : Monitor.Calls :=
  {| Monitor.lookups := 0; Monitor.quotes := 0 |}.

Definition freshProgress : Monitor.Progress :=
  {| Monitor.state :=
       {| Monitor.lastCheckedBlock := 0%float;
          Monitor.lastTxHash := None;
          Monitor.consecutiveErrors := 0 |};
     Monitor.calls := noCalls;
     Monitor.sent := [] |}.

(** A purchase whose [value] is not a number, and one of 5.00 tokens. *)
Definition garbledPurchase : Transfer.t :=
  transferOf "0x0a" "0xaa" "n/a" "0xT0" "TKN" "1700000000".

Definition smallPurchase : Transfer.t :=
  transferOf "0x0b" "0xaa" "500" "0xT0" "TKN" "1700000000".

Lemma token_threshold_edge_cases_witness :
  (exists usd,
     fst (@Monitor.processTokenTransfer exampleEngine newHost garbledPurchase
            "0xAA" noCalls)
     = [@Monitor.tokenAlert exampleEngine newHost garbledPurchase "0xAA" true
          (@Monitor.amountOf exampleEngine garbledPurchase) usd]
     /\ is_nan usd = true)
  /\ fst (@Monitor.processTokenTransfer offlineEngine newHost smallPurchase
            "0xAA" noCalls) = [].
Proof.
  split.
  - apply (proj1 (@token_threshold_edge_cases exampleEngine newHost
                    garbledPurchase "0xAA" noCalls)); reflexivity.
  - apply (proj2 (@token_threshold_edge_cases offlineEngine newHost
                    smallPurchase "0xAA" noCalls)); reflexivity.
Defined.

(** Two token transfers of the wallet, as every poll returns them. *)
Definition twoTransfers : Monitor.Fetched :=
  {| Monitor.normal := [];
     Monitor.tokens :=
       [ transferOf "0x02" "0xaa" "500" "0xT0" "TKN" "1700000100";
         transferOf "0x01" "0xbb" "300" "0xT0" "TKN" "1700000000" ];
     Monitor.nfts := [] |}.


Lemma nft_alerts_consult_alertTypes_only_witness :
  fst (@Monitor.processNFTTransfer exampleEngine disabledHost smallPurchase
         "0xAA" noCalls)
  = fst (@Monitor.processNFTTransfer exampleEngine
           {| Monitor.toFixed := fun _ _ => "0.00";
              Monitor.Number_toString := fun _ => "0";
              Monitor.alertPreferencesRow :=
                fun _ =>
                  Some {| Monitor.enabled := true;
                          Monitor.minTradeSize := 1000000%float;
                          Monitor.specificTokens := ["0xother"];
                          Monitor.alertTypes :=
                            [Monitor.NEW_BUY; Monitor.NEW_SELL] |} |}
           smallPurchase "0xAA" noCalls)
  /\ List.length
       (fst (@Monitor.processNFTTransfer exampleEngine disabledHost
               smallPurchase "0xAA" noCalls)) = 1%nat.
Proof.
  split; [| reflexivity].
  apply (proj1 (nft_alerts_consult_alertTypes_only exampleEngine disabledHost
                  _ smallPurchase "0xAA" noCalls noCalls)).
  reflexivity.
Defined.

(** * The profile of a wallet (wallet-analyzer.ts) *)

Module TopToken.

(** An entry of [WalletProfile.topTokens]. *)
Record t : Type := {
  symbol : string;
  trades : nat;
  profit : float
}.

End TopToken.

Module Profile.

Import WalletAnalyzer.

Inductive RiskProfile : Type := CONSERVATIVE | MODERATE | AGGRESSIVE.

(** The value stored under a symbol in [tokenStats]. *)
Record Stats : Type := {
  count : nat;       (* the field [trades] *)
  total : float      (* the field [profit] *)
}.

(** The body of the loop of [getTopTokens]. *)
Definition countTrade (tokenStats : list (string * Stats)) (trade : Trade)
    : list (string * Stats) :=
  let tokenStats :=
    match Map_get (tokenSymbol trade) tokenStats with
    | None =>
        Map_set (tokenSymbol trade) {| count := 0; total := 0%float |}
          tokenStats
    | Some _ => tokenStats
    end in
  match Map_get (tokenSymbol trade) tokenStats with
  | Some stats =>
      Map_set (tokenSymbol trade)
        {| count := S (count stats);
           total :=
             (total stats
              + match profit trade with
                | Some p => orZero p
                | None => 0
                end)%float |}
        tokenStats
  | None => tokenStats
  end.

Definition entryOf (entry : string * Stats) : TopToken.t :=
  {| TopToken.symbol := fst entry;
     TopToken.trades := count (snd entry);
     TopToken.profit := total (snd entry) |}.

Section Profile.

Context {engine : Engine}.

(** [getTopTokens], from the trades that [analyzeTokenTrades] returned. *)
Definition topTokensOf (trades : list Trade) : list TopToken.t :=
  let tokenStats := fold_left countTrade trades [] in
  firstn 10
    (Array_sort_numeric _
       (fun a b => (TopToken.profit b - TopToken.profit a)%float)
       (List.map entryOf tokenStats)).

Definition getTopTokens (transfers : list Transfer.t) (walletAddress : string)
    : list TopToken.t :=
  topTokensOf (analyzeTokenTrades transfers walletAddress).

(** [determineSpecialization], from the two transfer lists. *)
Definition determineSpecialization (tokenTransfers nftTransfers : list Transfer.t)
    : string :=
  let tokenCount := Z.of_nat (List.length tokenTransfers) in
  let nftCount := Z.of_nat (List.length nftTransfers) in
  if tokenCount * 2 <? nftCount then "NFT"
  else if nftCount * 2 <? tokenCount then "DEFI"
  else "ALL".

End Profile.

Definition determineRiskProfile (profitHistory : ProfitHistory.t)
    : RiskProfile :=
  let avgPositionSize := ProfitHistory.avgPositionSize profitHistory in
  let roi := ProfitHistory.roi profitHistory in
  let winRate := ProfitHistory.winRate profitHistory in
  if (10000 <? avgPositionSize)%float && (50 <? abs roi)%float then AGGRESSIVE
  else if (avgPositionSize <? 1000)%float && (70 <? winRate)%float
  then CONSERVATIVE
  else MODERATE.

End Profile.

Section ProfileProperties.

Import WalletAnalyzer.
Import Profile.

Context {engine : Engine}.

Definition keysOf {V : Type} (map : list (string * V)) : list string :=
  List.map fst map.

Lemma Map_get_None {V : Type} (key : string) (map : list (string * V)) :
  Map_get key map = None <-> ~ In key (keysOf map).
Proof.
  induction map as [| [k v] rest IH]; simpl.
  - tauto.
  - destruct (String.eqb_spec k key) as [-> | Hne].
    + split; [discriminate | intros H; exfalso; apply H; now left].
    + rewrite IH. split.
      * intros H [Hk | Hin]; [congruence | tauto].
      * intros H Hin. apply H. now right.
Qed.

Lemma Map_set_keys {V : Type} (key : string) (v : V)
    (map : list (string * V)) :
  keysOf (Map_set key v map)
  = if isSome (Map_get key map) then keysOf map else keysOf map ++ [key].
Proof.
  induction map as [| [k old] rest IH]; simpl.
  - reflexivity.
  - destruct (String.eqb_spec k key) as [-> | Hne]; simpl.
    + reflexivity.
    + rewrite IH. now destruct (Map_get key rest).
Qed.

Lemma Map_get_set_same {V : Type} (key : string) (v : V)
    (map : list (string * V)) :
  Map_get key (Map_set key v map) = Some v.
Proof.
  induction map as [| [k old] rest IH]; simpl.
  - now rewrite String.eqb_refl.
  - destruct (String.eqb k key) eqn:Hk; simpl; rewrite Hk; auto.
Qed.

(** The number of trades counted in a map of statistics. *)
Definition counted (tokenStats : list (string * Stats)) : nat :=
  fold_right (fun entry n => (count (snd entry) + n)%nat) 0%nat tokenStats.

Lemma counted_set (key : string) (stats stats' : Stats)
    (tokenStats : list (string * Stats)) :
  Map_get key tokenStats = Some stats ->
  (counted (Map_set key stats' tokenStats) + count stats
   = counted tokenStats + count stats')%nat.
Proof.
  induction tokenStats as [| [k old] rest IH]; simpl; [discriminate |].
  destruct (String.eqb k key); simpl.
  - intros [= ->]. lia.
  - intros H. specialize (IH H). lia.
Qed.

Lemma counted_new (key : string) (stats : Stats)
    (tokenStats : list (string * Stats)) :
  Map_get key tokenStats = None ->
  counted (Map_set key stats tokenStats)
  = (counted tokenStats + count stats)%nat.
Proof.
  induction tokenStats as [| [k old] rest IH]; simpl; [lia |].
  destruct (String.eqb k key); simpl; [discriminate |].
  intros H. rewrite (IH H). lia.
Qed.

Definition countsOne (entry : string * Stats) : Prop :=
  (1 <= count (snd entry))%nat.

Lemma Map_set_entries {V : Type} (P : string * V -> Prop) (key : string)
    (v : V) (map : list (string * V)) :
  Forall P map -> P (key, v) -> Forall P (Map_set key v map).
Proof.
  intros Hall Hv. induction map as [| [k old] rest IH]; simpl.
  - constructor; [exact Hv | constructor].
  - inversion Hall as [| ? ? Hold Hrest]; subst.
    destruct (String.eqb_spec k key) as [-> | Hne]; constructor; auto.
Qed.

Lemma Map_set_set {V : Type} (key : string) (v v' : V)
    (map : list (string * V)) :
  Map_set key v' (Map_set key v map) = Map_set key v' map.
Proof.
  induction map as [| [k old] rest IH]; simpl.
  - now rewrite String.eqb_refl.
  - destruct (String.eqb k key) eqn:Hk; simpl; rewrite Hk; [reflexivity |].
    now rewrite IH.
Qed.

Lemma countTrade_invariants (tokenStats : list (string * Stats))
    (trade : Trade) :
  NoDup (keysOf tokenStats) -> Forall countsOne tokenStats ->
  NoDup (keysOf (countTrade tokenStats trade))
  /\ Forall countsOne (countTrade tokenStats trade)
  /\ counted (countTrade tokenStats trade) = S (counted tokenStats).
Proof.
  intros Hkeys Hpos. unfold countTrade.
  destruct (Map_get (tokenSymbol trade) tokenStats) as [stats |] eqn:Hget.
  - rewrite Hget. split; [| split].
    + rewrite Map_set_keys, Hget. exact Hkeys.
    + apply Map_set_entries; [exact Hpos |]. unfold countsOne. simpl. lia.
    + pose proof (counted_set (tokenSymbol trade) stats
                    {| count := S (count stats);
                       total := (total stats
                                 + match profit trade with
                                   | Some p => orZero p
                                   | None => 0
                                   end)%float |}
                    tokenStats Hget) as H.
      simpl in H. lia.
  - rewrite Map_get_set_same, Map_set_set. cbn [count total].
    split; [| split].
    + rewrite Map_set_keys, Hget. simpl.
      apply Permutation_NoDup with (l := tokenSymbol trade :: keysOf tokenStats).
      * apply Permutation_cons_append.
      * constructor; [| exact Hkeys]. now apply Map_get_None.
    + apply Map_set_entries; [exact Hpos |]. unfold countsOne. simpl. lia.
    + rewrite counted_new by exact Hget. simpl. lia.
Qed.

Lemma tokenStats_invariants (trades : list Trade)
    (tokenStats : list (string * Stats)) :
  NoDup (keysOf tokenStats) -> Forall countsOne tokenStats ->
  NoDup (keysOf (fold_left countTrade trades tokenStats))
  /\ Forall countsOne (fold_left countTrade trades tokenStats)
  /\ counted (fold_left countTrade trades tokenStats)
     = (counted tokenStats + List.length trades)%nat.
Proof.
  revert tokenStats. induction trades as [| t l IH]; intros tokenStats Hk Hp.
  - simpl. repeat split; auto.
  - simpl. destruct (countTrade_invariants tokenStats t Hk Hp) as (H1 & H2 & H3).
    destruct (IH _ H1 H2) as (H4 & H5 & H6).
    repeat split; auto. rewrite H6, H3. lia.
Qed.

(** The trades counted in a list of entries. *)
Definition tradesIn (entries : list TopToken.t) : nat :=
  fold_right (fun entry n => (TopToken.trades entry + n)%nat) 0%nat entries.

Lemma tradesIn_entries (tokenStats : list (string * Stats)) :
  tradesIn (List.map entryOf tokenStats) = counted tokenStats.
Proof.
  induction tokenStats as [| e l IH]; simpl; [reflexivity |]. now rewrite IH.
Qed.

Lemma tradesIn_perm (a b : list TopToken.t) :
  Permutation a b -> tradesIn a = tradesIn b.
Proof. induction 1; simpl; lia. Qed.

Lemma tradesIn_firstn (n : nat) (entries : list TopToken.t) :
  (tradesIn (firstn n entries) <= tradesIn entries)%nat.
Proof.
  revert n. induction entries as [| e l IH]; intros [| n]; simpl; try lia.
  specialize (IH n). lia.
Qed.

Lemma NoDup_firstn {A : Type} (n : nat) (l : list A) :
  NoDup l -> NoDup (firstn n l).
Proof.
  revert n. induction l as [| x l IH]; intros [| n] H; simpl;
    try constructor.
  - inversion H as [| ? ? Hx Hl]; subst. intros Hin. apply Hx.
    rewrite <- (firstn_skipn n l). apply in_or_app. now left.
  - inversion H; subst. now apply IH.
Qed.

Lemma Forall_firstn_of {A : Type} (P : A -> Prop) (n : nat) (l : list A) :
  Forall P l -> Forall P (firstn n l).
Proof.
  intros H. apply Forall_forall. intros x Hx.
  rewrite Forall_forall in H. apply H.
  rewrite <- (firstn_skipn n l). apply in_or_app. now left.
Qed.

(** X24.  The list that [getTopTokens] returns holds at most ten entries and
    no symbol twice; every entry counts at least one trade, and together the
    entries count at most the trades of the wallet, exactly that many unless
    the sorted list is cut to ten. *)
Theorem getTopTokens_invariants (transfers : list Transfer.t)
    (walletAddress : string) :
  let top := getTopTokens transfers walletAddress in
  let trades := analyzeTokenTrades transfers walletAddress in
  (List.length top <= 10)%nat
  /\ NoDup (List.map TopToken.symbol top)
  /\ Forall (fun entry => (1 <= TopToken.trades entry)%nat) top
  /\ (tradesIn top <= List.length trades)%nat
  /\ (tradesIn (topTokensOf trades) = List.length trades
      \/ List.length (topTokensOf trades) = 10%nat).
Proof.
  intros top trades. subst top. unfold getTopTokens. fold trades.
  unfold topTokensOf.
  destruct (tokenStats_invariants trades [] (NoDup_nil _) (Forall_nil _))
    as (Hkeys & Hpos & Hcount).
  simpl in Hcount.
  set (tokenStats := fold_left countTrade trades []) in *.
  set (sorted := Array_sort_numeric _ _ (List.map entryOf tokenStats)).
  assert (Permutation sorted (List.map entryOf tokenStats)) as Hperm
    by apply Array_sort_permutes.
  assert (tradesIn sorted = List.length trades) as Hsum.
  { rewrite (tradesIn_perm _ _ Hperm), tradesIn_entries. exact Hcount. }
  split; [apply firstn_le_length |]. split; [| split; [| split]].
  - rewrite <- firstn_map. apply NoDup_firstn.
    apply Permutation_NoDup
      with (l := List.map TopToken.symbol (List.map entryOf tokenStats)).
    + apply Permutation_map, Permutation_sym, Hperm.
    + rewrite map_map. exact Hkeys.
  - apply Forall_firstn_of.
    eapply Permutation_Forall; [apply Permutation_sym, Hperm |].
    apply Forall_map. eapply Forall_impl; [| exact Hpos].
    intros entry H. exact H.
  - rewrite <- Hsum. apply tradesIn_firstn.
  - destruct (Nat.le_gt_cases (List.length sorted) 10) as [Hle | Hgt].
    + left. rewrite firstn_all2 by exact Hle. exact Hsum.
    + right. rewrite length_firstn. lia.
Qed.

(** *** The two classifications *)

Lemma below_excludes_above (x : float) (m1 m2 : positive) (e1 e2 : Z) :
  (e1 < e2)%Z ->
  SFltb (Prim2SF x) (S754_finite false m1 e1) = true ->
  SFltb (S754_finite false m2 e2) (Prim2SF x) = false.
Proof.
  intros He. unfold SFltb, SFcompare.
  destruct (Prim2SF x) as [s | s | | s m e]; try reflexivity.
  - destruct s; [reflexivity | discriminate].
  - destruct s; [reflexivity |].
    destruct (Z.compare_spec e e1) as [-> | Hlt | Hgt].
    + intros _. destruct (Z.compare_spec e2 e1); reflexivity || lia.
    + intros _. destruct (Z.compare_spec e2 e); reflexivity || lia.
    + discriminate.
Qed.

Lemma small_is_not_large (x : float) :
  (x <? 1000)%float = true -> (10000 <? x)%float = false.
Proof.
  rewrite !FloatAxioms.ltb_spec.
  change (Prim2SF 1000) with (S754_finite false 8796093022208000 (-43)).
  change (Prim2SF 10000) with (S754_finite false 5497558138880000 (-39)).
  apply below_excludes_above. lia.
Qed.

(** X25.  The two tests of [determineRiskProfile] and the two of
    [determineSpecialization] exclude each other, so the first never
    pre-empts the second: a wallet is CONSERVATIVE exactly when its average
    position is below 1000 and its win rate above 70, and 'DEFI' exactly when
    its token transfers are more than twice its NFT transfers.  An average
    position that is NaN makes the wallet MODERATE, and equal numbers of
    transfers, none included, make it 'ALL'. *)
Theorem classifications_do_not_overlap (profitHistory : ProfitHistory.t)
    (tokenTransfers nftTransfers : list Transfer.t) :
  let avgPositionSize := ProfitHistory.avgPositionSize profitHistory in
  let tokenCount := List.length tokenTransfers in
  let nftCount := List.length nftTransfers in
  (determineRiskProfile profitHistory = CONSERVATIVE
   <-> (avgPositionSize <? 1000)%float = true
       /\ (70 <? ProfitHistory.winRate profitHistory)%float = true)
  /\ (determineRiskProfile profitHistory = AGGRESSIVE
      <-> (10000 <? avgPositionSize)%float = true
          /\ (50 <? abs (ProfitHistory.roi profitHistory))%float = true)
  /\ (is_nan avgPositionSize = true ->
      determineRiskProfile profitHistory = MODERATE)
  /\ (determineSpecialization tokenTransfers nftTransfers = "NFT"
      <-> (2 * tokenCount < nftCount)%nat)
  /\ (determineSpecialization tokenTransfers nftTransfers = "DEFI"
      <-> (2 * nftCount < tokenCount)%nat)
  /\ (tokenCount = nftCount ->
      determineSpecialization tokenTransfers nftTransfers = "ALL").
Proof.
  intros avg tokenCount nftCount.
  unfold determineRiskProfile, determineSpecialization.
  fold avg. fold tokenCount. fold nftCount.
  split; [| split; [| split; [| split; [| split]]]].
  - destruct (avg <? 1000)%float eqn:Hsmall.
    + rewrite (small_is_not_large _ Hsmall). simpl.
      destruct (70 <? ProfitHistory.winRate profitHistory)%float;
        split; try tauto; try discriminate.
      intros [_ H]. discriminate.
    + simpl. destruct (_ && _); split; try discriminate;
        intros [H _]; discriminate.
  - destruct (10000 <? avg)%float,
      (50 <? abs (ProfitHistory.roi profitHistory))%float; simpl;
      try (split; [reflexivity || tauto | reflexivity || tauto]);
      try (destruct (_ && _); split; try discriminate;
           intros [H1 H2]; discriminate).
  - intros Hnan. rewrite (ltb_nan avg 1000 Hnan).
    assert ((10000 <? avg)%float = false) as ->.
    { rewrite FloatAxioms.ltb_spec, (is_nan_Prim2SF _ Hnan).
      reflexivity. }
    reflexivity.
  - destruct (Z.ltb_spec (Z.of_nat tokenCount * 2) (Z.of_nat nftCount)).
    + split; [lia | reflexivity].
    + destruct (Z.of_nat nftCount * 2 <? Z.of_nat tokenCount);
        split; try discriminate; lia.
  - destruct (Z.ltb_spec (Z.of_nat tokenCount * 2) (Z.of_nat nftCount)).
    + split; [discriminate | lia].
    + destruct (Z.ltb_spec (Z.of_nat nftCount * 2) (Z.of_nat tokenCount));
        split; try discriminate; try reflexivity; lia.
  - intros Heq.
    destruct (Z.ltb_spec (Z.of_nat tokenCount * 2) (Z.of_nat nftCount));
      [lia |].
    destruct (Z.ltb_spec (Z.of_nat nftCount * 2) (Z.of_nat tokenCount));
      [lia | reflexivity].
Qed.

End ProfileProperties.
(** * A scanned contract under the registry of schema.sql *)

(** X26.  When [detectScam] assesses the analysis that [analyzeContract]
    produced, against the registry that schema.sql installs, it always
    returns, the unlocked-liquidity flag is always raised and the liquidity
    score is at most 50, because the scanner never reports locked liquidity.
    The recommendation is AVOID unless the source is verified and the
    detectors find renounced ownership, no proxy, no mint function and no
    honeypot: a contract whose source is not verified is always AVOID. *)
Theorem scanned_contract_verdict (B : NumberBuiltins) (D : SourceDetectors)
    (clock : Clock) (pd : ProjectData) (sourceInfo : option SourceInfo)
    (creation : option CreationInfo) (tok : option TokenomicsAnalysis)
    (team : option TeamAnalysis) (comm : option CommunityAnalysis) :
  let ca := analyzeContract D sourceInfo creation in
  exists r,
    detectScam (registryOf defaultScamPatterns) clock pd ca tok team comm
    = Returned r
    /\ In unlockedLiquidityFlag (redFlags r)
    /\ liquidityRisk r <= 50
    /\ (recommendation r <> AVOID ->
        cannotAnalyze sourceInfo = false
        /\ isProxy ca = false /\ hasMintFunction ca = false
        /\ ownershipRenounced ca = true /\ hasHoneypot ca = false).
Proof.
  intros ca.
  assert (lpLocked ca = false) as Hlp.
  { subst ca. unfold analyzeContract, initialAnalysis.
    destruct sourceInfo as [info |]; [| reflexivity].
    destruct (negb (isVerified info)); reflexivity. }
  assert (verified ca = negb (cannotAnalyze sourceInfo)) as Hver.
  { subst ca. unfold analyzeContract, initialAnalysis, cannotAnalyze.
    destruct sourceInfo as [info |]; [| reflexivity].
    destruct (isVerified info); reflexivity. }
  rewrite detectScam_eq, defaultScamPatterns_flags. cbn [bind].
  eexists. split; [reflexivity |].
  unfold assessment. cbn [recommendation redFlags liquidityRisk].
  rewrite Hlp. cbn [negb fired].
  split; [| split].
  - apply Array_sort_In. apply in_or_app. right. apply in_or_app. right.
    now left.
  - rewrite calculateLiquidityRisk_eq, Hlp. unfold bonus.
    match goal with
    | |- context [totalPenalty ?f ?c ?l] =>
        pose proof (totalPenalty_nonneg 30 20 10 0 c l ltac:(lia) ltac:(lia)
                      ltac:(lia) ltac:(lia))
    end.
    unfold clampScore. lia.
  - intros Hrec.
    assert (existsb isCritical
              (collectRedFlags clock ca tok team comm
               ++ fired (isProxy ca || hasMintFunction ca
                         || negb (ownershipRenounced ca)) (hiddenMintFlag ca)
               ++ [unlockedLiquidityFlag]) = false) as Hcrit.
    { match goal with
      | |- ?e = false => destruct e eqn:He; [| reflexivity]
      end.
      exfalso. apply Hrec. now apply determineRecommendation_critical. }
    rewrite !existsb_app, existsb_fired, collectRedFlags_critical, Hver
      in Hcrit.
    change (isCritical (hiddenMintFlag ca)) with true in Hcrit.
    rewrite andb_true_r in Hcrit.
    repeat (apply orb_false_elim in Hcrit; destruct Hcrit as [Hcrit ?]);
      repeat match goal with
             | H : _ || _ = false |- _ =>
                 apply orb_false_elim in H; destruct H
             end.
    rewrite negb_involutive in *.
    repeat split; try assumption.
    now apply negb_false_iff.
Qed.

(** [analyzeTokenomics]: the placeholder that the scanner returns for every
    contract. *)
Definition analyzeTokenomics (contractAddress chain : string)
    : TokenomicsAnalysis :=
  {| totalSupply := "0";
     circulatingSupply := "0";
     topHolders := [];
     holderCount := 0;
     lpPairAddress := None;
     lpTokens := None;
     marketCap := 0%float;
     fullyDilutedValue := 0%float |}.

(** X27.  The tokenomics that [analyzeTokenomics] returns raises one flag in
    [detectScam], "Very few token holders", for every contract.  With it the
    tokenomics score is at most 90 under any registry, and it is 70 for a
    scanned contract under the registry of schema.sql, whose unlocked-liquidity
    pattern costs the other 20. *)
Theorem placeholder_tokenomics_score (B : NumberBuiltins)
    (D : SourceDetectors) (clock : Clock) (pd : ProjectData)
    (contractAddress chain : string) (sourceInfo : option SourceInfo)
    (creation : option CreationInfo) (team : option TeamAnalysis)
    (comm : option CommunityAnalysis) :
  let placeholder := analyzeTokenomics contractAddress chain in
  checkTokenomicsRedFlags placeholder = [fewHoldersFlag placeholder]
  /\ (forall env ca r,
        detectScam env clock pd ca (Some placeholder) team comm = Returned r ->
        tokenomics r <= 90 /\ In (fewHoldersFlag placeholder) (redFlags r))
  /\ exists r,
       detectScam (registryOf defaultScamPatterns) clock pd
         (analyzeContract D sourceInfo creation) (Some placeholder) team comm
       = Returned r
       /\ tokenomics r = 70.
Proof.
  intros placeholder.
  assert (checkTokenomicsRedFlags placeholder = [fewHoldersFlag placeholder])
    as Hflags by reflexivity.
  split; [exact Hflags |]. split.
  - intros env ca r Hr.
    apply detectScam_returned in Hr. destruct Hr as (patterns & _ & ->).
    unfold assessment. cbn [tokenomics redFlags].
    assert (In (fewHoldersFlag placeholder)
              (collectRedFlags clock ca (Some placeholder) team comm
               ++ patterns)) as Hin.
    { apply in_or_app. left. unfold collectRedFlags. cbv zeta.
      rewrite Hflags. destruct team, comm;
        repeat (apply in_or_app; (right; now left) || left);
        apply in_or_app; right; now left. }
    split; [| now apply Array_sort_In].
    rewrite calculateTokenomicsScore_eq.
    pose proof (totalPenalty_member 30 20 10 5 "TOKENOMICS" _
                  (fewHoldersFlag placeholder) ltac:(lia) ltac:(lia)
                  ltac:(lia) ltac:(lia) Hin eq_refl) as Hp.
    change (severityPenalty 30 20 10 5 (fewHoldersFlag placeholder))
      with 10 in Hp.
    unfold clampScore. lia.
  - rewrite detectScam_eq, defaultScamPatterns_flags. cbn [bind].
    eexists. split; [reflexivity |].
    unfold assessment. cbn [tokenomics].
    rewrite calculateTokenomicsScore_eq.
    rewrite totalPenalty_app, penalties_collected, penalties_of_contract,
      penalties_of_tokenomics.
    rewrite <- (app_nil_r (fired (negb _) unlockedLiquidityFlag)).
    rewrite !totalPenalty_fired, totalPenalty_nil.
    assert (lpLocked (analyzeContract D sourceInfo creation) = false) as ->.
    { unfold analyzeContract, initialAnalysis.
      destruct sourceInfo as [info |]; [| reflexivity].
      destruct (negb (isVerified info)); reflexivity. }
    destruct team as [t |], comm as [c |];
      rewrite ?penalties_of_team, ?penalties_of_community;
      change (hasCategory "TOKENOMICS" (hiddenMintFlag _)) with false;
      change (hasCategory "TOKENOMICS" unlockedLiquidityFlag) with true;
      cbn [String.eqb Ascii.eqb Bool.eqb negb];
      rewrite ?andb_true_r, ?andb_false_r;
      change (concentrated placeholder) with false;
      change (hasWhale placeholder) with false;
      change (fewHolders placeholder) with true;
      unfold bonus, severityPenalty;
      cbn [severity unlockedLiquidityFlag]; reflexivity.
Qed.
(** * The analyzer without a price

    When CoinGecko gives no usable price, [getTokenPrice] returns 0 for every
    request.  The costs and profits that [analyzeTokenTrades] computes are
    then zeros or NaN, whatever the amounts. *)

(** A number that is 0, -0 or NaN. *)
Definition zeroOrNaN (x : float) : bool :=
  match Prim2SF x with
  | S754_zero _ | S754_nan => true
  | _ => false
  end.

Lemma zeroOrNaN_mul_r (a z : float) :
  zeroOrNaN z = true -> zeroOrNaN (a * z) = true.
Proof.
  unfold zeroOrNaN. rewrite FloatAxioms.mul_spec.
  destruct (Prim2SF z) as [sz | sz | | sz mz ez]; try discriminate;
    destruct (Prim2SF a) as [sa | sa | | sa ma ea]; reflexivity.
Qed.

Lemma zeroOrNaN_mul_l (z b : float) :
  zeroOrNaN z = true -> zeroOrNaN (z * b) = true.
Proof.
  unfold zeroOrNaN. rewrite FloatAxioms.mul_spec.
  destruct (Prim2SF z) as [sz | sz | | sz mz ez]; try discriminate;
    destruct (Prim2SF b) as [sb | sb | | sb mb eb]; reflexivity.
Qed.

Lemma zeroOrNaN_add (a b : float) :
  zeroOrNaN a = true -> zeroOrNaN b = true -> zeroOrNaN (a + b) = true.
Proof.
  unfold zeroOrNaN. rewrite FloatAxioms.add_spec.
  destruct (Prim2SF a) as [[|] | sa | | sa ma ea]; try discriminate;
    destruct (Prim2SF b) as [[|] | sb | | sb mb eb]; try discriminate;
    reflexivity.
Qed.

Lemma zeroOrNaN_sub (a b : float) :
  zeroOrNaN a = true -> zeroOrNaN b = true -> zeroOrNaN (a - b) = true.
Proof.
  unfold zeroOrNaN. rewrite FloatAxioms.sub_spec.
  destruct (Prim2SF a) as [[|] | sa | | sa ma ea]; try discriminate;
    destruct (Prim2SF b) as [[|] | sb | | sb mb eb]; try discriminate;
    reflexivity.
Qed.

Lemma zeroOrNaN_div_positive (a p : float) :
  zeroOrNaN a = true -> (0 <? p)%float = true -> zeroOrNaN (a / p) = true.
Proof.
  unfold zeroOrNaN. rewrite FloatAxioms.div_spec, FloatAxioms.ltb_spec.
  change (Prim2SF 0) with (S754_zero false).
  destruct (Prim2SF a) as [sa | sa | | sa ma ea]; try discriminate;
    destruct (Prim2SF p) as [sp | sp | | sp mp ep]; try discriminate;
    reflexivity.
Qed.

Lemma Prim2SF_is_nan (x : float) : Prim2SF x = S754_nan -> is_nan x = true.
Proof.
  intros H. unfold is_nan. rewrite FloatAxioms.eqb_spec, H. reflexivity.
Qed.

Lemma nan_div_zeroOrNaN (a b : float) :
  zeroOrNaN a = true -> zeroOrNaN b = true -> is_nan (a / b) = true.
Proof.
  unfold zeroOrNaN. intros Ha Hb. apply Prim2SF_is_nan.
  rewrite FloatAxioms.div_spec.
  destruct (Prim2SF a) as [sa | sa | | sa ma ea]; try discriminate;
    destruct (Prim2SF b) as [sb | sb | | sb mb eb]; try discriminate;
    reflexivity.
Qed.

Lemma nan_mul (a b : float) : is_nan a = true -> is_nan (a * b) = true.
Proof.
  intros H. apply Prim2SF_is_nan.
  rewrite FloatAxioms.mul_spec, (is_nan_Prim2SF a H). reflexivity.
Qed.

Lemma nan_add_r (a b : float) : is_nan b = true -> is_nan (a + b) = true.
Proof.
  intros H. apply Prim2SF_is_nan.
  rewrite FloatAxioms.add_spec, (is_nan_Prim2SF b H).
  destruct (Prim2SF a) as [[|] | [|] | | sa ma ea]; reflexivity.
Qed.

Lemma nan_add_l (a b : float) : is_nan a = true -> is_nan (a + b) = true.
Proof.
  intros H. apply Prim2SF_is_nan.
  rewrite FloatAxioms.add_spec, (is_nan_Prim2SF a H). reflexivity.
Qed.

Lemma nan_div_l (a b : float) : is_nan a = true -> is_nan (a / b) = true.
Proof.
  intros H. apply Prim2SF_is_nan.
  rewrite FloatAxioms.div_spec, (is_nan_Prim2SF a H). reflexivity.
Qed.

Lemma zeroOrNaN_falsy (x : float) :
  zeroOrNaN x = true -> WalletAnalyzer.truthyNumber x = false.
Proof.
  unfold zeroOrNaN, WalletAnalyzer.truthyNumber, is_nan.
  rewrite !FloatAxioms.eqb_spec.
  change (Prim2SF 0) with (S754_zero false).
  destruct (Prim2SF x) as [s | s | | s m e]; try discriminate; reflexivity.
Qed.

Section WithoutPrice.

Import WalletAnalyzer.

Context {engine : Engine}.

Hypothesis noPrice :
  forall n contractAddress, getTokenPrice n contractAddress = 0%float.

(** A trade that is open, or closed with a profit of zero or NaN and a
    return that is NaN. *)
Definition worthless (trade : Trade) : bool :=
  isOpen trade
  || (match profit trade with
      | Some p => zeroOrNaN p
      | None => false
      end
      && match roi trade with
         | Some r => is_nan r
         | None => false
         end).

Lemma estimateTradePrice_zero (n : nat) (transfer : Transfer.t) (side : Side) :
  estimateTradePrice n transfer side = 0%float.
Proof. unfold estimateTradePrice. now rewrite noPrice. Qed.

Lemma tokenStep_worthless (wallet tokenAddr : string) (st : TokenLoop)
    (transfer : Transfer.t) :
  zeroOrNaN (totalCost st) = true ->
  Forall (fun t => worthless t = true) (List.map snd (trades st)) ->
  zeroOrNaN (totalCost (tokenStep wallet tokenAddr st transfer)) = true
  /\ Forall (fun t => worthless t = true)
       (List.map snd (trades (tokenStep wallet tokenAddr st transfer))).
Proof.
  intros Hcost Htrades. unfold tokenStep.
  rewrite !estimateTradePrice_zero.
  destruct (String.eqb _ wallet).
  - cbn [totalCost trades]. split.
    + apply zeroOrNaN_add; [exact Hcost |]. now apply zeroOrNaN_mul_r.
    + apply Map_set_values; [exact Htrades | reflexivity].
  - destruct (0 <? position st)%float eqn:Hpos; [| now split].
    cbn [totalCost trades].
    assert (zeroOrNaN (totalCost st / position st) = true) as Havg
      by now apply zeroOrNaN_div_positive.
    assert (zeroOrNaN (0 - totalCost st / position st) = true) as Hdiff
      by now apply zeroOrNaN_sub.
    split.
    + apply zeroOrNaN_sub; [exact Hcost |]. now apply zeroOrNaN_mul_l.
    + apply Map_set_values; [exact Htrades |].
      unfold worthless. cbn [isOpen profit roi orb].
      rewrite zeroOrNaN_mul_l by exact Hdiff.
      rewrite nan_mul; [reflexivity |].
      now apply nan_div_zeroOrNaN.
Qed.

Lemma tokenLoop_worthless (wallet tokenAddr : string)
    (transfers : list Transfer.t) (st : TokenLoop) :
  zeroOrNaN (totalCost st) = true ->
  Forall (fun t => worthless t = true) (List.map snd (trades st)) ->
  Forall (fun t => worthless t = true)
    (List.map snd (trades (fold_left (tokenStep wallet tokenAddr) transfers st))).
Proof.
  revert st. induction transfers as [| x l IH]; intros st Hc Ht; simpl.
  - exact Ht.
  - destruct (tokenStep_worthless wallet tokenAddr st x Hc Ht) as [H1 H2].
    now apply IH.
Qed.

Lemma tokenGroups_worthless (wallet : string)
    (groups : list (string * list Transfer.t))
    (acc : list (string * Trade) * nat) :
  Forall (fun t => worthless t = true) (List.map snd (fst acc)) ->
  Forall (fun t => worthless t = true)
    (List.map snd (fst (fold_left (tokenGroup wallet) groups acc))).
Proof.
  revert acc. induction groups as [| [tokenAddr rows] groups IH];
    intros acc H; simpl.
  - exact H.
  - apply IH. cbn [fst].
    apply tokenLoop_worthless; [reflexivity | exact H].
Qed.

Lemma periodLoop_worthless (now : float) (trades : list Trade)
    (sums : PeriodProfits) :
  Forall (fun t => worthless t = true) trades ->
  fold_left (periodStep now) trades sums = sums.
Proof.
  revert sums. induction 1 as [| t l Ht Hl IH]; simpl; [reflexivity |].
  assert (periodStep now sums t = sums) as ->; [| exact IH].
  unfold periodStep, realised. unfold worthless in Ht.
  destruct (profit t) as [p |]; [| reflexivity].
  destruct (sell t); [| reflexivity].
  destruct (isOpen t); [now rewrite andb_false_r |].
  simpl in Ht. apply andb_prop in Ht. destruct Ht as [Hp _].
  now rewrite (zeroOrNaN_falsy p Hp).
Qed.

Lemma sumROI_nan (trades : list Trade) (sum : float) :
  Forall (fun t => worthless t = true) trades ->
  Forall (fun t => isOpen t = false) trades ->
  is_nan sum = true \/ trades <> [] ->
  is_nan (fold_left (fun sum t => match roi t with
                                  | Some r => (sum + r)%float
                                  | None => sum
                                  end) trades sum) = true.
Proof.
  intros Hw. revert sum. induction Hw as [| t l Ht Hl IH];
    intros sum Hclosed Hstart; simpl.
  - destruct Hstart as [H | H]; [exact H | congruence].
  - inversion Hclosed as [| ? ? Hc Hcl]; subst.
    apply IH; [exact Hcl |]. left.
    unfold worthless in Ht. rewrite Hc in Ht. simpl in Ht.
    apply andb_prop in Ht. destruct Ht as [_ Hr].
    destruct (roi t) as [r |]; [| discriminate].
    now apply nan_add_r.
Qed.

(** X28.  When [getTokenPrice] returns 0 for every request, every closed
    trade of [analyzeTokenTrades] has a profit that is zero or NaN and a
    return that is NaN.  The four profit figures of [calculateProfitHistory]
    are then 0, and its ROI is NaN as soon as one trade is closed. *)
Theorem no_price_no_profit (transfers nftTransfers : list Transfer.t)
    (walletAddress : string) (now : float) :
  let history :=
    calculateProfitHistory transfers nftTransfers walletAddress now in
  forallb worthless (analyzeTokenTrades transfers walletAddress) = true
  /\ ProfitHistory.total history = 0%float
  /\ ProfitHistory.last7d history = 0%float
  /\ ProfitHistory.last30d history = 0%float
  /\ ProfitHistory.last90d history = 0%float
  /\ (ProfitHistory.trades history <> 0%nat ->
      is_nan (ProfitHistory.roi history) = true).
Proof.
  intros history. subst history. unfold calculateProfitHistory.
  assert (analyzeNFTTrades nftTransfers walletAddress = []) as ->
    by (unfold analyzeNFTTrades; apply nftGroups_nothing).
  rewrite app_nil_r.
  assert (Forall (fun t => worthless t = true)
            (analyzeTokenTrades transfers walletAddress)) as Hw.
  { unfold analyzeTokenTrades. apply tokenGroups_worthless. constructor. }
  set (trades := analyzeTokenTrades transfers walletAddress) in *.
  cbn [ProfitHistory.total ProfitHistory.last7d ProfitHistory.last30d
       ProfitHistory.last90d ProfitHistory.trades ProfitHistory.roi].
  unfold calculatePeriodProfits. rewrite periodLoop_worthless by exact Hw.
  split; [now apply forallb_forall, Forall_forall |].
  do 4 (split; [reflexivity |]).
  intros Hclosed. unfold calculateROI.
  assert (filter (fun t => negb (isOpen t) && isSome (roi t)) trades
          = filter (fun t => negb (isOpen t)) trades) as ->.
  { apply filter_ext_in. intros t Ht.
    rewrite Forall_forall in Hw. specialize (Hw t Ht).
    unfold worthless in Hw. destruct (isOpen t); [reflexivity |].
    simpl in Hw. apply andb_prop in Hw. destruct Hw as [_ Hr].
    now destruct (roi t). }
  set (closed := filter (fun t => negb (isOpen t)) trades) in *.
  destruct (List.length closed =? 0)%nat eqn:Hlen.
  - apply Nat.eqb_eq in Hlen. congruence.
  - apply nan_div_l. apply sumROI_nan.
    + apply Forall_forall. intros t Ht. subst closed.
      apply filter_In in Ht. rewrite Forall_forall in Hw. now apply Hw.
    + apply Forall_forall. intros t Ht. subst closed.
      apply filter_In in Ht. destruct Ht as [_ Ht].
      now apply negb_true_iff.
    + right. intros Hnil. rewrite Hnil in Hlen. discriminate.
Qed.

End WithoutPrice.

(** The wallet 0xAA buys 5.00 tokens and sells 3.00 of them. *)
Definition buyThenSell : list Transfer.t :=
  [ transferOf "0x02" "0xcc" "300" "0xT0" "TKN" "1700000200";
    transferOf "0x01" "0xAA" "500" "0xT0" "TKN" "1700000100" ].

Lemma no_price_no_profit_witness :
  ProfitHistory.trades
    (@calculateProfitHistory offlineEngine buyThenSell [] "0xAA"
       1700000300000%float) = 1%nat
  /\ ProfitHistory.total
       (@calculateProfitHistory offlineEngine buyThenSell [] "0xAA"
          1700000300000%float) = 0%float
  /\ is_nan (ProfitHistory.roi
               (@calculateProfitHistory offlineEngine buyThenSell [] "0xAA"
                  1700000300000%float)) = true.
Proof.
  split; [reflexivity |].
  destruct (@no_price_no_profit offlineEngine (fun _ _ => eq_refl)
              buyThenSell [] "0xAA" 1700000300000%float)
    as (_ & Htotal & _ & _ & _ & Hroi).
  split; [exact Htotal |]. apply Hroi. discriminate.
Defined.
(** * The block that a poll starts from *)

Section LastCheckedBlock.

Import WalletAnalyzer.
Import Monitor.

Context {engine : Engine} {host : Host}.

Lemma Math_max_nan (a b : float) :
  is_nan a = true \/ is_nan b = true -> is_nan (Math_max a b) = true.
Proof.
  intros H. unfold Math_max.
  assert (is_nan a || is_nan b = true) as ->
    by (destruct H as [-> | ->]; [reflexivity | apply orb_true_r]).
  reflexivity.
Qed.

Lemma forEach_keeps_nan {Row : Type} (hashOf blockOf : Row -> string)
    (process : Row -> Calls -> list Alert * Calls) (rows : list Row)
    (progress : Progress) :
  is_nan (lastCheckedBlock (state progress)) = true ->
  is_nan (lastCheckedBlock
            (state (forEach hashOf blockOf process rows progress))) = true.
Proof.
  revert progress. induction rows as [| tx rest IH]; intros progress H; simpl.
  - exact H.
  - destruct (alreadyProcessed _ _); [exact H |].
    destruct (process tx (calls progress)) as [alerts calls'].
    apply IH. cbn [state advance lastCheckedBlock].
    apply Math_max_nan. now left.
Qed.

Lemma forAll_keeps_nan {Row : Type} (hashOf blockOf : Row -> string)
    (process : Row -> Calls -> list Alert * Calls) (rows : list Row)
    (progress : Progress) :
  is_nan (lastCheckedBlock (state progress)) = true ->
  is_nan (lastCheckedBlock
            (state (forAll hashOf blockOf process rows progress))) = true.
Proof.
  revert progress. induction rows as [| tx rest IH]; intros progress H; simpl.
  - exact H.
  - destruct (process tx (calls progress)) as [alerts calls'].
    apply IH. cbn [state advance lastCheckedBlock].
    apply Math_max_nan. now left.
Qed.

Lemma forAll_meets_nan {Row : Type} (hashOf blockOf : Row -> string)
    (process : Row -> Calls -> list Alert * Calls) (rows : list Row)
    (progress : Progress) (row : Row) :
  In row rows -> is_nan (parseInt (blockOf row)) = true ->
  is_nan (lastCheckedBlock
            (state (forAll hashOf blockOf process rows progress))) = true.
Proof.
  revert progress. induction rows as [| tx rest IH]; intros progress Hin Hnan;
    simpl; [contradiction |].
  destruct (process tx (calls progress)) as [alerts calls'].
  destruct Hin as [-> | Hin].
  - apply forAll_keeps_nan. cbn [state advance lastCheckedBlock].
    apply Math_max_nan. now right.
  - now apply IH.
Qed.

(** The block numbers of a batch, in the order in which the step reads
    them. *)
Definition blockNumbersOf (transactions : Fetched) : list string :=
  List.map Tx.blockNumber (normal transactions)
  ++ List.map Transfer.blockNumber (tokens transactions)
  ++ List.map Transfer.blockNumber (nfts transactions).

(** X29.  [lastCheckedBlock], the block that the next poll starts from, does
    not recover from NaN: once it is NaN the 'process transactions' step
    leaves it NaN, whatever it processes.  And one block number that does not
    parse, anywhere in a batch that is processed in full, makes it NaN. *)
Theorem unparsable_block_is_never_forgotten (walletAddress : string)
    (transactions : Fetched) (progress : Progress) :
  let after := processTransactions walletAddress transactions progress in
  (is_nan (lastCheckedBlock (state progress)) = true ->
   is_nan (lastCheckedBlock (state after)) = true)
  /\ (neverBreaks (lastTxHash (state progress)) (hashesOf transactions) = true ->
      existsb (fun blockNumber => is_nan (parseInt blockNumber))
        (blockNumbersOf transactions) = true ->
      is_nan (lastCheckedBlock (state after)) = true).
Proof.
  intros after. subst after. split.
  - intros H. unfold processTransactions.
    destruct (_ && _); [exact H |].
    now do 3 apply forEach_keeps_nan.
  - intros Hnever Hsome.
    destruct (processTransactions_all walletAddress transactions progress Hnever)
      as [-> _].
    unfold processAll. cbv zeta.
    apply existsb_exists in Hsome. destruct Hsome as (b & Hin & Hnan).
    unfold blockNumbersOf in Hin.
    apply in_app_or in Hin. destruct Hin as [Hin | Hin].
    + apply in_map_iff in Hin. destruct Hin as (tx & <- & Hin).
      do 2 apply forAll_keeps_nan.
      now apply (forAll_meets_nan Tx.hash Tx.blockNumber _ _ _ tx).
    + apply in_app_or in Hin. destruct Hin as [Hin | Hin];
        apply in_map_iff in Hin; destruct Hin as (tx & <- & Hin).
      * apply forAll_keeps_nan.
        now apply (forAll_meets_nan Transfer.hash Transfer.blockNumber _ _ _ tx).
      * now apply (forAll_meets_nan Transfer.hash Transfer.blockNumber _ _ _ tx).
Qed.

End LastCheckedBlock.

(** A batch whose second transfer is still pending, without block number. *)
Definition damagedBatch : Monitor.Fetched :=
  {| Monitor.normal := [];
     Monitor.tokens :=
       [ transferOf "0x02" "0xaa" "500" "0xT0" "TKN" "1700000100";
         {| Transfer.hash := "0x01"; Transfer.blockNumber := "pending";
            Transfer.to := "0xbb"; Transfer.value := "300";
            Transfer.contractAddress := "0xT0"; Transfer.tokenName := "TKN";
            Transfer.tokenSymbol := "TKN"; Transfer.tokenDecimal := "2";
            Transfer.tokenID := "7"; Transfer.timeStamp := "1700000000" |} ];
     Monitor.nfts := [] |}.

Lemma unparsable_block_is_never_forgotten_witness :
  is_nan (Monitor.lastCheckedBlock
            (Monitor.state
               (@Monitor.processTransactions exampleEngine newHost "0xAA"
                  damagedBatch freshProgress))) = true
  /\ is_nan (Monitor.lastCheckedBlock
               (Monitor.state
                  (@Monitor.processTransactions exampleEngine newHost "0xAA"
                     twoTransfers
                     (@Monitor.processTransactions exampleEngine newHost
                        "0xAA" damagedBatch freshProgress)))) = true.
Proof.
  assert (is_nan (Monitor.lastCheckedBlock
                    (Monitor.state
                       (@Monitor.processTransactions exampleEngine newHost
                          "0xAA" damagedBatch freshProgress))) = true) as H.
  { apply (proj2 (@unparsable_block_is_never_forgotten exampleEngine newHost
                    "0xAA" damagedBatch freshProgress)); reflexivity. }
  split; [exact H |].
  apply (proj1 (@unparsable_block_is_never_forgotten exampleEngine newHost
                  "0xAA" twoTransfers _)).
  exact H.
Defined.
